(** * art-fractals: tiled escape-time rendering and polynomial colouring

    A shallow embedding of [src/py/mandelbrot.py], [src/py/mandelbrot_float.py],
    [src/py/mandelbrot_complex.py] and [src/py/polycolor.py].

    Conventions of the embedding:
    - Python [int] is [Z]; Python [float] and [np.float64] are Rocq's
      primitive binary64 [float], whose operations are the IEEE 754 ones
      that CPython and numpy execute;
    - a call that may raise returns a [result]: [Ok v] or [Raise e];
    - a 2-D [np.ndarray] is the list of its rows;
    - what the operating system decides (the contents of [np.empty], the
      order in which worker processes finish, the random generator) is an
      explicit parameter of the function it influences. *)

From Stdlib Require Import ZArith List Lia Bool String Floats.
From stdpp Require Import base list.

Local Open Scope Z_scope.

(** ** Exceptions and the error monad *)

(** A Python exception, by class name and message. *)
Inductive pyexc : Type :=
| PyExc (cls : string) (msg : string).

Inductive result (A : Type) : Type :=
| Ok (a : A)
| Raise (e : pyexc).

Arguments Ok {A} a.
Arguments Raise {A} e.

Definition bind {A B : Type} (m : result A) (k : A -> result B) : result B :=
  match m with
  | Ok a => k a
  | Raise e => Raise e
  end.

Notation "'let*' x := m 'in' k" := (bind m (fun x => k))
  (at level 10, x pattern, m at level 100, k at level 200, only parsing).

(** A [for] loop whose body may raise: the first exception stops the loop. *)
Fixpoint mapM {A B : Type} (f : A -> result B) (l : list A) : result (list B) :=
  match l with
  | [] => Ok []
  | a :: l' => let* b := f a in let* bs := mapM f l' in Ok (b :: bs)
  end.

Fixpoint foldM {A S : Type} (f : S -> A -> result S) (l : list A) (s : S) : result S :=
  match l with
  | [] => Ok s
  | a :: l' => let* s' := f s a in foldM f l' s'
  end.

Definition is_ok {A : Type} (m : result A) : bool :=
  match m with Ok _ => true | Raise _ => false end.

(** ** Python and numpy primitives *)

Module Py.

(** [range(n)]: the integers 0, 1, ..., n-1; empty when [n <= 0]. *)
Definition range (n : Z) : list Z :=
  map Z.of_nat (seq 0 (Z.to_nat n)).

(** [range(a, b)]: the integers a, ..., b-1; empty when [b <= a]. *)
Definition range2 (a b : Z) : list Z :=
  map (fun k => a + Z.of_nat k) (seq 0 (Z.to_nat (b - a))).

(** [len(l)]. *)
Definition len {A : Type} (l : list A) : Z := Z.of_nat (length l).

(** [a[i]] on a one-dimensional array: a negative index counts from the
    end, an index outside [-len, len) raises IndexError. *)
Definition getitem {A : Type} (a : list A) (i : Z) : result A :=
  let j := if i <? 0 then i + len a else i in
  if (0 <=? j) && (j <? len a) then
    match nth_error a (Z.to_nat j) with
    | Some v => Ok v
    | None => Raise (PyExc "IndexError" "index out of bounds")
    end
  else Raise (PyExc "IndexError" "index out of bounds").

(** Conversion of an [int] to binary64, rounded to nearest even (exact up
    to 2^53).  CPython raises OverflowError beyond the range of a double;
    here the value saturates to infinity.  Only a budget reaches that
    range; the statements about a budget that is stored in an array, or
    divides one, are made for the budgets of [double_range]. *)
Definition Z2float (z : Z) : float :=
  SF2Prim (binary_normalize prec emax z 0 false).

Definition Z2SF (z : Z) : spec_float :=
  match z with
  | Z0 => S754_zero false
  | Zpos p => S754_finite false p 0
  | Zneg p => S754_finite true p 0
  end.

(** [a / b] on two [int]s: the quotient of the integers rounded once to
    binary64 (CPython's [long_true_divide]).  [b = 0] raises
    ZeroDivisionError in Python; the program divides only by a loop bound
    that is at least 1. *)
Definition int_truediv (a b : Z) : float :=
  SF2Prim (SFdiv prec emax (Z2SF a) (Z2SF b)).

(** A Python number as the evaluators return it. *)
Inductive pynum : Type :=
| PyInt (z : Z)
| PyFloat (f : float).

(** The value a number takes when it is stored in a float64 array. *)
Definition to_float64 (v : pynum) : float :=
  match v with
  | PyInt z => Z2float z
  | PyFloat f => f
  end.

(** Python's [==] on numbers of the two kinds (through binary64, which is
    exact for the integers the evaluators return). *)
Definition py_eq (a b : pynum) : bool :=
  PrimFloat.eqb (to_float64 a) (to_float64 b).

Definition is_finite (x : float) : bool :=
  negb (PrimFloat.is_nan x) && negb (PrimFloat.is_infinity x).

(** A 2-D float64 array, as the list of its rows.  (The shape of an array
    without rows is not recorded.) *)
Abbreviation grid := (list (list float)).

(** [np.linspace(start, stop, num)] with the default [endpoint=True], as
    numpy computes it: [arange(0, num) * step + start] with
    [step = (stop - start) / (num - 1)], the last sample overwritten by
    [stop] when there are at least two samples; when [num - 1 <= 0] the
    samples are [arange(0, num) * (stop - start) + start]. *)
Definition linspace (start stop : float) (num : Z) : result (list float) :=
  if num <? 0 then
    Raise (PyExc "ValueError" "Number of samples must be non-negative")
  else
    let div := num - 1 in
    let delta := (stop - start)%float in
    let y := map Z2float (range num) in
    let y :=
      if 0 <? div then
        let step := (delta / Z2float div)%float in
        if (step =? 0)%float
        then map (fun v => (v / Z2float div * delta)%float) y
        else map (fun v => (v * step)%float) y
      else map (fun v => (v * delta)%float) y in
    let y := map (fun v => (v + start)%float) y in
    Ok (if 1 <? num then <[Nat.pred (length y) := stop]> y else y).

(** [np.empty(shape=(rows, cols))]: an array whose cells hold whatever the
    allocated memory [mem] contains. *)
Definition empty (mem : nat -> nat -> float) (rows cols : Z) : result grid :=
  if (rows <? 0) || (cols <? 0) then
    Raise (PyExc "ValueError" "negative dimensions are not allowed")
  else
    Ok (map (fun r => map (fun c => mem r c) (seq 0 (Z.to_nat cols)))
            (seq 0 (Z.to_nat rows))).

(** [zz[rmin:rmax, cmin:cmax] = v]: row [r] of the slice receives row
    [r - rmin] of [v] in the columns from [cmin] on.  The model covers the
    assignment the executors perform: the slice lies inside the array and
    [v] has the shape of the slice.  Elsewhere numpy clips or wraps the
    slice and broadcasts [v] or raises ValueError; the model raises. *)
Definition setitem_slice2 (zz : grid) (rmin rmax cmin cmax : Z) (v : grid)
  : result grid :=
  if (0 <=? rmin) && (rmin <=? rmax) && (rmax <=? len zz)
     && (0 <=? cmin) && (cmin <=? cmax)
     && forallb (fun row => cmax <=? len row) zz
     && (len v =? rmax - rmin)
     && forallb (fun row => len row =? cmax - cmin) v
  then
    let r0 := Z.to_nat rmin in
    let r1 := Z.to_nat rmax in
    let c0 := Z.to_nat cmin in
    Ok (imap (fun r row =>
                if (r0 <=? r)%nat && (r <? r1)%nat then
                  match v !! (r - r0)%nat with
                  | Some vrow => list_inserts c0 vrow row
                  | None => row
                  end
                else row)
             zz)
  else Raise (PyExc "ValueError" "could not broadcast input array").

(** The reductions [np.min] and [np.max] over all cells: NaN propagates,
    an array without cells raises ValueError. *)
Definition fmin (a b : float) : float :=
  if PrimFloat.is_nan a then a
  else if PrimFloat.is_nan b then b
  else if (b <? a)%float then b else a.

Definition fmax (a b : float) : float :=
  if PrimFloat.is_nan a then a
  else if PrimFloat.is_nan b then b
  else if (a <? b)%float then b else a.

Definition amin (g : grid) : result float :=
  match concat g with
  | [] => Raise (PyExc "ValueError" "zero-size array to reduction operation minimum which has no identity")
  | x :: l => Ok (fold_left fmin l x)
  end.

Definition amax (g : grid) : result float :=
  match concat g with
  | [] => Raise (PyExc "ValueError" "zero-size array to reduction operation maximum which has no identity")
  | x :: l => Ok (fold_left fmax l x)
  end.

(** [ProcessPoolExecutor(max_workers=n)]: the constructor of
    [concurrent.futures] refuses a pool without workers. *)
Definition ProcessPoolExecutor (max_workers : Z) : result unit :=
  if max_workers <=? 0 then
    Raise (PyExc "ValueError" "max_workers must be greater than 0")
  else Ok tt.

End Py.

Import Py.

(** ** EscapeEvaluator: the loop shared by the two real-valued [fn_test] *)

(** The body of [for i in range(depth)] in [fn_test] of mandelbrot.py
    (threshold 4) and of mandelbrot_float.py (threshold 16): [Some i] when
    the escape test fires at index [i] (the [return] inside the loop),
    [None] when the loop runs to its end. *)
Fixpoint escape_loop (threshold cx cy x y : float) (its : list Z) : option Z :=
  match its with
  | [] => None
  | i :: rest =>
      let xn := (x * x - y * y + cx)%float in
      let yn := (2 * x * y + cy)%float in
      if (threshold <? xn * xn + yn * yn)%float then Some i
      else escape_loop threshold cx cy xn yn rest
  end.

Definition escape_index (threshold cx cy : float) (depth : Z) : option Z :=
  escape_loop threshold cx cy 0%float 0%float (range depth).

(** The dictionary a worker returns for one tile. *)
Record TileResult : Type := {
  zz : grid;
  rmin : Z;
  rmax : Z;
  cmin : Z;
  cmax : Z
}.

(** What a future holds once its task is over: the tile, or the exception
    the task raised, which [future.result()] raises again. *)
Definition Future : Type := result TileResult.

Definition future_result (f : Future) : result TileResult := f.

(** [completion_order sched]: [sched] lists the futures it is given in the
    order in which they complete, each one once. *)
Definition completion_order (sched : list Future -> list Future) : Prop :=
  forall l, Permutation (sched l) l.

(** ** mandelbrot.py *)

Module Mandelbrot.

(** [fn_test] (lines 17-29). *)
Definition fn_test (cx cy : float) (depth : Z) : pynum :=
  match escape_index 4 cx cy depth with
  | Some i => PyFloat (int_truediv i depth)
  | None => PyInt 0
  end.

(** [batch_ranges_with_size] (lines 92-121). *)
Definition batch_ranges_with_size (N batch_size : Z) : result (list (Z * Z)) :=
  if N <=? batch_size then
    Ok [(0, N)]
  else if batch_size =? 0 then
    Raise (PyExc "ZeroDivisionError" "integer division or modulo by zero")
  else
    let n_batches := N / batch_size in
    let rng := map (fun i => (i * batch_size, (i + 1) * batch_size)) (range n_batches) in
    if batch_size * n_batches <? N then
      Ok (rng ++ [(batch_size * n_batches, N)])
    else
      Ok rng.

Section Executor.

(** The evaluator the worker calls for each pixel; it may raise. *)
Variable evaluate : float -> float -> Z -> result pynum.
(** The order in which the pool completes the submitted tasks. *)
Variable as_completed : list Future -> list Future.
(** The contents of the memory [np.empty] hands out. *)
Variable mem : nat -> nat -> float.

(** [compute_tile] (lines 40-60).  Every cell of the fresh buffer is
    assigned by the two loops, so its initial contents play no role. *)
Definition compute_tile_with (xx yy : list float) (rmin rmax cmin cmax depth : Z)
  : result TileResult :=
  let rows := rmax - rmin in
  let cols := cmax - cmin in
  if (rows <? 0) || (cols <? 0) then
    Raise (PyExc "ValueError" "negative dimensions are not allowed")
  else
    let* zz :=
      mapM (fun r =>
        mapM (fun c =>
          let* x := getitem xx c in
          let* y := getitem yy r in
          let* v := evaluate x y depth in
          Ok (to_float64 v))
        (range2 cmin cmax))
      (range2 rmin rmax) in
    Ok {| zz := zz; rmin := rmin; rmax := rmax; cmin := cmin; cmax := cmax |}.

(** The tasks submitted by the two nested loops (lines 75-80), each with
    the outcome its future will hold. *)
Definition submit_all (xx yy : list float) (depth : Z)
    (row_batches col_batches : list (Z * Z)) : list Future :=
  flat_map (fun row_batch =>
    map (fun col_batch =>
      compute_tile_with xx yy (fst row_batch) (snd row_batch)
                        (fst col_batch) (snd col_batch) depth)
      col_batches)
    row_batches.

(** [compute_image] (lines 63-89).  The progress bar and the two [print]
    calls produce no value; [np.min] and [np.max] are kept because they
    raise on an array without cells. *)
Definition compute_image_with (xx yy : list float) (depth n_workers tile_size : Z)
  : result grid :=
  let rows := len yy in
  let cols := len xx in
  let* row_batches := batch_ranges_with_size rows tile_size in
  let* col_batches := batch_ranges_with_size cols tile_size in
  let* _ := ProcessPoolExecutor n_workers in
  let future_list := submit_all xx yy depth row_batches col_batches in
  let* image_tile_list := mapM future_result (as_completed future_list) in
  let* zz0 := empty mem rows cols in
  let* out :=
    foldM (fun acc tile =>
             setitem_slice2 acc tile.(rmin) tile.(rmax) tile.(cmin) tile.(cmax)
                            tile.(zz))
          image_tile_list zz0 in
  let* _ := amin out in
  let* _ := amax out in
  Ok out.

End Executor.

Definition compute_tile : list float -> list float -> Z -> Z -> Z -> Z -> Z -> result TileResult :=
  compute_tile_with (fun cx cy depth => Ok (fn_test cx cy depth)).


Definition compute_image (as_completed : list Future -> list Future)
    (mem : nat -> nat -> float) : list float -> list float -> Z -> Z -> Z -> result grid :=
  compute_image_with (fun cx cy depth => Ok (fn_test cx cy depth)) as_completed mem.

(** The two axes built by [mandelbrot] (lines 34-35): the real axis from
    [xmin] to [xmax], the imaginary axis from [ymax] down to [ymin]. *)
Definition axes (xmin xmax ymin ymax : float) (image_size : Z)
  : result (list float * list float) :=
  let* xx := linspace xmin xmax image_size in
  let* yy := linspace ymax ymin image_size in
  Ok (xx, yy).

(** [mandelbrot] (lines 32-37). *)
Definition mandelbrot (as_completed : list Future -> list Future)
    (mem : nat -> nat -> float)
    (xmin xmax ymin ymax : float) (image_size depth n_workers tile_size : Z)
  : result grid :=
  let* grid_axes := axes xmin xmax ymin ymax image_size in
  let xx := fst grid_axes in
  let yy := snd grid_axes in
  compute_image as_completed mem xx yy depth n_workers tile_size.

End Mandelbrot.

(** ** mandelbrot_float.py *)

Module Hup.

(** Modelled from the spec: [hup.batch_ranges_with_size], imported by
    mandelbrot_float.py and mandelbrot_complex.py from the package
    [avax.hydra.utils.parallel], is not among the source files.  The
    definition follows section 4.3: a single range [[0, total_length)] when
    [total_length <= tile_size]; otherwise [floor(total_length / tile_size)]
    full-size ranges, then one trailing remainder range when
    [total_length] is not an exact multiple of [tile_size]. *)
Definition batch_ranges_with_size (total_length tile_size : Z)
  : result (list (Z * Z)) :=
  if total_length <=? tile_size then
    Ok [(0, total_length)]
  else if tile_size =? 0 then
    Raise (PyExc "ZeroDivisionError" "integer division or modulo by zero")
  else
    let n := total_length / tile_size in
    let full := map (fun i => (i * tile_size, (i + 1) * tile_size)) (range n) in
    if total_length mod tile_size =? 0 then Ok full
    else Ok (full ++ [(n * tile_size, total_length)]).

End Hup.

Module MandelbrotFloat.

(** [fn_test] (lines 22-36): the raw iteration count. *)
Definition fn_test (cx cy : float) (max_it : Z) : Z :=
  match escape_index 16 cx cy max_it with
  | Some i => i
  | None => max_it
  end.

(** [_inner_loop] (lines 51-58). *)
Definition _inner_loop (xx yy : list float) (rmin rmax cmin cmax max_it : Z)
  : result TileResult :=
  let rows := rmax - rmin in
  let cols := cmax - cmin in
  if (rows <? 0) || (cols <? 0) then
    Raise (PyExc "ValueError" "negative dimensions are not allowed")
  else
    let* zz :=
      mapM (fun r =>
        mapM (fun c =>
          let* x := getitem xx c in
          let* y := getitem yy r in
          Ok (Z2float (fn_test x y max_it)))
        (range2 cmin cmax))
      (range2 rmin rmax) in
    Ok {| zz := zz; rmin := rmin; rmax := rmax; cmin := cmin; cmax := cmax |}.

(** [zz / max_it]: every cell divided by the iteration budget. *)
Definition normalize (out : grid) (max_it : Z) : grid :=
  map (map (fun v => (v / Z2float max_it)%float)) out.

(** [compute_image] (lines 61-68): the sequential executor. *)
Definition compute_image (xx yy : list float) (max_it : Z) : result grid :=
  let rows := len yy in
  let cols := len xx in
  let* out := _inner_loop xx yy 0 rows 0 cols max_it in
  Ok (normalize out.(zz) max_it).

(** [compute_image_mp] (lines 71-95): the tiled executor. *)
Definition compute_image_mp (as_completed : list Future -> list Future)
    (mem : nat -> nat -> float)
    (xx yy : list float) (max_it n_workers tile_size : Z) : result grid :=
  let rows := len yy in
  let cols := len xx in
  let* row_batches := Hup.batch_ranges_with_size rows tile_size in
  let* col_batches := Hup.batch_ranges_with_size cols tile_size in
  let* _ := ProcessPoolExecutor n_workers in
  let future_list :=
    flat_map (fun row_batch =>
      map (fun col_batch =>
        _inner_loop xx yy (fst row_batch) (snd row_batch)
                    (fst col_batch) (snd col_batch) max_it)
        col_batches)
      row_batches in
  let* result_list := mapM future_result (as_completed future_list) in
  let* zz0 := empty mem rows cols in
  let* out :=
    foldM (fun acc r =>
             setitem_slice2 acc r.(rmin) r.(rmax) r.(cmin) r.(cmax) r.(zz))
          result_list zz0 in
  Ok (normalize out max_it).

(** The two axes built by [mandelbrot] (lines 41-42). *)
Definition axes (xmin xmax ymin ymax : float) (steps : Z)
  : result (list float * list float) :=
  let* xx := linspace xmin xmax steps in
  let* yy := linspace ymax ymin steps in
  Ok (xx, yy).

(** [mandelbrot] (lines 39-48); writing the array to disk leaves no trace
    in the value returned. *)
Definition mandelbrot (as_completed : list Future -> list Future)
    (mem : nat -> nat -> float)
    (xmin xmax ymin ymax : float) (steps max_it n_workers tile_size : Z)
  : result grid :=
  let* grid_axes := axes xmin xmax ymin ymax steps in
  let xx := fst grid_axes in
  let yy := snd grid_axes in
  if n_workers <=? 1 then compute_image xx yy max_it
  else compute_image_mp as_completed mem xx yy max_it n_workers tile_size.

End MandelbrotFloat.

(** ** mandelbrot_complex.py *)

Module MandelbrotComplex.

(** The complex arithmetic [fn_test] uses, as numpy and CPython provide it
    for the type of [c] (complex64 in the grid of this file). *)
Class ComplexArith (C : Type) : Type := {
  c_zero : C;                (* 0 + 0j *)
  c_sq : C -> C;             (* z**2 *)
  c_add : C -> C -> C;       (* z + c *)
  c_abs_gt2 : C -> bool      (* np.abs(z) > 2.0 *)
}.

Section FnTest.

Context {C : Type} `{ComplexArith C}.

Fixpoint fn_test_loop (c z : C) (its : list Z) : option Z :=
  match its with
  | [] => None
  | i :: rest =>
      let zn := c_add (c_sq z) c in
      if c_abs_gt2 zn then Some i else fn_test_loop c zn rest
  end.

(** [fn_test] (lines 18-25). *)
Definition fn_test (c : C) (max_it : Z) : Z :=
  match fn_test_loop c c_zero (range max_it) with
  | Some i => i
  | None => max_it
  end.

End FnTest.

(** The arithmetic at double precision: a complex number is the pair of
    its real and imaginary parts, the product is the textbook one and the
    modulus is the square root of the sum of the squares. *)
#[export] Instance complex_double : ComplexArith (float * float) := {
  c_zero := (0, 0)%float;
  c_sq z := (fst z * fst z - snd z * snd z, fst z * snd z + snd z * fst z)%float;
  c_add z c := (fst z + fst c, snd z + snd c)%float;
  c_abs_gt2 z := (2 <? PrimFloat.sqrt (fst z * fst z + snd z * snd z))%float
}.

End MandelbrotComplex.

(** *** The loops and the entry point of mandelbrot_complex.py *)

Module MandelbrotComplexLoops.

(** The cast of a binary64 to [np.float32] ([T_FLOAT] of this file),
    rounded to nearest even; the result is held in a binary64, which
    represents every binary32 number exactly. *)
Definition to_float32 (v : float) : float :=
  match Prim2SF v with
  | S754_finite s m e =>
      SF2Prim (binary_normalize 24 128 (if s then Z.neg m else Z.pos m) e s)
  | _ => v
  end.

(** An [int] stored into a [np.float32] cell: numpy converts it to a C
    double and casts the double.  The statements about such a cell are made
    for the budgets of [exact_range], where the double is the int and a
    direct cast of the int gives the same float32. *)
Definition Z2float32 (z : Z) : float := to_float32 (Z2float z).

(** The quotient of a [np.float32] cell by an [int], computed in
    binary32. *)
Definition div32 (v : float) (z : Z) : float :=
  SF2Prim (SFdiv 24 128 (Prim2SF v) (Prim2SF (Z2float32 z))).

(** The assignment [yy[rmin:rmax, cmin:cmax] = r["out"]] of the merge. *)
Definition paste (acc : grid) (r : TileResult) : result grid :=
  setitem_slice2 acc r.(rmin) r.(rmax) r.(cmin) r.(cmax) r.(zz).

(** The dictionary [_mandelbrot_inner_loop_mp] returns. *)
Record MpResult : Type := {
  out : grid;
  rows : Z * Z;
  cols : Z * Z
}.

Section Loops.

Context {C : Type} {arith : MandelbrotComplex.ComplexArith C}.

(** The element [c + 1j*r] of the grid after [astype(np.complex64)], as
    numpy computes it from the two float64 samples. *)
Variable complex_of : float -> float -> C.

(** [xx[r, c]] on a two-dimensional array. *)
Definition getitem2 (xx : list (list C)) (r c : Z) : result C :=
  let* row := getitem xx r in
  getitem row c.

(** [get_grid] (lines 27-35); [np.vstack] refuses an empty list. *)
Definition get_grid (xmin xmax ymin ymax : float) (steps : Z)
  : result (list (list C)) :=
  let* c := linspace xmin xmax steps in
  let* r := linspace ymax ymin steps in
  let* _grid :=
    mapM (fun i =>
            let* ri := getitem r i in
            Ok (map (fun cj => complex_of cj ri) c))
         (range steps) in
  match _grid with
  | [] => Raise (PyExc "ValueError" "need at least one array to concatenate")
  | _ => Ok _grid
  end.

(** [_mandelbrot_inner_loop] (lines 55-62).  Its dictionary holds the
    buffer under the key "out"; it is the record [TileResult], with the
    buffer in the field [zz]. *)
Definition _mandelbrot_inner_loop (xx : list (list C))
    (rmin rmax cmin cmax max_it : Z) : result TileResult :=
  let nrows := rmax - rmin in
  let ncols := cmax - cmin in
  if (nrows <? 0) || (ncols <? 0) then
    Raise (PyExc "ValueError" "negative dimensions are not allowed")
  else
    let* yy :=
      mapM (fun r =>
        mapM (fun c =>
          let* z := getitem2 xx r c in
          Ok (Z2float32 (MandelbrotComplex.fn_test z max_it)))
        (range2 cmin cmax))
      (range2 rmin rmax) in
    Ok {| zz := yy; rmin := rmin; rmax := rmax; cmin := cmin; cmax := cmax |}.

(** [_mandelbrot_inner_loop_mp] (lines 65-86). *)
Definition _mandelbrot_inner_loop_mp (as_completed : list Future -> list Future)
    (mem : nat -> nat -> float) (xx : list (list C))
    (rmin rmax cmin cmax max_it n_workers tile_size : Z) : result MpResult :=
  if negb (rmin =? 0) then
    Raise (PyExc "ValueError" "Only the non-threaded inner loop can have a rmin=0 value.")
  else
    let* row_batches := Hup.batch_ranges_with_size rmax tile_size in
    let* col_batches := Hup.batch_ranges_with_size cmax tile_size in
    let* _ := ProcessPoolExecutor n_workers in
    let future_list :=
      flat_map (fun row_batch =>
        map (fun col_batch =>
          _mandelbrot_inner_loop xx (fst row_batch) (snd row_batch)
                                 (fst col_batch) (snd col_batch) max_it)
          col_batches)
        row_batches in
    let* result_list := mapM future_result (as_completed future_list) in
    let* yy0 := empty mem (rmax - rmin) (cmax - cmin) in
    let* yy :=
      foldM paste result_list yy0 in
    Ok {| out := yy; rows := (rmin, rmax); cols := (cmin, cmax) |}.

(** [mandelbrot] (lines 38-52); writing the array to disk leaves no trace
    in the value returned. *)
Definition mandelbrot (as_completed : list Future -> list Future)
    (mem : nat -> nat -> float)
    (xmin xmax ymin ymax : float) (steps max_it n_workers tile_size : Z)
  : result grid :=
  let* xx := get_grid xmin xmax ymin ymax steps in
  let nrows := len xx in
  let ncols := match xx with [] => 0 | row :: _ => len row end in
  let* yy :=
    if n_workers <=? 1 then
      let* out_dict := _mandelbrot_inner_loop xx 0 nrows 0 ncols max_it in
      Ok out_dict.(zz)
    else
      let* out_dict :=
        _mandelbrot_inner_loop_mp as_completed mem xx 0 nrows 0 ncols max_it
                                  n_workers tile_size in
      Ok out_dict.(out) in
  Ok (map (map (fun v => div32 v max_it)) yy).

End Loops.

End MandelbrotComplexLoops.

(** ** polycolor.py *)

(** A method that reads and writes the object and the random generator:
    it returns a value or raises, and leaves a state behind either way. *)
Definition M (St A : Type) : Type := St -> result A * St.

Definition ret {St A : Type} (a : A) : M St A := fun s => (Ok a, s).

Definition raise {St A : Type} (e : pyexc) : M St A := fun s => (Raise e, s).

Definition bindM {St A B : Type} (m : M St A) (k : A -> M St B) : M St B :=
  fun s =>
    match m s with
    | (Ok a, s') => k a s'
    | (Raise e, s') => (Raise e, s')
    end.

Definition lift {St A : Type} (r : result A) : M St A := fun s => (r, s).

Notation "'do*' x := m 'in' k" := (bindM m (fun x => k))
  (at level 10, x pattern, m at level 100, k at level 200, only parsing).

Module PolyColor.

(** An array as [apply] may receive it, by number of dimensions. *)
Inductive ndarray : Type :=
| Nd1 (v : list float)
| Nd2 (g : grid)
| Nd3 (c : list grid).

Definition ndim (a : ndarray) : Z :=
  match a with
  | Nd1 _ => 1
  | Nd2 _ => 2
  | Nd3 _ => 3
  end.

(** [np.pi]. *)
Definition np_pi : float := 0x1.921fb54442d18p+1%float.

(** The attributes of a [PolyColor] object.  [color] is absent until
    [_init_colors] has run; [init_colors] holds what [_init_colors]
    returned. *)
Record polycolor : Type := {
  order : Z;
  init_colors : option grid;
  color : option grid
}.

Section WithNumpy.

(** [np.sin] and [np.power] on float64, and the conversion
    [astype(np.uint8)] of one float64 cell, as the platform computes them. *)
Variable np_sin : float -> float.
Variable np_power : float -> float -> float.
Variable astype_uint8 : float -> Z.
(** The state of numpy's global random generator and one draw from the
    uniform distribution on [0, 1). *)
Variable RNG : Type.
Variable random_sample : RNG -> float * RNG.
(** The contents of the memory [np.empty] hands out for the image. *)
Variable mem3 : nat -> nat -> nat -> float.

Definition state : Type := polycolor * RNG.

Fixpoint draw (n : nat) (g : RNG) : list float * RNG :=
  match n with
  | O => ([], g)
  | S k =>
      let (x, g1) := random_sample g in
      let (xs, g2) := draw k g1 in
      (x :: xs, g2)
  end.

Fixpoint draw_rows (rows cols : nat) (g : RNG) : grid * RNG :=
  match rows with
  | O => ([], g)
  | S k =>
      let (row, g1) := draw cols g in
      let (rest, g2) := draw_rows k cols g1 in
      (row :: rest, g2)
  end.

(** [np.random.rand(d0, d1)]. *)
Definition rand (d0 d1 : Z) : M state grid :=
  fun s =>
    if (d0 <? 0) || (d1 <? 0) then
      (Raise (PyExc "ValueError" "negative dimensions are not allowed"), s)
    else
      let (a, g) := draw_rows (Z.to_nat d0) (Z.to_nat d1) (snd s) in
      (Ok a, (fst s, g)).

Definition get_self : M state polycolor := fun s => (Ok (fst s), s).

Definition set_color (c : grid) : M state unit :=
  fun s =>
    (Ok tt,
     ({| order := (fst s).(order);
         init_colors := (fst s).(init_colors);
         color := Some c |}, snd s)).

(** [_init_colors] (lines 10-12): it assigns [self.color] and, having no
    [return] statement, returns None. *)
Definition _init_colors : M state (option grid) :=
  do* self := get_self in
  do* c := rand 3 (self.(order) + 1) in
  do* _ := set_color c in
  ret None.

(** [__init__] (lines 6-8), from the generator's state to the new object
    and the generator's state. *)
Definition __init__ (order : Z) (g : RNG) : result polycolor * RNG :=
  let self0 := {| order := order; init_colors := None; color := None |} in
  match _init_colors (self0, g) with
  | (Ok r, (self1, g1)) =>
      (Ok {| order := self1.(PolyColor.order);
             init_colors := r;
             color := self1.(color) |}, g1)
  | (Raise e, (_, g1)) => (Raise e, g1)
  end.

(** [self.color[channel][i]]. *)
Definition coefficient (self : polycolor) (channel i : Z) : result float :=
  match self.(color) with
  | None => Raise (PyExc "AttributeError" "'PolyColor' object has no attribute 'color'")
  | Some c => let* row := getitem c channel in getitem row i
  end.

(** [_normalize] (lines 44-47). *)
Definition _normalize (data : grid) : result grid :=
  let* _min := amin data in
  let* _max := amax data in
  Ok (map (map (fun v => ((v - _min) / (_max - _min))%float)) data).

(** One turn of the loop of [_color_map_channel] (lines 32-34). *)
Definition color_term (self : polycolor) (data : grid) (channel : Z)
    (buffer : grid) (i : Z) : result grid :=
  let* c := coefficient self channel i in
  let freq := (np_power c (Z2float i) * 2 * np_pi)%float in
  let buffer := zip_with (zip_with (fun b v => (b + np_sin (freq * v))%float)) buffer data in
  let* c' := coefficient self channel i in
  Ok (zip_with (zip_with (fun b v => (b + c' * np_power v (Z2float i))%float)) buffer data).

(** [_color_map_channel] (lines 29-36). *)
Definition _color_map_channel (self : polycolor) (data : grid) (channel : Z)
  : result grid :=
  let buffer := map (map (fun _ => 0%float)) data in
  let* buffer := foldM (color_term self data channel) (range (self.(order) + 1)) buffer in
  _normalize buffer.

(** [_cvtcolor] (lines 49-52). *)
Definition _cvtcolor (data : list (list (list float))) : list (list (list Z)) :=
  map (map (map (fun v => astype_uint8 (255 * v)%float))) data.

(** [np.empty(shape=(rows, cols, 3))]. *)
Definition empty3 (rows cols : nat) : list (list (list float)) :=
  map (fun r => map (fun c => map (fun k => mem3 r c k) (seq 0 3)) (seq 0 cols))
      (seq 0 rows).

(** [buffer[:, :, channel] = v]. *)
Definition set_channel (buffer : list (list (list float))) (channel : Z) (v : grid)
  : list (list (list float)) :=
  zip_with (zip_with (fun px x => <[Z.to_nat channel := x]> px)) buffer v.

(** The body of [apply] once the coefficients are drawn and the field is
    known to be 2-D (lines 18-22): the three channels are written into a
    fresh buffer, which is converted to bytes. *)
Definition paint (self : polycolor) (data : grid) : result (list (list (list Z))) :=
  let rows := length data in
  let cols := match data with [] => O | row :: _ => length row end in
  let buffer := empty3 rows cols in
  let* buffer :=
    foldM (fun buffer channel =>
             let* v := _color_map_channel self data channel in
             Ok (set_channel buffer channel v))
          (range 3) buffer in
  Ok (_cvtcolor buffer).

(** [apply] (lines 14-22). *)
Definition apply (data : ndarray) : M state (list (list (list Z))) :=
  do* _ := _init_colors in
  match data with
  | Nd2 g =>
      do* self := get_self in
      lift (paint self g)
  | _ => raise (PyExc "ValueError" "Wrong dimensions. Expected 2D")
  end.

End WithNumpy.

(** The object [self] with other coefficients. *)
Definition with_color (self : polycolor) (c : option grid) : polycolor :=
  {| order := self.(order); init_colors := self.(init_colors); color := c |}.

(** The field of [rows] by [cols] cells that all hold [v]. *)
Definition const_grid {A : Type} (rows cols : nat) (v : A) : list (list A) :=
  repeat (repeat v cols) rows.

End PolyColor.

(** ** Lists of half-open ranges *)

(** [contiguous a b l]: the ranges of [l] follow one another from [a] to
    [b]: the first starts at [a], each next one starts where the previous
    one ends, and the last ends at [b]. *)
Fixpoint contiguous (a b : Z) (l : list (Z * Z)) : Prop :=
  match l with
  | [] => a = b
  | (s, e) :: l' => s = a /\ contiguous e b l'
  end.

Definition nonempty_range (r : Z * Z) : Prop := fst r < snd r.
Definition ordered_range (r : Z * Z) : Prop := fst r <= snd r.
Definition range_len (r : Z * Z) : Z := snd r - fst r.
Definition in_range (k : Z) (r : Z * Z) : Prop := fst r <= k < snd r.

(** Every range but the last has length exactly [w]. *)
Fixpoint full_but_last (w : Z) (l : list (Z * Z)) : Prop :=
  match l with
  | [] => True
  | [ _ ] => True
  | r :: l' => range_len r = w /\ full_but_last w l'
  end.

(** Ranges in increasing order without overlap: a range ends before any
    later one starts. *)
Definition sorted_disjoint (l : list (Z * Z)) : Prop :=
  forall (i j : nat) (ri rj : Z * Z),
    (i < j)%nat -> l !! i = Some ri -> l !! j = Some rj -> snd ri <= fst rj.

(** What a partition of [[0, N)] into tiles of width at most [w]
    satisfies. *)
Record tiling (N w : Z) (l : list (Z * Z)) : Prop := {
  tiling_nonempty : Forall nonempty_range l;
  tiling_within : Forall (fun r => 0 <= fst r /\ snd r <= N) l;
  tiling_contiguous : contiguous 0 N l;
  tiling_sorted : sorted_disjoint l;
  tiling_cover : forall k, 0 <= k < N <-> exists r, In r l /\ in_range k r;
  tiling_width : Forall (fun r => range_len r <= w) l;
  tiling_full : full_but_last w l
}.

(** ** Arrays cell by cell *)

(** The cell in row [r] and column [c], when the array has one. *)
Definition cell (g : grid) (r c : nat) : option float :=
  match g !! r with
  | Some row => row !! c
  | None => None
  end.

(** [shape rows cols g]: [g] has [rows] rows of [cols] cells each. *)
Definition shape (rows cols : nat) (g : grid) : Prop :=
  length g = rows /\ Forall (fun row => length row = cols) g.

(** The buffer of a tile whose cell for row [r] and column [c] of the
    image is [pix r c]. *)
Definition tile_buf (pix : Z -> Z -> float) (rmin rmax cmin cmax : Z) : grid :=
  map (fun r => map (fun c => pix r c) (range2 cmin cmax)) (range2 rmin rmax).

Definition mk_tile (pix : Z -> Z -> float) (rb cb : Z * Z) : TileResult :=
  {| zz := tile_buf pix (fst rb) (snd rb) (fst cb) (snd cb);
     rmin := fst rb; rmax := snd rb; cmin := fst cb; cmax := snd cb |}.

(** The tile [t] lies inside an image of [rows] by [cols] cells and holds
    the values of [pix] for its rectangle. *)
Definition good_tile (pix : Z -> Z -> float) (rows cols : Z) (t : TileResult) : Prop :=
  0 <= t.(rmin) <= t.(rmax) /\ t.(rmax) <= rows /\
  0 <= t.(cmin) <= t.(cmax) /\ t.(cmax) <= cols /\
  t.(zz) = tile_buf pix t.(rmin) t.(rmax) t.(cmin) t.(cmax).

Definition covers (t : TileResult) (r c : nat) : Prop :=
  t.(rmin) <= Z.of_nat r < t.(rmax) /\ t.(cmin) <= Z.of_nat c < t.(cmax).

(** The loop that copies every collected tile into the image. *)
Definition merge_tiles (tiles : list TileResult) (zz0 : grid) : result grid :=
  foldM (fun acc tile =>
           setitem_slice2 acc tile.(rmin) tile.(rmax) tile.(cmin) tile.(cmax)
                          tile.(zz))
        tiles zz0.

(** The element of a one-dimensional array at an index in range. *)
Definition at_index (a : list float) (i : Z) : float :=
  match getitem a i with
  | Ok v => v
  | Raise _ => PrimFloat.nan
  end.

(** The value of the image at row [r] and column [c] for an evaluator [f]
    that returns. *)
Definition pixel (f : float -> float -> Z -> pynum) (xx yy : list float)
    (depth : Z) : Z -> Z -> float :=
  fun r c => to_float64 (f (at_index xx c) (at_index yy r) depth).

(** An evaluator that never raises, as the executor calls it. *)
Definition returning (f : float -> float -> Z -> pynum)
  : float -> float -> Z -> result pynum :=
  fun cx cy depth => Ok (f cx cy depth).

(** The image of the end-to-end run: box (-2, 1, -1.5, 1.5), resolution
    101, depth 50, computed pixel by pixel from the two axes. *)
Definition end_to_end_axes : list float * list float :=
  match Mandelbrot.axes (-2) 1 (-1.5) 1.5 101 with
  | Ok a => a
  | Raise _ => ([], [])
  end.

Definition end_to_end_grid : grid :=
  tile_buf (pixel Mandelbrot.fn_test (fst end_to_end_axes) (snd end_to_end_axes) 50)
           0 101 0 101.

Definition in_unit_interval (v : float) : bool :=
  ((0 <=? v) && (v <=? 1))%float.

(** The completion order in which the last submitted task finishes
    first. *)
Definition last_first (l : list Future) : list Future := rev l.

(** A memory filled with sevens. *)
Definition sevens (r c : nat) : float := 7%float.

(** The evaluator of mandelbrot_float.py as a Python number. *)
Definition raw_count (cx cy : float) (max_it : Z) : pynum :=
  PyInt (MandelbrotFloat.fn_test cx cy max_it).

(** An evaluator that raises on the points of abscissa [bad] and is
    [fn_test] of mandelbrot.py elsewhere. *)
Definition failing_at (bad : float) : float -> float -> Z -> result pynum :=
  fun cx cy depth =>
    if (cx =? bad)%float then Raise (PyExc "ArithmeticError" "evaluation failed")
    else Ok (Mandelbrot.fn_test cx cy depth).

(** A small platform to run [PolyColor] on: a generator that counts, the
    identity in place of the sine, the product in place of the power, and a
    conversion to [uint8] that sends every float to 0. *)
Definition counting_sample (n : nat) : float * nat :=
  ((Z2float (Z.of_nat n) / 16)%float, S n).
Definition flat_sin (x : float) : float := x.
Definition flat_power (x y : float) : float := (x * y)%float.
Definition zero_uint8 (x : float) : Z := 0.
Definition zero_mem3 (r c k : nat) : float := 0%float.

(** The ints CPython converts to a double: the conversion rounds to the
    nearest double and raises OverflowError when that one lies beyond the
    largest double, which happens from 2^1024 - 2^970 on.  On the ints of
    this range [Z2float] is the conversion of the program; the statements
    about a budget that the program stores in an array, or divides an array
    by, are made for budgets of this range. *)
Definition double_range (z : Z) : Prop := Z.abs z < 2 ^ 1024 - 2 ^ 970.

(** The ints a double holds exactly.  For them the conversion to float32
    rounds once, whether numpy casts the int itself or the double made of
    it. *)
Definition exact_range (z : Z) : Prop := Z.abs z <= 2 ^ 53.

(** [rect rows cols xx]: the two-dimensional array [xx] has [rows] rows of
    [cols] elements each. *)
Definition rect {A : Type} (rows cols : nat) (xx : list (list A)) : Prop :=
  length xx = rows /\ Forall (fun row => length row = cols) xx.

(** The value [_mandelbrot_inner_loop] of mandelbrot_complex.py stores for
    row [r] and column [c] of the grid. *)
Definition complex_pixel {C : Type} {arith : MandelbrotComplex.ComplexArith C}
    (xx : list (list C)) (max_it r c : Z) : float :=
  match MandelbrotComplexLoops.getitem2 xx r c with
  | Ok z => MandelbrotComplexLoops.Z2float32 (MandelbrotComplex.fn_test z max_it)
  | Raise _ => PrimFloat.nan
  end.

(** A grid element built from its two samples, at double precision. *)
Definition double_of (re im : float) : float * float := (re, im).

(** [shape3 rows cols img]: the image [img] has [rows] rows of [cols]
    pixels of three channels each. *)
Definition shape3 {A : Type} (rows cols : nat) (img : list (list (list A))) : Prop :=
  length img = rows /\
  Forall (fun row => length row = cols /\ Forall (fun px => length px = 3%nat) row) img.

(** * Proofs *)

(** ** Ranges *)

Section Ranges.

Lemma contiguous_app a b c l1 l2 :
  contiguous a b l1 -> contiguous b c l2 -> contiguous a c (l1 ++ l2).
Proof.
  revert a. induction l1 as [|[s e] l1 IH]; simpl; intros a H1 H2.
  - subst. exact H2.
  - destruct H1 as [-> H1]. split; [reflexivity|]. now apply IH.
Qed.

Lemma contiguous_bounds a b l :
  contiguous a b l -> Forall ordered_range l ->
  a <= b /\ Forall (fun r => a <= fst r /\ snd r <= b) l.
Proof.
  revert a. induction l as [|[s e] l IH]; simpl; intros a Hc Hn.
  - subst. split; [lia | constructor].
  - destruct Hc as [-> Hc]. inversion Hn as [|? ? Hse Hn']; subst.
    unfold ordered_range in Hse; simpl in Hse.
    destruct (IH _ Hc Hn') as [Hle Hall]. split; [lia|].
    constructor; [simpl; lia|].
    eapply Forall_impl; [exact Hall|]. simpl. intros r [? ?]. lia.
Qed.

Lemma contiguous_cover a b l k :
  contiguous a b l -> a <= k < b -> exists r, In r l /\ in_range k r.
Proof.
  revert a. induction l as [|[s e] l IH]; simpl; intros a Hc Hk.
  - lia.
  - destruct Hc as [-> Hc].
    destruct (Z_lt_ge_dec k e) as [Hlt|Hge].
    + exists (a, e). split; [now left|]. unfold in_range; simpl; lia.
    + destruct (IH e Hc) as [r [Hin Hr]]; [lia|].
      exists r. split; [now right | exact Hr].
Qed.

Lemma contiguous_sorted_disjoint a b l :
  contiguous a b l -> Forall ordered_range l -> sorted_disjoint l.
Proof.
  revert a. induction l as [|[s e] l IH]; intros a Hc Hn i j ri rj Hij Hi Hj.
  - discriminate.
  - simpl in Hc. destruct Hc as [-> Hc]. inversion Hn as [|? ? Hse Hn']; subst.
    destruct j as [|j]; [lia|]. simpl in Hj.
    destruct i as [|i]; simpl in Hi.
    + injection Hi as <-. simpl.
      destruct (contiguous_bounds _ _ _ Hc Hn') as [_ Hall].
      rewrite Forall_forall in Hall.
      apply list_elem_of_lookup_2 in Hj. apply Hall in Hj. lia.
    + eapply (IH e Hc Hn' i j); [lia | exact Hi | exact Hj].
Qed.

Lemma nonempty_ordered l : Forall nonempty_range l -> Forall ordered_range l.
Proof.
  intros H. eapply Forall_impl; [exact H|].
  unfold nonempty_range, ordered_range. intros; lia.
Qed.

(** The [n] full-size ranges emitted by the loop of
    [batch_ranges_with_size], starting at batch number [a]. *)
Lemma full_ranges_contiguous (w : Z) (a n : nat) :
  contiguous (Z.of_nat a * w) (Z.of_nat (a + n) * w)
    (map (fun i => (i * w, (i + 1) * w)) (map Z.of_nat (seq a n))).
Proof.
  revert a. induction n as [|n IH]; intros a; simpl.
  - f_equal. lia.
  - split; [reflexivity|].
    replace ((Z.of_nat a + 1) * w) with (Z.of_nat (S a) * w) by lia.
    replace (a + S n)%nat with (S a + n)%nat by lia. apply IH.
Qed.

Lemma full_ranges_len (w : Z) (a n : nat) :
  Forall (fun r => range_len r = w)
    (map (fun i => (i * w, (i + 1) * w)) (map Z.of_nat (seq a n))).
Proof.
  rewrite List.Forall_forall. intros r Hr.
  rewrite in_map_iff in Hr. destruct Hr as [i [<- _]].
  unfold range_len; simpl. lia.
Qed.

Lemma full_but_last_all w l :
  Forall (fun r => range_len r = w) l -> full_but_last w l.
Proof.
  induction l as [|r l IH]; intros H; [exact I|].
  inversion H; subst. destruct l; [exact I|]. split; auto.
Qed.

Lemma full_but_last_snoc w l r :
  Forall (fun r => range_len r = w) l -> full_but_last w (l ++ [r]).
Proof.
  induction l as [|r0 l IH]; intros H; [exact I|].
  apply Forall_cons_1 in H. destruct H as [Hr0 Hl]. specialize (IH Hl).
  change ((r0 :: l) ++ [r]) with (r0 :: (l ++ [r])).
  destruct (l ++ [r]) as [|r1 l1] eqn:E.
  - destruct l; discriminate.
  - split; [exact Hr0 | exact IH].
Qed.

End Ranges.

Section BatchRanges.

Import Mandelbrot.

(** The list the function returns for a non-negative length and a
    positive batch size, and its structure. *)
Lemma batch_ranges_chain (N w : Z) :
  0 <= N -> 1 <= w ->
  exists l, batch_ranges_with_size N w = Ok l /\
    contiguous 0 N l /\
    Forall ordered_range l /\
    (1 <= N -> Forall nonempty_range l) /\
    Forall (fun r => range_len r <= w) l /\
    full_but_last w l.
Proof.
  intros HN Hw. unfold batch_ranges_with_size.
  destruct (N <=? w) eqn:E1; [apply Z.leb_le in E1 | apply Z.leb_gt in E1].
  - exists [(0, N)].
    split; [reflexivity|]. split; [simpl; auto|].
    split; [constructor; [unfold ordered_range; simpl; lia | constructor]|].
    split; [intros H1; constructor; [unfold nonempty_range; simpl; lia | constructor]|].
    split; [constructor; [unfold range_len; simpl; lia | constructor] | exact I].
  - destruct (w =? 0) eqn:E0; [apply Z.eqb_eq in E0; lia|]. clear E0.
    set (n := N / w).
    assert (Hn : 0 <= n) by (apply Z.div_pos; lia).
    assert (Hmul : w * n <= N) by (apply Z.mul_div_le; lia).
    assert (Hrem : N < w * n + w).
    { pose proof (Z.mod_pos_bound N w ltac:(lia)).
      pose proof (Z.div_mod N w ltac:(lia)). fold n in H0. lia. }
    pose proof (full_ranges_contiguous w 0 (Z.to_nat n)) as Hc.
    pose proof (full_ranges_len w 0 (Z.to_nat n)) as Hl.
    simpl in Hc. rewrite Z2Nat.id in Hc by lia.
    fold (range n) in Hc, Hl.
    assert (Hfull_ne : Forall nonempty_range
              (map (fun i => (i * w, (i + 1) * w)) (range n))).
    { eapply Forall_impl; [exact Hl|]. intros [s e]. unfold range_len, nonempty_range.
      simpl. lia. }
    assert (Hfull_w : Forall (fun r => range_len r <= w)
              (map (fun i => (i * w, (i + 1) * w)) (range n))).
    { eapply Forall_impl; [exact Hl|]. intros r Hr. simpl in Hr. lia. }
    destruct (w * n <? N) eqn:E2; [apply Z.ltb_lt in E2 | apply Z.ltb_ge in E2].
    + eexists. split; [reflexivity|].
      assert (Hlast : Forall nonempty_range [(w * n, N)]).
      { constructor; [unfold nonempty_range; simpl; lia | constructor]. }
      split; [|split; [|split; [|split]]].
      * eapply contiguous_app; [exact Hc|]. simpl. split; [lia | reflexivity].
      * apply nonempty_ordered, Forall_app; auto.
      * intros _. apply Forall_app; auto.
      * apply Forall_app. split; [exact Hfull_w|].
        constructor; [unfold range_len; simpl; lia | constructor].
      * apply full_but_last_snoc, Hl.
    + eexists. split; [reflexivity|].
      assert (HNn : N = n * w) by lia. rewrite HNn.
      split; [exact Hc|]. split; [apply nonempty_ordered, Hfull_ne|].
      split; [intros _; exact Hfull_ne|]. split; [exact Hfull_w|].
      apply full_but_last_all, Hl.
Qed.

Lemma chain_tiling (N w : Z) (l : list (Z * Z)) :
  contiguous 0 N l -> Forall nonempty_range l ->
  Forall (fun r => range_len r <= w) l -> full_but_last w l ->
  tiling N w l.
Proof.
  intros Hc Hne Hw Hf.
  pose proof (nonempty_ordered _ Hne) as Hord.
  destruct (contiguous_bounds _ _ _ Hc Hord) as [_ Hb].
  constructor; auto.
  - eapply contiguous_sorted_disjoint; eauto.
  - intros k. split.
    + intros Hk. eapply contiguous_cover; eauto.
    + intros [r [Hin Hr]]. rewrite Forall_forall in Hb, Hne.
      specialize (Hb r). specialize (Hne r).
      rewrite <- list_elem_of_In in Hin.
      unfold in_range, nonempty_range in *. specialize (Hb Hin). lia.
Qed.

End BatchRanges.

(** ** TileScheduler *)

Lemma range_length (n : Z) : length (range n) = Z.to_nat n.
Proof. unfold range. now rewrite length_map, length_seq. Qed.

(** The shape of the result in the cases the specification singles out. *)
Lemma batch_ranges_shape (N w : Z) :
  1 <= N -> 1 <= w ->
  (N <= w -> Mandelbrot.batch_ranges_with_size N w = Ok [(0, N)]) /\
  (w < N -> N mod w <> 0 ->
     exists full,
       Mandelbrot.batch_ranges_with_size N w = Ok (full ++ [(w * (N / w), N)]) /\
       Forall (fun r => range_len r = w) full /\
       length full = Z.to_nat (N / w) /\
       0 < N - w * (N / w) < w) /\
  (w < N -> N mod w = 0 ->
     exists full,
       Mandelbrot.batch_ranges_with_size N w = Ok full /\
       Forall (fun r => range_len r = w) full /\
       length full = Z.to_nat (N / w)).
Proof.
  intros HN Hw. unfold Mandelbrot.batch_ranges_with_size.
  pose proof (Z.div_mod N w ltac:(lia)) as Hdm.
  pose proof (Z.mod_pos_bound N w ltac:(lia)) as Hmb.
  split; [|split].
  - intros Hle. apply Z.leb_le in Hle. now rewrite Hle.
  - intros Hlt Hmod.
    assert (E1 : (N <=? w) = false) by (apply Z.leb_gt; lia).
    assert (E0 : (w =? 0) = false) by (apply Z.eqb_neq; lia).
    assert (E2 : (w * (N / w) <? N) = true) by (apply Z.ltb_lt; lia).
    rewrite E1, E0, E2. eexists. split; [reflexivity|].
    split; [apply (full_ranges_len w 0)|].
    split; [now rewrite length_map, range_length | lia].
  - intros Hlt Hmod.
    assert (E1 : (N <=? w) = false) by (apply Z.leb_gt; lia).
    assert (E0 : (w =? 0) = false) by (apply Z.eqb_neq; lia).
    assert (E2 : (w * (N / w) <? N) = false) by (apply Z.ltb_ge; lia).
    rewrite E1, E0, E2. eexists. split; [reflexivity|].
    split; [apply (full_ranges_len w 0)|].
    now rewrite length_map, range_length.
Qed.

(** C1.  For every [total_length >= 1] and [tile_size >= 1],
    [batch_ranges_with_size] returns a list of half-open ranges that are
    non-empty, lie in [[0, total_length)], follow one another without gap
    from 0 to [total_length], are sorted and pairwise disjoint, cover
    exactly [[0, total_length)], and are at most [tile_size] long, all but
    the last exactly [tile_size] long.  When [tile_size >= total_length] the
    list is the single range [[0, total_length)]; when [total_length] is not
    a multiple of [tile_size] the full-size ranges are followed by exactly
    one shorter remainder range; when it is a multiple there is none. *)
Theorem batch_ranges_with_size_tiling (total_length tile_size : Z) :
  1 <= total_length -> 1 <= tile_size ->
  exists l,
    Mandelbrot.batch_ranges_with_size total_length tile_size = Ok l /\
    tiling total_length tile_size l /\
    (total_length <= tile_size -> l = [(0, total_length)]) /\
    (tile_size < total_length -> total_length mod tile_size <> 0 ->
       exists full,
         l = full ++ [(tile_size * (total_length / tile_size), total_length)] /\
         Forall (fun r => range_len r = tile_size) full /\
         length full = Z.to_nat (total_length / tile_size) /\
         0 < total_length - tile_size * (total_length / tile_size) < tile_size) /\
    (tile_size < total_length -> total_length mod tile_size = 0 ->
       Forall (fun r => range_len r = tile_size) l /\
       length l = Z.to_nat (total_length / tile_size)).
Proof.
  intros HN Hw.
  destruct (batch_ranges_chain total_length tile_size ltac:(lia) Hw)
    as [l [Hl [Hc [_ [Hne [Hwd Hfull]]]]]].
  destruct (batch_ranges_shape total_length tile_size HN Hw) as [S1 [S2 S3]].
  exists l. split; [exact Hl|]. split; [apply chain_tiling; auto|].
  split; [|split].
  - intros Hle. specialize (S1 Hle). congruence.
  - intros Hlt Hmod. destruct (S2 Hlt Hmod) as [full [E [Hf [Hlen Hrem]]]].
    exists full. split; [congruence | auto].
  - intros Hlt Hmod. destruct (S3 Hlt Hmod) as [full [E [Hf Hlen]]].
    assert (l = full) by congruence. subst l. auto.
Qed.

Lemma batch_ranges_with_size_tiling_witness :
  1 <= 101 /\ 1 <= 20 /\
  exists l,
    Mandelbrot.batch_ranges_with_size 101 20 = Ok l /\
    tiling 101 20 l /\
    (101 <= 20 -> l = [(0, 101)]) /\
    (20 < 101 -> 101 mod 20 <> 0 ->
       exists full,
         l = full ++ [(20 * (101 / 20), 101)] /\
         Forall (fun r => range_len r = 20) full /\
         length full = Z.to_nat (101 / 20) /\
         0 < 101 - 20 * (101 / 20) < 20) /\
    (20 < 101 -> 101 mod 20 = 0 ->
       Forall (fun r => range_len r = 20) l /\
       length l = Z.to_nat (101 / 20)).
Proof.
  split; [lia|]. split; [lia|].
  apply (batch_ranges_with_size_tiling 101 20); lia.
Defined.

(** ** Loops that do not raise *)

Lemma mapM_ok {A B : Type} (f : A -> result B) (g : A -> B) (l : list A) :
  (forall a, In a l -> f a = Ok (g a)) -> mapM f l = Ok (map g l).
Proof.
  induction l as [|a l IH]; intros Hf; simpl; [reflexivity|].
  rewrite (Hf a) by now left. simpl.
  rewrite IH by (intros; apply Hf; now right). reflexivity.
Qed.

(** The first exception in iteration order is the one the loop raises. *)
Lemma mapM_raise {A B : Type} (f : A -> result B) (l : list A) :
  (exists a, In a l /\ is_ok (f a) = false) ->
  exists l1 a l2 e,
    l = l1 ++ a :: l2 /\ Forall (fun x => is_ok (f x) = true) l1 /\
    f a = Raise e /\ mapM f l = Raise e.
Proof.
  induction l as [|x l IH]; intros [a [Hin Ha]]; [destruct Hin|].
  destruct (f x) as [b|e] eqn:Efx.
  - destruct Hin as [->|Hin]; [rewrite Efx in Ha; discriminate|].
    destruct IH as [l1 [a' [l2 [e [-> [Hall [Hfa HM]]]]]]]; [eauto|].
    exists (x :: l1), a', l2, e. repeat split; auto.
    + constructor; [now rewrite Efx | exact Hall].
    + simpl. rewrite Efx. simpl. now rewrite HM.
  - exists [], x, l, e. repeat split; auto. simpl. now rewrite Efx.
Qed.

(** ** Ranges of indices *)

Lemma range2_length (a b : Z) : length (range2 a b) = Z.to_nat (b - a).
Proof. unfold range2. now rewrite length_map, length_seq. Qed.

Lemma range2_lookup (a b : Z) (i : nat) :
  (i < Z.to_nat (b - a))%nat -> range2 a b !! i = Some (a + Z.of_nat i).
Proof.
  intros Hi. unfold range2.
  change (map ?f ?l) with (f <$> l).
  rewrite list_lookup_fmap, lookup_seq_lt by exact Hi. reflexivity.
Qed.

Lemma range2_In (a b x : Z) : In x (range2 a b) -> a <= x < b.
Proof.
  unfold range2. rewrite in_map_iff. intros [k [<- Hk]].
  apply in_seq in Hk. lia.
Qed.

Lemma getitem_in_range {A : Type} (a : list A) (i : Z) :
  0 <= i < len a -> exists v, getitem a i = Ok v.
Proof.
  intros Hi. unfold getitem.
  assert (E0 : (i <? 0) = false) by (apply Z.ltb_ge; lia). rewrite E0.
  assert (E1 : (0 <=? i) && (i <? len a) = true).
  { apply andb_true_intro. split; [apply Z.leb_le | apply Z.ltb_lt]; lia. }
  rewrite E1. destruct (nth_error a (Z.to_nat i)) as [v|] eqn:E; [eauto|].
  apply nth_error_None in E. unfold len in Hi. lia.
Qed.

Lemma getitem_at_index (a : list float) (i : Z) :
  0 <= i < len a -> getitem a i = Ok (at_index a i).
Proof.
  intros Hi. destruct (getitem_in_range a i Hi) as [v Hv].
  unfold at_index. now rewrite Hv.
Qed.

(** ** Reading an array after a slice assignment *)

Section Grid.

Lemma tile_buf_shape pix rmin rmax cmin cmax :
  shape (Z.to_nat (rmax - rmin)) (Z.to_nat (cmax - cmin))
        (tile_buf pix rmin rmax cmin cmax).
Proof.
  unfold shape, tile_buf. split.
  - now rewrite length_map, range2_length.
  - rewrite List.Forall_forall. intros row Hrow.
    rewrite in_map_iff in Hrow. destruct Hrow as [r [<- _]].
    now rewrite length_map, range2_length.
Qed.

Lemma tile_buf_cell pix rmin rmax cmin cmax (i j : nat) :
  (i < Z.to_nat (rmax - rmin))%nat -> (j < Z.to_nat (cmax - cmin))%nat ->
  cell (tile_buf pix rmin rmax cmin cmax) i j
  = Some (pix (rmin + Z.of_nat i) (cmin + Z.of_nat j)).
Proof.
  intros Hi Hj. unfold cell, tile_buf.
  change (map ?f ?l) with (f <$> l).
  rewrite list_lookup_fmap, range2_lookup by exact Hi. simpl.
  change (map ?f ?l) with (f <$> l).
  rewrite list_lookup_fmap, range2_lookup by exact Hj. reflexivity.
Qed.

Lemma shape_row rows cols g r row :
  shape rows cols g -> g !! r = Some row -> length row = cols.
Proof.
  intros [_ Hall] Hr. rewrite List.Forall_forall in Hall.
  apply Hall. apply list_elem_of_In. eapply list_elem_of_lookup_2; eauto.
Qed.

Lemma cell_is_Some rows cols g r c :
  shape rows cols g -> (r < rows)%nat -> (c < cols)%nat ->
  exists v, cell g r c = Some v.
Proof.
  intros Hs Hr Hc. unfold cell.
  destruct (lookup_lt_is_Some_2 g r) as [row Hrow]; [destruct Hs; lia|].
  rewrite Hrow. apply lookup_lt_is_Some_2.
  rewrite (shape_row _ _ _ _ _ Hs Hrow). exact Hc.
Qed.

(** Two arrays of one shape with the same cells are the same array. *)
Lemma grid_ext rows cols g1 g2 :
  shape rows cols g1 -> shape rows cols g2 ->
  (forall r c, (r < rows)%nat -> (c < cols)%nat -> cell g1 r c = cell g2 r c) ->
  g1 = g2.
Proof.
  intros H1 H2 Hcell.
  apply (list_eq_same_length _ _ rows); [apply H2 | apply H1 |].
  intros r row1 row2 Hr Hr1 Hr2.
  apply (list_eq_same_length _ _ cols);
    [exact (shape_row _ _ _ _ _ H2 Hr2) | exact (shape_row _ _ _ _ _ H1 Hr1) |].
  intros c x y Hc Hx Hy.
  specialize (Hcell r c Hr Hc). unfold cell in Hcell.
  rewrite Hr1, Hr2, Hx, Hy in Hcell. congruence.
Qed.

Lemma forallb_intro {A : Type} (p : A -> bool) (l : list A) :
  (forall x, In x l -> p x = true) -> forallb p l = true.
Proof. intros H. apply List.forallb_forall. exact H. Qed.

(** A slice assignment inside the array, with a value of the shape of the
    slice, succeeds, keeps the shape, and changes exactly the cells of the
    slice. *)
Lemma setitem_slice2_spec (g : grid) (rows cols : nat)
    (rmin rmax cmin cmax : Z) (v : grid) :
  shape rows cols g ->
  0 <= rmin <= rmax -> rmax <= Z.of_nat rows ->
  0 <= cmin <= cmax -> cmax <= Z.of_nat cols ->
  shape (Z.to_nat (rmax - rmin)) (Z.to_nat (cmax - cmin)) v ->
  exists g',
    setitem_slice2 g rmin rmax cmin cmax v = Ok g' /\
    shape rows cols g' /\
    forall r c, (r < rows)%nat -> (c < cols)%nat ->
      (rmin <= Z.of_nat r < rmax /\ cmin <= Z.of_nat c < cmax ->
         cell g' r c = cell v (r - Z.to_nat rmin) (c - Z.to_nat cmin)) /\
      (~ (rmin <= Z.of_nat r < rmax /\ cmin <= Z.of_nat c < cmax) ->
         cell g' r c = cell g r c).
Proof.
  intros Hg Hr Hr' Hc Hc' Hv.
  pose proof Hg as [Hglen Hgrows]. pose proof Hv as [Hvlen Hvrows].
  rewrite List.Forall_forall in Hgrows, Hvrows.
  unfold setitem_slice2.
  assert (Hguard :
    (0 <=? rmin) && (rmin <=? rmax) && (rmax <=? len g)
    && (0 <=? cmin) && (cmin <=? cmax)
    && forallb (fun row => cmax <=? len row) g
    && (len v =? rmax - rmin)
    && forallb (fun row => len row =? cmax - cmin) v = true).
  { unfold len. rewrite Hglen, Hvlen.
    repeat (apply andb_true_intro; split);
      try (apply Z.leb_le; lia); try (apply Z.eqb_eq; lia).
    - apply forallb_intro. intros row Hrow. apply Z.leb_le.
      rewrite (Hgrows row Hrow). lia.
    - apply forallb_intro. intros row Hrow. apply Z.eqb_eq.
      rewrite (Hvrows row Hrow). lia. }
  rewrite Hguard. eexists. split; [reflexivity|].
  set (f := fun (r : nat) (row : list float) =>
              if (Z.to_nat rmin <=? r)%nat && (r <? Z.to_nat rmax)%nat
              then match v !! (r - Z.to_nat rmin)%nat with
                   | Some vrow => list_inserts (Z.to_nat cmin) vrow row
                   | None => row
                   end
              else row).
  assert (Hflen : forall r row, length (f r row) = length row).
  { intros r row. unfold f.
    destruct ((Z.to_nat rmin <=? r)%nat && (r <? Z.to_nat rmax)%nat); [|reflexivity].
    destruct (v !! (r - Z.to_nat rmin)%nat); [apply length_inserts | reflexivity]. }
  split.
  - split; [now rewrite length_imap|].
    rewrite List.Forall_forall. intros row Hrow.
    apply list_elem_of_In, list_elem_of_lookup in Hrow. destruct Hrow as [r Hrow].
    rewrite list_lookup_imap in Hrow.
    destruct (g !! r) as [row0|] eqn:E0; [|discriminate].
    simpl in Hrow. injection Hrow as <-. rewrite Hflen.
    eapply shape_row; eauto.
  - intros r c Hrlt Hclt. unfold cell. rewrite list_lookup_imap.
    destruct (lookup_lt_is_Some_2 g r) as [row Hrow]; [lia|].
    rewrite Hrow. simpl.
    pose proof (shape_row _ _ _ _ _ Hg Hrow) as Hrowlen.
    split.
    + intros [Hrr Hcc]. unfold f.
      assert (E : (Z.to_nat rmin <=? r)%nat && (r <? Z.to_nat rmax)%nat = true).
      { apply andb_true_intro. split; [apply Nat.leb_le | apply Nat.ltb_lt]; lia. }
      rewrite E.
      destruct (lookup_lt_is_Some_2 v (r - Z.to_nat rmin)) as [vrow Hvrow]; [lia|].
      rewrite Hvrow.
      pose proof (shape_row _ _ _ _ _ Hv Hvrow) as Hvrowlen.
      apply list_lookup_inserts; lia.
    + intros Hout. unfold f.
      destruct ((Z.to_nat rmin <=? r)%nat && (r <? Z.to_nat rmax)%nat) eqn:E;
        [|reflexivity].
      apply andb_prop in E. destruct E as [E1 E2].
      apply Nat.leb_le in E1. apply Nat.ltb_lt in E2.
      destruct (v !! (r - Z.to_nat rmin)%nat) as [vrow|] eqn:Hvrow; [|reflexivity].
      pose proof (shape_row _ _ _ _ _ Hv Hvrow) as Hvrowlen.
      destruct (Nat.lt_ge_cases c (Z.to_nat cmin)) as [Hlt|Hge].
      * apply list_lookup_inserts_lt. exact Hlt.
      * apply list_lookup_inserts_ge. lia.
Qed.

End Grid.

(** ** Merging tiles into the image *)

Section Merge.

Variable pix : Z -> Z -> float.
Variables rows cols : nat.

Lemma good_tile_shape t :
  good_tile pix (Z.of_nat rows) (Z.of_nat cols) t ->
  shape (Z.to_nat (t.(rmax) - t.(rmin))) (Z.to_nat (t.(cmax) - t.(cmin))) t.(zz).
Proof.
  intros (_ & _ & _ & _ & ->). apply tile_buf_shape.
Qed.

Lemma good_tile_cell t r c :
  good_tile pix (Z.of_nat rows) (Z.of_nat cols) t -> covers t r c ->
  cell t.(zz) (r - Z.to_nat t.(rmin)) (c - Z.to_nat t.(cmin))
  = Some (pix (Z.of_nat r) (Z.of_nat c)).
Proof.
  intros (Hr & _ & Hc & _ & ->) [Hcr Hcc].
  rewrite tile_buf_cell by lia. f_equal. f_equal; lia.
Qed.

(** After the merge loop every cell holds either what it held before or
    the value of [pix]; it holds the value of [pix] as soon as one merged
    tile covers it.  The order of the tiles plays no role. *)
Lemma merge_tiles_spec tiles g0 :
  shape rows cols g0 ->
  Forall (good_tile pix (Z.of_nat rows) (Z.of_nat cols)) tiles ->
  exists g,
    merge_tiles tiles g0 = Ok g /\ shape rows cols g /\
    forall r c, (r < rows)%nat -> (c < cols)%nat ->
      (cell g r c = cell g0 r c \/
       cell g r c = Some (pix (Z.of_nat r) (Z.of_nat c))) /\
      ((exists t, In t tiles /\ covers t r c) ->
       cell g r c = Some (pix (Z.of_nat r) (Z.of_nat c))).
Proof.
  intros Hg0 Hgood. revert g0 Hg0.
  induction Hgood as [|t ts Ht Hts IH]; intros g0 Hg0.
  - exists g0. split; [reflexivity|]. split; [exact Hg0|].
    intros r c _ _. split; [now left|]. intros [t [[] _]].
  - pose proof Ht as (Hr & Hr' & Hc & Hc' & Hzz).
    destruct (setitem_slice2_spec g0 rows cols t.(rmin) t.(rmax) t.(cmin) t.(cmax)
                t.(zz) Hg0 Hr Hr' Hc Hc' (good_tile_shape t Ht))
      as [g1 [Hset [Hg1 Hcell1]]].
    destruct (IH g1 Hg1) as [g [Hmerge [Hg Hcell]]].
    exists g. split.
    { unfold merge_tiles in *. simpl. rewrite Hset. simpl. exact Hmerge. }
    split; [exact Hg|].
    intros r c Hrlt Hclt.
    destruct (Hcell r c Hrlt Hclt) as [Hkeep Hcov].
    destruct (Hcell1 r c Hrlt Hclt) as [Hin Hout].
    destruct (decide (t.(rmin) <= Z.of_nat r < t.(rmax) /\
                      t.(cmin) <= Z.of_nat c < t.(cmax))) as [Hd|Hd].
    + assert (E1 : cell g1 r c = Some (pix (Z.of_nat r) (Z.of_nat c))).
      { rewrite (Hin Hd). apply good_tile_cell; [exact Ht | exact Hd]. }
      assert (E : cell g r c = Some (pix (Z.of_nat r) (Z.of_nat c))).
      { destruct Hkeep as [Hk|Hk]; congruence. }
      split; [now right | intros _; exact E].
    + specialize (Hout Hd). split.
      * destruct Hkeep as [Hk|Hk]; [left; congruence | now right].
      * intros [t' [[<-|Hin'] Hcv]]; [contradiction|].
        apply Hcov. eauto.
Qed.

(** When the tiles cover the image, the merge loop yields the image
    computed in one piece, whatever the memory held at first. *)
Lemma merge_tiles_full tiles g0 :
  shape rows cols g0 ->
  Forall (good_tile pix (Z.of_nat rows) (Z.of_nat cols)) tiles ->
  (forall r c, (r < rows)%nat -> (c < cols)%nat ->
     exists t, In t tiles /\ covers t r c) ->
  merge_tiles tiles g0
  = Ok (tile_buf pix 0 (Z.of_nat rows) 0 (Z.of_nat cols)).
Proof.
  intros Hg0 Hgood Hcover.
  destruct (merge_tiles_spec tiles g0 Hg0 Hgood) as [g [Hm [Hg Hcell]]].
  rewrite Hm. f_equal.
  apply (grid_ext rows cols); [exact Hg | |].
  - pose proof (tile_buf_shape pix 0 (Z.of_nat rows) 0 (Z.of_nat cols)) as Hs.
    rewrite !Z.sub_0_r, !Nat2Z.id in Hs. exact Hs.
  - intros r c Hr Hc.
    destruct (Hcell r c Hr Hc) as [_ Hcov]. rewrite (Hcov (Hcover r c Hr Hc)).
    rewrite tile_buf_cell by lia. reflexivity.
Qed.

(** The tiles of the cross product of the row ranges and the column
    ranges. *)
Lemma product_tiles_good (rbs cbs : list (Z * Z)) :
  Forall (fun r => 0 <= fst r /\ snd r <= Z.of_nat rows) rbs ->
  Forall ordered_range rbs ->
  Forall (fun r => 0 <= fst r /\ snd r <= Z.of_nat cols) cbs ->
  Forall ordered_range cbs ->
  Forall (good_tile pix (Z.of_nat rows) (Z.of_nat cols))
    (flat_map (fun rb => map (fun cb => mk_tile pix rb cb) cbs) rbs).
Proof.
  intros Hrb Hro Hcb Hco. rewrite List.Forall_forall in *.
  intros t Ht. apply in_flat_map in Ht. destruct Ht as [rb [Hrbin Ht]].
  apply in_map_iff in Ht. destruct Ht as [cb [<- Hcbin]].
  specialize (Hrb rb Hrbin). specialize (Hro rb Hrbin).
  specialize (Hcb cb Hcbin). specialize (Hco cb Hcbin).
  unfold good_tile, mk_tile, ordered_range in *. simpl.
  repeat split; try lia.
Qed.

Lemma product_tiles_cover (rbs cbs : list (Z * Z)) (r c : nat) :
  contiguous 0 (Z.of_nat rows) rbs -> contiguous 0 (Z.of_nat cols) cbs ->
  (r < rows)%nat -> (c < cols)%nat ->
  exists t,
    In t (flat_map (fun rb => map (fun cb => mk_tile pix rb cb) cbs) rbs) /\
    covers t r c.
Proof.
  intros Hrc Hcc Hr Hc.
  destruct (contiguous_cover _ _ _ (Z.of_nat r) Hrc ltac:(lia)) as [rb [Hrb Hrin]].
  destruct (contiguous_cover _ _ _ (Z.of_nat c) Hcc ltac:(lia)) as [cb [Hcb Hcin]].
  exists (mk_tile pix rb cb). split.
  - apply in_flat_map. exists rb. split; [exact Hrb|].
    apply in_map. exact Hcb.
  - unfold covers, mk_tile, in_range in *. simpl. lia.
Qed.

End Merge.

(** ** Collecting the futures *)

Lemma map_Ok_inj {A : Type} (l1 l2 : list A) :
  map (fun a => @Ok A a) l1 = map (fun a => Ok a) l2 -> l1 = l2.
Proof.
  revert l2. induction l1 as [|a l1 IH]; intros [|b l2] E; simpl in E;
    try discriminate.
  - reflexivity.
  - injection E as -> E. f_equal. now apply IH.
Qed.

(** When every submitted task returned, the results collected in
    completion order are the submitted tiles in another order. *)
Lemma collect_results (sched : list Future -> list Future) (tiles : list TileResult) :
  completion_order sched ->
  exists done,
    mapM future_result (sched (map Ok tiles)) = Ok done /\
    Permutation done tiles.
Proof.
  intros Hs. specialize (Hs (map Ok tiles)).
  remember (sched (map Ok tiles)) as l eqn:El. clear El.
  assert (Hall : Forall (fun f => exists t, f = Ok t) l).
  { eapply Permutation_Forall; [symmetry; exact Hs|].
    rewrite List.Forall_forall. intros f Hf. apply in_map_iff in Hf.
    destruct Hf as [t [<- _]]. eauto. }
  assert (Hex : exists done, l = map Ok done).
  { clear Hs. induction Hall as [|f l [t ->] _ [done ->]].
    - exists []. reflexivity.
    - exists (t :: done). reflexivity. }
  destruct Hex as [done ->]. exists done. split.
  - clear. induction done as [|t done IH]; simpl; [reflexivity|].
    rewrite IH. reflexivity.
  - apply (Permutation_map_inv (fun t => @Ok TileResult t)) in Hs as Hs'.
    destruct Hs' as [l3 [E HP]].
    apply map_Ok_inj in E. subst l3. symmetry. exact HP.
Qed.

(** ** The executor of mandelbrot.py with an evaluator that returns *)

Section ExecutorReturns.

Import Mandelbrot.

Variable f : float -> float -> Z -> pynum.
Variables xx yy : list float.
Variable depth : Z.

Lemma compute_tile_ok (rmin rmax cmin cmax : Z) :
  0 <= rmin <= rmax -> rmax <= len yy ->
  0 <= cmin <= cmax -> cmax <= len xx ->
  compute_tile_with (returning f) xx yy rmin rmax cmin cmax depth
  = Ok (mk_tile (pixel f xx yy depth) (rmin, rmax) (cmin, cmax)).
Proof.
  intros Hr Hr' Hc Hc'. unfold compute_tile_with.
  assert (E : (rmax - rmin <? 0) || (cmax - cmin <? 0) = false).
  { apply orb_false_intro; apply Z.ltb_ge; lia. }
  rewrite E.
  rewrite (mapM_ok _ (fun r => map (fun c => pixel f xx yy depth r c)
                                   (range2 cmin cmax))).
  - reflexivity.
  - intros r Hrin. apply range2_In in Hrin.
    apply mapM_ok. intros c Hcin. apply range2_In in Hcin.
    rewrite (getitem_at_index xx c) by lia.
    rewrite (getitem_at_index yy r) by lia.
    reflexivity.
Qed.

Lemma submit_all_ok (rbs cbs : list (Z * Z)) :
  Forall (fun r => 0 <= fst r /\ snd r <= len yy) rbs -> Forall ordered_range rbs ->
  Forall (fun r => 0 <= fst r /\ snd r <= len xx) cbs -> Forall ordered_range cbs ->
  submit_all (returning f) xx yy depth rbs cbs
  = map Ok (flat_map (fun rb => map (fun cb => mk_tile (pixel f xx yy depth) rb cb) cbs)
                     rbs).
Proof.
  intros Hrb Hro Hcb Hco. unfold submit_all.
  induction rbs as [|rb rbs IH]; simpl; [reflexivity|].
  apply Forall_cons_1 in Hrb. destruct Hrb as [Hrb Hrbs].
  apply Forall_cons_1 in Hro. destruct Hro as [Hro Hros].
  rewrite map_app, map_map, (IH Hrbs Hros). f_equal.
  apply map_ext_in. intros cb Hcbin.
  rewrite List.Forall_forall in Hcb, Hco.
  specialize (Hcb cb Hcbin). specialize (Hco cb Hcbin).
  unfold ordered_range in *.
  rewrite compute_tile_ok by lia. destruct rb, cb; reflexivity.
Qed.

(** The heart of the executor: whatever the completion order and the
    initial contents of the image, collecting the futures and merging the
    tiles yields the image computed pixel by pixel. *)
Lemma executor_core (sched : list Future -> list Future) (rbs cbs : list (Z * Z)) :
  completion_order sched ->
  contiguous 0 (len yy) rbs -> Forall ordered_range rbs ->
  contiguous 0 (len xx) cbs -> Forall ordered_range cbs ->
  exists tiles,
    mapM future_result (sched (submit_all (returning f) xx yy depth rbs cbs))
    = Ok tiles /\
    forall g0, shape (length yy) (length xx) g0 ->
      merge_tiles tiles g0
      = Ok (tile_buf (pixel f xx yy depth) 0 (len yy) 0 (len xx)).
Proof.
  intros Hs Hrc Hro Hcc Hco.
  destruct (contiguous_bounds _ _ _ Hrc Hro) as [_ Hrb].
  destruct (contiguous_bounds _ _ _ Hcc Hco) as [_ Hcb].
  rewrite (submit_all_ok rbs cbs Hrb Hro Hcb Hco).
  destruct (collect_results sched
              (flat_map (fun rb => map (fun cb => mk_tile (pixel f xx yy depth) rb cb) cbs)
                        rbs) Hs) as [tiles [Hcollect Hperm]].
  exists tiles. split; [exact Hcollect|].
  intros g0 Hg0. unfold len.
  apply merge_tiles_full; [exact Hg0 | |].
  - eapply Permutation_Forall; [symmetry; exact Hperm|].
    apply product_tiles_good; assumption.
  - intros r c Hr Hc.
    destruct (product_tiles_cover (pixel f xx yy depth) (length yy) (length xx)
                rbs cbs r c Hrc Hcc Hr Hc) as [t [Hin Hcov]].
    exists t. split; [|exact Hcov].
    eapply Permutation_in; [symmetry; exact Hperm | exact Hin].
Qed.

End ExecutorReturns.

Lemma empty_shape (mem : nat -> nat -> float) (rows cols : nat) :
  exists g0, empty mem (Z.of_nat rows) (Z.of_nat cols) = Ok g0 /\ shape rows cols g0.
Proof.
  unfold empty.
  assert (E : (Z.of_nat rows <? 0) || (Z.of_nat cols <? 0) = false).
  { apply orb_false_intro; apply Z.ltb_ge; lia. }
  rewrite E, !Nat2Z.id. eexists. split; [reflexivity|].
  split; [now rewrite length_map, length_seq|].
  rewrite List.Forall_forall. intros row Hrow. apply in_map_iff in Hrow.
  destruct Hrow as [r [<- _]]. now rewrite length_map, length_seq.
Qed.

Lemma amin_ok (g : grid) (rows cols : nat) :
  shape rows cols g -> (0 < rows)%nat -> (0 < cols)%nat -> exists m, amin g = Ok m.
Proof.
  intros [Hlen Hall] Hr Hc. unfold amin.
  destruct g as [|row g]; [simpl in Hlen; lia|].
  apply Forall_cons_1 in Hall. destruct Hall as [Hrow _].
  destruct row as [|x row]; [simpl in Hrow; lia|]. simpl. eauto.
Qed.

Lemma amax_ok (g : grid) (rows cols : nat) :
  shape rows cols g -> (0 < rows)%nat -> (0 < cols)%nat -> exists m, amax g = Ok m.
Proof.
  intros [Hlen Hall] Hr Hc. unfold amax.
  destruct g as [|row g]; [simpl in Hlen; lia|].
  apply Forall_cons_1 in Hall. destruct Hall as [Hrow _].
  destruct row as [|x row]; [simpl in Hrow; lia|]. simpl. eauto.
Qed.

(** [compute_image] of mandelbrot.py returns the image computed pixel by
    pixel, for every completion order and every initial memory. *)
Lemma compute_image_returns (f : float -> float -> Z -> pynum)
    (sched : list Future -> list Future) (mem : nat -> nat -> float)
    (xx yy : list float) (depth n_workers tile_size : Z) :
  completion_order sched -> 1 <= n_workers -> 1 <= tile_size ->
  xx <> [] -> yy <> [] ->
  Mandelbrot.compute_image_with (returning f) sched mem xx yy depth n_workers tile_size
  = Ok (tile_buf (pixel f xx yy depth) 0 (len yy) 0 (len xx)).
Proof.
  intros Hs Hw Ht Hxx Hyy. unfold Mandelbrot.compute_image_with.
  destruct (batch_ranges_chain (len yy) tile_size ltac:(unfold len; lia) Ht)
    as [rbs [-> [Hrc [Hro _]]]].
  destruct (batch_ranges_chain (len xx) tile_size ltac:(unfold len; lia) Ht)
    as [cbs [-> [Hcc [Hco _]]]].
  simpl. unfold ProcessPoolExecutor.
  assert (E : (n_workers <=? 0) = false) by (apply Z.leb_gt; lia).
  rewrite E. simpl.
  destruct (executor_core f xx yy depth sched rbs cbs Hs Hrc Hro Hcc Hco)
    as [tiles [-> Hmerge]]. simpl.
  destruct (empty_shape mem (length yy) (length xx)) as [g0 [Hempty Hg0]].
  unfold len at 1 2. rewrite Hempty. simpl.
  fold (merge_tiles tiles g0). rewrite (Hmerge g0 Hg0). simpl.
  pose proof (tile_buf_shape (pixel f xx yy depth) 0 (len yy) 0 (len xx)) as Hsh.
  unfold len in Hsh at 1 2. rewrite !Z.sub_0_r, !Nat2Z.id in Hsh.
  assert (Hr : (0 < length yy)%nat) by (destruct yy; [congruence | simpl; lia]).
  assert (Hc : (0 < length xx)%nat) by (destruct xx; [congruence | simpl; lia]).
  destruct (amin_ok _ _ _ Hsh Hr Hc) as [m ->].
  destruct (amax_ok _ _ _ Hsh Hr Hc) as [m' ->]. reflexivity.
Qed.

(** ** End to end *)

Lemma last_first_completion_order : completion_order last_first.
Proof. intros l. symmetry. apply Permutation_rev. Qed.

Lemma end_to_end_axes_eq :
  Mandelbrot.axes (-2) 1 (-1.5) 1.5 101 = Ok end_to_end_axes.
Proof. vm_compute. reflexivity. Qed.

Lemma end_to_end_axes_len :
  len (fst end_to_end_axes) = 101 /\ len (snd end_to_end_axes) = 101.
Proof. vm_compute. split; reflexivity. Qed.

Lemma end_to_end_values :
  forallb (forallb in_unit_interval) end_to_end_grid = true.
Proof. vm_compute. reflexivity. Qed.

(** C3.  With bounding box (-2, 1, -1.5, 1.5), resolution 101, depth 50,
    tile size 20 and 3 workers, [mandelbrot] returns, for every completion
    order of the tiles and every initial content of the image memory, one
    and the same grid; it has 101 rows of 101 cells and every value lies in
    [0, 1]. *)
Theorem mandelbrot_end_to_end (sched : list Future -> list Future)
    (mem : nat -> nat -> float) :
  completion_order sched ->
  Mandelbrot.mandelbrot sched mem (-2) 1 (-1.5) 1.5 101 50 3 20 = Ok end_to_end_grid /\
  shape 101 101 end_to_end_grid /\
  Forall (Forall (fun v => (0 <=? v)%float = true /\ (v <=? 1)%float = true))
         end_to_end_grid.
Proof.
  intros Hs. split; [|split].
  - unfold Mandelbrot.mandelbrot. rewrite end_to_end_axes_eq.
    cbv beta iota delta [bind].
    change (Mandelbrot.compute_image sched mem)
      with (Mandelbrot.compute_image_with (returning Mandelbrot.fn_test) sched mem).
    rewrite compute_image_returns; try lia; try exact Hs.
    + destruct end_to_end_axes_len as [-> ->]. reflexivity.
    + intros E. pose proof end_to_end_axes_len as [H _]. rewrite E in H. discriminate.
    + intros E. pose proof end_to_end_axes_len as [_ H]. rewrite E in H. discriminate.
  - apply (tile_buf_shape _ 0 101 0 101).
  - pose proof end_to_end_values as H.
    rewrite List.forallb_forall in H.
    rewrite List.Forall_forall. intros row Hrow.
    specialize (H row Hrow). rewrite List.forallb_forall in H.
    rewrite List.Forall_forall. intros v Hv. specialize (H v Hv).
    unfold in_unit_interval in H. apply andb_prop in H. exact H.
Qed.

Lemma mandelbrot_end_to_end_witness :
  completion_order last_first /\
  (Mandelbrot.mandelbrot last_first sevens (-2) 1 (-1.5) 1.5 101 50 3 20
   = Ok end_to_end_grid /\
   shape 101 101 end_to_end_grid /\
   Forall (Forall (fun v => (0 <=? v)%float = true /\ (v <=? 1)%float = true))
          end_to_end_grid).
Proof.
  split; [exact last_first_completion_order|].
  apply (mandelbrot_end_to_end last_first sevens).
  exact last_first_completion_order.
Defined.

(** ** mandelbrot_float.py: the sequential and the tiled executor *)

Lemma hup_batch_ranges_eq (N w : Z) :
  0 <= N -> 1 <= w ->
  Hup.batch_ranges_with_size N w = Mandelbrot.batch_ranges_with_size N w.
Proof.
  intros HN Hw. unfold Hup.batch_ranges_with_size, Mandelbrot.batch_ranges_with_size.
  destruct (N <=? w); [reflexivity|].
  destruct (w =? 0) eqn:E0; [reflexivity|].
  pose proof (Z.div_mod N w ltac:(lia)) as Hdm.
  pose proof (Z.mod_pos_bound N w ltac:(lia)) as Hmb.
  destruct (N mod w =? 0) eqn:Em;
    [apply Z.eqb_eq in Em | apply Z.eqb_neq in Em].
  - assert (E : (w * (N / w) <? N) = false) by (apply Z.ltb_ge; lia).
    now rewrite E.
  - assert (E : (w * (N / w) <? N) = true) by (apply Z.ltb_lt; lia).
    rewrite E, (Z.mul_comm (N / w) w). reflexivity.
Qed.

Lemma inner_loop_as_tile (xx yy : list float) (rmin rmax cmin cmax max_it : Z) :
  MandelbrotFloat._inner_loop xx yy rmin rmax cmin cmax max_it
  = Mandelbrot.compute_tile_with (returning raw_count) xx yy rmin rmax cmin cmax max_it.
Proof. reflexivity. Qed.

Lemma float_compute_image_returns (xx yy : list float) (max_it : Z) :
  MandelbrotFloat.compute_image xx yy max_it
  = Ok (MandelbrotFloat.normalize
          (tile_buf (pixel raw_count xx yy max_it) 0 (len yy) 0 (len xx)) max_it).
Proof.
  unfold MandelbrotFloat.compute_image.
  rewrite inner_loop_as_tile, compute_tile_ok by (unfold len; lia).
  reflexivity.
Qed.

Lemma float_compute_image_mp_returns (sched : list Future -> list Future)
    (mem : nat -> nat -> float) (xx yy : list float)
    (max_it n_workers tile_size : Z) :
  completion_order sched -> 1 <= n_workers -> 1 <= tile_size ->
  MandelbrotFloat.compute_image_mp sched mem xx yy max_it n_workers tile_size
  = Ok (MandelbrotFloat.normalize
          (tile_buf (pixel raw_count xx yy max_it) 0 (len yy) 0 (len xx)) max_it).
Proof.
  intros Hs Hw Ht. unfold MandelbrotFloat.compute_image_mp.
  rewrite !hup_batch_ranges_eq by (unfold len; lia).
  destruct (batch_ranges_chain (len yy) tile_size ltac:(unfold len; lia) Ht)
    as [rbs [-> [Hrc [Hro _]]]].
  destruct (batch_ranges_chain (len xx) tile_size ltac:(unfold len; lia) Ht)
    as [cbs [-> [Hcc [Hco _]]]].
  simpl. unfold ProcessPoolExecutor.
  assert (E : (n_workers <=? 0) = false) by (apply Z.leb_gt; lia).
  rewrite E. simpl.
  change (flat_map _ rbs)
    with (Mandelbrot.submit_all (returning raw_count) xx yy max_it rbs cbs).
  destruct (executor_core raw_count xx yy max_it sched rbs cbs Hs Hrc Hro Hcc Hco)
    as [tiles [-> Hmerge]]. simpl.
  destruct (empty_shape mem (length yy) (length xx)) as [g0 [Hempty Hg0]].
  unfold len at 1 2. rewrite Hempty. simpl.
  fold (merge_tiles tiles g0). rewrite (Hmerge g0 Hg0). reflexivity.
Qed.

(** The bound of [double_range]: the largest int that CPython converts is
    mapped to the largest double, the next one is where the conversion of
    the program raises and the one of this development saturates. *)
Example double_range_boundary :
  Z2float (2 ^ 1024 - 2 ^ 970 - 1) = 0x1.fffffffffffffp+1023%float /\
  Z2float (- (2 ^ 1024 - 2 ^ 970 - 1)) = (-0x1.fffffffffffffp+1023)%float /\
  Z2float (2 ^ 1024 - 2 ^ 970) = infinity /\
  Z2float (- (2 ^ 1024 - 2 ^ 970)) = neg_infinity.
Proof. repeat split; vm_compute; reflexivity. Qed.



(** Outside the worker counts of the specification (at least 1): a pool
    of 0 workers cannot be created, so that [compute_image_mp] raises the
    ValueError of the pool where [compute_image] returns the grid;
    [mandelbrot] never makes that call. *)
Lemma float_executors_differ_without_workers :
  MandelbrotFloat.compute_image [0]%float [0]%float 1 = Ok [[1]]%float /\
  MandelbrotFloat.compute_image_mp last_first sevens [0]%float [0]%float 1 0 1
  = Raise (PyExc "ValueError" "max_workers must be greater than 0").
Proof. split; vm_compute; reflexivity. Qed.

(** ** EscapeEvaluator *)

Section Escape.

Local Open Scope float_scope.

Lemma Prim2SF_zero : Prim2SF 0 = S754_zero false.
Proof. reflexivity. Qed.

(** Adding a number to zero and squaring squares the number: the sign of
    a zero and the case of the special values do not matter. *)
Lemma zero_add_sq (c : float) : (0 + c) * (0 + c) = c * c.
Proof.
  apply Prim2SF_inj. rewrite !mul_spec, !add_spec, Prim2SF_zero.
  destruct (Prim2SF c) as [[]|[]| |s m e]; reflexivity.
Qed.

Lemma ltb_zero_asym (t : float) : (0 <? t) = true -> (t <? 0) = false.
Proof.
  rewrite !ltb_spec, Prim2SF_zero.
  destruct (Prim2SF t) as [[]|[]| |[] m e]; cbv; congruence.
Qed.

Lemma escape_loop_step (t cx cy x y : float) (i : Z) (rest : list Z) :
  escape_loop t cx cy x y (i :: rest)
  = if t <? (x * x - y * y + cx) * (x * x - y * y + cx)
            + (2 * x * y + cy) * (2 * x * y + cy)
    then Some i
    else escape_loop t cx cy (x * x - y * y + cx) (2 * x * y + cy) rest.
Proof. reflexivity. Qed.

(** The index the loop returns is one of the indices it ran through. *)
Lemma escape_loop_In (t cx cy : float) (its : list Z) :
  forall x y i, escape_loop t cx cy x y its = Some i -> In i its.
Proof.
  induction its as [|k its IH]; intros x y i H; [discriminate|].
  rewrite escape_loop_step in H.
  destruct (t <? _).
  - injection H as <-. now left.
  - right. eapply IH. exact H.
Qed.

Lemma range_cons (n : Z) :
  (1 <= n)%Z -> range n = 0%Z :: map Z.of_nat (seq 1 (Z.to_nat n - 1)).
Proof.
  intros Hn. unfold range.
  replace (Z.to_nat n) with (S (Z.to_nat n - 1)) at 1 by lia. reflexivity.
Qed.

Lemma range_cons2 (n : Z) :
  (2 <= n)%Z ->
  range n = 0%Z :: 1%Z :: map Z.of_nat (seq 2 (Z.to_nat n - 2)).
Proof.
  intros Hn. unfold range.
  replace (Z.to_nat n) with (S (S (Z.to_nat n - 2))) at 1 by lia. reflexivity.
Qed.

(** The first turn of the loop starts from z = 0, so its test is the test
    of the squared modulus of [c] as binary64 computes it. *)
Lemma escape_first (t cx cy : float) (depth : Z) :
  (1 <= depth)%Z ->
  (escape_index t cx cy depth = Some 0%Z <-> (t <? cx * cx + cy * cy) = true).
Proof.
  intros Hd. unfold escape_index. rewrite (range_cons depth Hd), escape_loop_step.
  change (0 * 0 - 0 * 0) with 0. change (2 * 0 * 0) with 0.
  rewrite !zero_add_sq.
  destruct (t <? cx * cx + cy * cy) eqn:E.
  - split; reflexivity.
  - split; [|discriminate]. intros H. apply escape_loop_In in H.
    apply in_map_iff in H. destruct H as [k [Hk Hin]].
    apply in_seq in Hin. lia.
Qed.

(** From the origin the iterate stays at the origin and the test never
    fires, whatever the positive threshold. *)
Lemma escape_loop_origin (t : float) (its : list Z) :
  (0 <? t) = true -> escape_loop t 0 0 0 0 its = None.
Proof.
  intros Ht. induction its as [|i its IH]; [reflexivity|].
  rewrite escape_loop_step.
  change (0 * 0 - 0 * 0 + 0) with 0. change (2 * 0 * 0 + 0) with 0.
  change (0 * 0 + 0 * 0) with 0.
  rewrite (ltb_zero_asym t Ht). exact IH.
Qed.

Lemma int_truediv_zero (depth : Z) : (1 <= depth)%Z -> int_truediv 0 depth = 0.
Proof.
  intros Hd. destruct depth as [|p|p]; [lia | reflexivity | lia].
Qed.

End Escape.

Section ComplexEscape.

Import MandelbrotComplex.

Context {C : Type} `{ComplexArith C}.

Lemma fn_test_loop_In (c : C) (its : list Z) :
  forall z i, fn_test_loop c z its = Some i -> In i its.
Proof.
  induction its as [|k its IH]; intros z i Hi; [discriminate|].
  simpl in Hi. destruct (c_abs_gt2 _).
  - injection Hi as <-. now left.
  - right. eapply IH. exact Hi.
Qed.

Lemma complex_first (c : C) (max_it : Z) :
  1 <= max_it ->
  (fn_test c max_it = 0 <-> c_abs_gt2 (c_add (c_sq c_zero) c) = true).
Proof.
  intros Hm. unfold fn_test. rewrite (range_cons max_it Hm). simpl.
  destruct (c_abs_gt2 (c_add (c_sq c_zero) c)) eqn:E.
  - split; reflexivity.
  - split; [|discriminate].
    destruct (fn_test_loop _ _ _) as [i|] eqn:El; [|lia].
    intros ->. apply fn_test_loop_In in El.
    apply in_map_iff in El. destruct El as [k [Hk Hin]].
    apply in_seq in Hin. lia.
Qed.

End ComplexEscape.

(** C7.  From the origin no evaluator escapes: for every depth of at least
    1 and every positive threshold the loop runs through all its
    iterations without the escape test firing; [fn_test] of mandelbrot.py
    returns its sentinel 0 and [fn_test] of mandelbrot_float.py its
    sentinel [max_it]. *)
Theorem origin_never_escapes (threshold : float) (depth : Z) :
  (0 <? threshold)%float = true -> 1 <= depth ->
  escape_index threshold 0 0 depth = None /\
  Mandelbrot.fn_test 0 0 depth = PyInt 0 /\
  MandelbrotFloat.fn_test 0 0 depth = depth.
Proof.
  intros Ht Hd. split; [|split].
  - apply escape_loop_origin, Ht.
  - unfold Mandelbrot.fn_test, escape_index.
    now rewrite escape_loop_origin.
  - unfold MandelbrotFloat.fn_test, escape_index.
    now rewrite escape_loop_origin.
Qed.

Lemma origin_never_escapes_witness :
  (0 <? 4)%float = true /\ 1 <= 50 /\
  (escape_index 4 0 0 50 = None /\
   Mandelbrot.fn_test 0 0 50 = PyInt 0 /\
   MandelbrotFloat.fn_test 0 0 50 = 50).
Proof.
  split; [reflexivity|]. split; [lia|].
  apply (origin_never_escapes 4 50); [reflexivity | lia].
Defined.

(** C9.  In mandelbrot.py a point that escapes in the very first iteration
    yields 0 / depth = 0, the value of the sentinel of the points that never
    escape: for every depth of at least 1, (3, 0) escapes at index 0 and
    (0, 0) never escapes, yet [fn_test] returns equal numbers for both and
    the two cells of the output grid are the same.  So it is for every
    point that escapes at index 0 and every point that does not escape
    within the depth: [fn_test] returns the float 0 for the first and the
    int 0 for the second, equal under [==] and the same cell of the grid. *)
Theorem first_escape_equals_sentinel (depth : Z) :
  1 <= depth ->
  escape_index 4 3 0 depth = Some 0 /\
  escape_index 4 0 0 depth = None /\
  Mandelbrot.fn_test 3 0 depth = PyFloat 0 /\
  Mandelbrot.fn_test 0 0 depth = PyInt 0 /\
  py_eq (Mandelbrot.fn_test 3 0 depth) (Mandelbrot.fn_test 0 0 depth) = true /\
  to_float64 (Mandelbrot.fn_test 3 0 depth) = to_float64 (Mandelbrot.fn_test 0 0 depth) /\
  (forall cx cy ix iy,
     escape_index 4 cx cy depth = Some 0 ->
     escape_index 4 ix iy depth = None ->
     Mandelbrot.fn_test cx cy depth = PyFloat 0 /\
     Mandelbrot.fn_test ix iy depth = PyInt 0 /\
     py_eq (Mandelbrot.fn_test cx cy depth) (Mandelbrot.fn_test ix iy depth) = true /\
     to_float64 (Mandelbrot.fn_test cx cy depth)
     = to_float64 (Mandelbrot.fn_test ix iy depth)).
Proof.
  intros Hd.
  assert (General : forall cx cy ix iy,
            escape_index 4 cx cy depth = Some 0 ->
            escape_index 4 ix iy depth = None ->
            Mandelbrot.fn_test cx cy depth = PyFloat 0 /\
            Mandelbrot.fn_test ix iy depth = PyInt 0 /\
            py_eq (Mandelbrot.fn_test cx cy depth) (Mandelbrot.fn_test ix iy depth)
            = true /\
            to_float64 (Mandelbrot.fn_test cx cy depth)
            = to_float64 (Mandelbrot.fn_test ix iy depth)).
  { intros cx cy ix iy Eout Ein.
    assert (Fout : Mandelbrot.fn_test cx cy depth = PyFloat 0).
    { unfold Mandelbrot.fn_test.
      rewrite Eout, int_truediv_zero by exact Hd. reflexivity. }
    assert (Fin : Mandelbrot.fn_test ix iy depth = PyInt 0).
    { unfold Mandelbrot.fn_test. now rewrite Ein. }
    rewrite Fout, Fin. repeat split; reflexivity. }
  assert (E3 : escape_index 4 3 0 depth = Some 0).
  { apply escape_first; [exact Hd | reflexivity]. }
  assert (E0 : escape_index 4 0 0 depth = None).
  { apply escape_loop_origin. reflexivity. }
  destruct (General 3 0 0 0 E3 E0)%float as [F3 [F0 [Heq Hcell]]].
  split; [exact E3|]. split; [exact E0|]. split; [exact F3|]. split; [exact F0|].
  split; [exact Heq|]. split; [exact Hcell|]. exact General.
Qed.

Lemma first_escape_equals_sentinel_witness :
  1 <= 50 /\
  (escape_index 4 3 0 50 = Some 0 /\
   escape_index 4 0 0 50 = None /\
   Mandelbrot.fn_test 3 0 50 = PyFloat 0 /\
   Mandelbrot.fn_test 0 0 50 = PyInt 0 /\
   py_eq (Mandelbrot.fn_test 3 0 50) (Mandelbrot.fn_test 0 0 50) = true /\
   to_float64 (Mandelbrot.fn_test 3 0 50) = to_float64 (Mandelbrot.fn_test 0 0 50) /\
   (forall cx cy ix iy,
      escape_index 4 cx cy 50 = Some 0 ->
      escape_index 4 ix iy 50 = None ->
      Mandelbrot.fn_test cx cy 50 = PyFloat 0 /\
      Mandelbrot.fn_test ix iy 50 = PyInt 0 /\
      py_eq (Mandelbrot.fn_test cx cy 50) (Mandelbrot.fn_test ix iy 50) = true /\
      to_float64 (Mandelbrot.fn_test cx cy 50)
      = to_float64 (Mandelbrot.fn_test ix iy 50))).
Proof.
  split; [lia|]. apply (first_escape_equals_sentinel 50). lia.
Defined.

(** The escape test of mandelbrot.py compares the rounded sum of the
    rounded squares with 4: the point (2, 2^-40) lies outside the circle of
    radius 2 and is caught only in the second iteration. *)
Example rounding_delays_escape :
  escape_index 4 2 0x1p-40 5 = Some 1 /\
  Mandelbrot.fn_test 2 0x1p-40 5 = PyFloat (int_truediv 1 5).
Proof. split; vm_compute; reflexivity. Qed.

(** C5 as stated fails in mandelbrot_float.py, whose threshold 16 is the
    square of the radius 4: (3, 0) passes the first test and is caught at
    index 1, (-2.5, 0) passes two tests and is caught at index 2; both are
    caught at index 0 by mandelbrot.py. *)
Lemma float_variant_escapes_later :
  escape_index 16 3 0 50 = Some 1 /\
  MandelbrotFloat.fn_test 3 0 50 = 1 /\
  escape_index 16 (-2.5) 0 50 = Some 2 /\
  MandelbrotFloat.fn_test (-2.5) 0 50 = 2 /\
  escape_index 4 3 0 50 = Some 0 /\
  escape_index 4 (-2.5) 0 50 = Some 0.
Proof. repeat split; vm_compute; reflexivity. Qed.

(** C5, as the code has it.  For every point and every iteration budget
    of at least 1, an evaluator escapes in its first iteration exactly when
    its own test holds for [c] itself: the binary64 value of
    [cx*cx + cy*cy] exceeds 4 in mandelbrot.py, exceeds 16 in
    mandelbrot_float.py (where the count returned is then 0), and
    [np.abs(0j**2 + c) > 2.0] holds in mandelbrot_complex.py (count 0).
    The point (3, 0) escapes in the first iteration of mandelbrot.py and,
    given a budget of at least 2, in the second iteration of
    mandelbrot_float.py. *)
Theorem first_iteration_escape (cx cy : float) (max_iterations : Z) :
  1 <= max_iterations ->
  (escape_index 4 cx cy max_iterations = Some 0
   <-> (4 <? cx * cx + cy * cy)%float = true) /\
  (escape_index 16 cx cy max_iterations = Some 0
   <-> (16 <? cx * cx + cy * cy)%float = true) /\
  (MandelbrotFloat.fn_test cx cy max_iterations = 0
   <-> (16 <? cx * cx + cy * cy)%float = true) /\
  (forall (C : Type) (A : MandelbrotComplex.ComplexArith C) (c : C),
     MandelbrotComplex.fn_test c max_iterations = 0
     <-> MandelbrotComplex.c_abs_gt2
           (MandelbrotComplex.c_add (MandelbrotComplex.c_sq MandelbrotComplex.c_zero) c)
         = true) /\
  escape_index 4 3 0 max_iterations = Some 0 /\
  (2 <= max_iterations -> escape_index 16 3 0 max_iterations = Some 1).
Proof.
  intros Hm.
  pose proof (escape_first 4 cx cy max_iterations Hm) as H4.
  pose proof (escape_first 16 cx cy max_iterations Hm) as H16.
  split; [exact H4|]. split; [exact H16|]. split; [|split; [|split]].
  - rewrite <- H16. unfold MandelbrotFloat.fn_test.
    destruct (escape_index 16 cx cy max_iterations) as [i|].
    + split; [intros ->; reflexivity | intros E; congruence].
    + split; [lia | discriminate].
  - intros C A c. apply complex_first. exact Hm.
  - apply escape_first; [exact Hm | reflexivity].
  - intros H2. unfold escape_index. rewrite (range_cons2 _ H2). reflexivity.
Qed.

Lemma first_iteration_escape_witness :
  1 <= 50 /\
  ((escape_index 4 3 0 50 = Some 0 <-> (4 <? 3 * 3 + 0 * 0)%float = true) /\
   (escape_index 16 3 0 50 = Some 0 <-> (16 <? 3 * 3 + 0 * 0)%float = true) /\
   (MandelbrotFloat.fn_test 3 0 50 = 0 <-> (16 <? 3 * 3 + 0 * 0)%float = true) /\
   (forall (C : Type) (A : MandelbrotComplex.ComplexArith C) (c : C),
      MandelbrotComplex.fn_test c 50 = 0
      <-> MandelbrotComplex.c_abs_gt2
            (MandelbrotComplex.c_add (MandelbrotComplex.c_sq MandelbrotComplex.c_zero) c)
          = true) /\
   escape_index 4 3 0 50 = Some 0 /\
   (2 <= 50 -> escape_index 16 3 0 50 = Some 1)).
Proof.
  split; [lia|]. apply (first_iteration_escape 3 0 50). lia.
Defined.

(** At double precision the complex evaluator catches 3 + 0j in its first
    iteration. *)
Example complex_three_escapes :
  @MandelbrotComplex.fn_test _ MandelbrotComplex.complex_double (3, 0)%float 50 = 0.
Proof. vm_compute. reflexivity. Qed.

(** ** GridBuilder *)

Section Linspace.

Local Open Scope float_scope.

Lemma linspace_one (start stop : float) :
  linspace start stop 1 = Ok [0 * (stop - start) + start].
Proof. reflexivity. Qed.

Lemma Prim2SF_infinity : Prim2SF infinity = S754_infinity false.
Proof. reflexivity. Qed.

Lemma is_finite_cases (d : float) :
  is_finite d = true ->
  (exists s, Prim2SF d = S754_zero s) \/ (exists s m e, Prim2SF d = S754_finite s m e).
Proof.
  unfold is_finite, is_nan, is_infinity.
  rewrite !FloatAxioms.eqb_spec, abs_spec, Prim2SF_infinity.
  destruct (Prim2SF d) as [s|s| |s m e]; cbv; try discriminate; eauto.
  destruct s; discriminate.
Qed.

Lemma SFcompare_finite_refl (s : bool) (m : positive) (e : Z) :
  SFcompare (S754_finite s m e) (S754_finite s m e) = Some Eq.
Proof.
  simpl. rewrite Z.compare_refl.
  replace (Pos.compare_cont Eq m m) with Eq
    by (symmetry; apply Pos.compare_cont_refl).
  destruct s; reflexivity.
Qed.

(** The only sample of a one-sample axis: [0 * (stop - start) + start] is
    [start], as long as the extent [stop - start] is finite. *)
Lemma single_sample (start stop : float) :
  is_finite (stop - start) = true ->
  (0 * (stop - start) + start =? start) = true /\
  ((start =? 0) = false -> 0 * (stop - start) + start = start).
Proof.
  intros Hfin. apply is_finite_cases in Hfin.
  assert (Hmul : exists s, Prim2SF (0 * (stop - start)) = S754_zero s).
  { rewrite mul_spec, Prim2SF_zero.
    destruct Hfin as [[s ->]|[s [m [e ->]]]]; simpl; eauto. }
  assert (Hstart : (exists s, Prim2SF start = S754_zero s) \/
                   (exists s m e, Prim2SF start = S754_finite s m e)).
  { rewrite sub_spec in Hfin.
    destruct (Prim2SF start) as [s|s| |s m e]; eauto;
      destruct (Prim2SF stop) as [s'|s'| |s' m' e'];
      try (destruct s, s');
      destruct Hfin as [[? Hf]|[? [? [? Hf]]]]; try discriminate Hf. }
  destruct Hmul as [sz Hmul]. split.
  - rewrite FloatAxioms.eqb_spec, add_spec, Hmul.
    destruct Hstart as [[s ->]|[s [m [e ->]]]].
    + destruct sz, s; reflexivity.
    + unfold SF64add, SFadd, SFeqb. now rewrite SFcompare_finite_refl.
  - intros Hnz. apply Prim2SF_inj. rewrite add_spec, Hmul.
    destruct Hstart as [[s Hs]|[s [m [e ->]]]]; [|reflexivity].
    rewrite FloatAxioms.eqb_spec, Hs, Prim2SF_zero in Hnz. discriminate Hnz.
Qed.

End Linspace.

(** C6 as stated fails on the imaginary axis: with the box
    (-2, 1, -1.5, 1.5) and resolution 1 its only sample is ymax = 1.5, not
    ymin = -1.5. *)
Lemma single_sample_imaginary_axis_is_ymax :
  Mandelbrot.axes (-2) 1 (-1.5) 1.5 1 = Ok ([-2], [1.5])%float /\
  MandelbrotFloat.axes (-2) 1 (-1.5) 1.5 1 = Ok ([-2], [1.5])%float /\
  (1.5 =? -1.5)%float = false.
Proof. repeat split; vm_compute; reflexivity. Qed.

(** C6, as the code has it.  With resolution 1 and a box of finite
    extent, each axis has a single sample, equal to the bound the axis
    starts from: [xmin] for the real axis and [ymax] for the imaginary
    axis, which both files sample from [ymax] down to [ymin].  (Equal as
    numbers; identical unless the bound is a zero, whose sign is lost.) *)
Theorem single_sample_axes (xmin xmax ymin ymax : float) :
  is_finite (xmax - xmin)%float = true ->
  is_finite (ymin - ymax)%float = true ->
  exists x0 y0,
    Mandelbrot.axes xmin xmax ymin ymax 1 = Ok ([x0], [y0]) /\
    MandelbrotFloat.axes xmin xmax ymin ymax 1 = Ok ([x0], [y0]) /\
    (x0 =? xmin)%float = true /\ (y0 =? ymax)%float = true /\
    ((xmin =? 0)%float = false -> x0 = xmin) /\
    ((ymax =? 0)%float = false -> y0 = ymax).
Proof.
  intros Hx Hy.
  destruct (single_sample xmin xmax Hx) as [Ex Ix].
  destruct (single_sample ymax ymin Hy) as [Ey Iy].
  exists (0 * (xmax - xmin) + xmin)%float, (0 * (ymin - ymax) + ymax)%float.
  unfold Mandelbrot.axes, MandelbrotFloat.axes. rewrite !linspace_one. simpl.
  repeat split; auto.
Qed.

Lemma single_sample_axes_witness :
  is_finite (1 - -2)%float = true /\
  is_finite (-1.5 - 1.5)%float = true /\
  exists x0 y0,
    Mandelbrot.axes (-2) 1 (-1.5) 1.5 1 = Ok ([x0], [y0]) /\
    MandelbrotFloat.axes (-2) 1 (-1.5) 1.5 1 = Ok ([x0], [y0]) /\
    (x0 =? -2)%float = true /\ (y0 =? 1.5)%float = true /\
    ((-2 =? 0)%float = false -> x0 = (-2)%float) /\
    ((1.5 =? 0)%float = false -> y0 = 1.5%float).
Proof.
  split; [reflexivity|]. split; [reflexivity|].
  apply (single_sample_axes (-2) 1 (-1.5) 1.5); reflexivity.
Defined.

(** ** Failure of a tile *)




(** ** Min-max normalization of a constant channel *)

Section Degenerate.

Import PolyColor.

Local Open Scope float_scope.

Lemma Prim2SF_nan : Prim2SF nan = S754_nan.
Proof. reflexivity. Qed.

(** [(b - b) / (b - b)] is NaN for every [b]: 0/0 when [b] is finite,
    NaN already in the numerator otherwise. *)
Lemma sub_self_div_nan (b : float) : (b - b) / (b - b) = nan.
Proof.
  apply Prim2SF_inj. rewrite div_spec, !sub_spec, Prim2SF_nan.
  destruct (Prim2SF b) as [[]|[]| |s m e]; try reflexivity.
  unfold SF64sub, SFsub. rewrite Z.sub_diag. reflexivity.
Qed.

Lemma fmin_self (b : float) : fmin b b = b.
Proof. unfold fmin. destruct (is_nan b); [reflexivity|]. now destruct (b <? b). Qed.

Lemma fmax_self (b : float) : fmax b b = b.
Proof. unfold fmax. destruct (is_nan b); [reflexivity|]. now destruct (b <? b). Qed.

Lemma fold_left_idem (f : float -> float -> float) (b : float) (l : list float) :
  f b b = b -> Forall (fun x => x = b) l -> fold_left f l b = b.
Proof.
  intros Hf Hall. induction Hall as [|x l -> _ IH]; simpl; [reflexivity|].
  now rewrite Hf.
Qed.

Lemma zip_with_repeat {A B D : Type} (f : A -> B -> D) (a : A) (b : B) (n : nat) :
  zip_with f (repeat a n) (repeat b n) = repeat (f a b) n.
Proof. induction n as [|n IH]; simpl; [reflexivity | now rewrite IH]. Qed.

Lemma map_repeat' {A B : Type} (f : A -> B) (a : A) (n : nat) :
  map f (repeat a n) = repeat (f a) n.
Proof. induction n as [|n IH]; simpl; [reflexivity | now rewrite IH]. Qed.

Lemma zip_with_const_grid {A B D : Type} (f : A -> B -> D) (a : A) (b : B)
    (rows cols : nat) :
  zip_with (zip_with f) (const_grid rows cols a) (const_grid rows cols b)
  = const_grid rows cols (f a b).
Proof. unfold const_grid. now rewrite zip_with_repeat, zip_with_repeat. Qed.

Lemma map_const_grid {A B : Type} (f : A -> B) (a : A) (rows cols : nat) :
  map (map f) (const_grid rows cols a) = const_grid rows cols (f a).
Proof. unfold const_grid. now rewrite !map_repeat'. Qed.

Lemma concat_const_grid (rows cols : nat) (b : float) :
  (0 < rows)%nat -> (0 < cols)%nat ->
  exists l, concat (const_grid rows cols b) = b :: l /\ Forall (fun x => x = b) l.
Proof.
  intros Hr Hc.
  assert (Hall : Forall (fun x => x = b) (concat (const_grid rows cols b))).
  { rewrite List.Forall_forall. intros x Hx. apply in_concat in Hx.
    destruct Hx as [row [Hrow Hx]]. unfold const_grid in Hrow.
    apply repeat_spec in Hrow. subst row. now apply repeat_spec in Hx. }
  destruct rows as [|rows]; [lia|]. destruct cols as [|cols]; [lia|].
  simpl in *. apply Forall_cons_1 in Hall. destruct Hall as [_ Hall]. eauto.
Qed.

(** The normalization of a constant channel divides zero by zero in every
    cell. *)
Lemma normalize_const (rows cols : nat) (b : float) :
  (0 < rows)%nat -> (0 < cols)%nat ->
  _normalize (const_grid rows cols b) = Ok (const_grid rows cols nan).
Proof.
  intros Hr Hc. unfold _normalize, amin, amax.
  destruct (concat_const_grid rows cols b Hr Hc) as [l [-> Hall]].
  rewrite (fold_left_idem fmin b l (fmin_self b) Hall).
  rewrite (fold_left_idem fmax b l (fmax_self b) Hall).
  simpl. rewrite map_const_grid, sub_self_div_nan. reflexivity.
Qed.

Lemma mul_255_nan : 255 * nan = nan.
Proof. reflexivity. Qed.

End Degenerate.

(** ** PolyColor *)

Section PolyColorFacts.

Import PolyColor.

Variable np_sin : float -> float.
Variable np_power : float -> float -> float.
Variable astype_uint8 : float -> Z.
Variable RNG : Type.
Variable random_sample : RNG -> float * RNG.
Variable mem3 : nat -> nat -> nat -> float.

Local Abbreviation apply' := (apply np_sin np_power astype_uint8 RNG random_sample mem3).
Local Abbreviation init_colors' := (_init_colors RNG random_sample).
Local Abbreviation paint' := (paint np_sin np_power astype_uint8 mem3).
Local Abbreviation draw_rows' := (draw_rows RNG random_sample).

(** What [_init_colors] does to the state. *)
Lemma init_colors_run (self : polycolor) (g : RNG) :
  init_colors' (self, g)
  = if (self.(order) + 1 <? 0) then
      (Raise (PyExc "ValueError" "negative dimensions are not allowed"), (self, g))
    else
      (Ok None,
       (with_color self (Some (fst (draw_rows' 3 (Z.to_nat (self.(order) + 1)) g))),
        snd (draw_rows' 3 (Z.to_nat (self.(order) + 1)) g))).
Proof.
  unfold _init_colors, bindM, get_self, rand, set_color, ret, with_color.
  cbn [fst snd]. change (3 <? 0) with false. rewrite orb_false_l.
  change (Z.to_nat 3) with 3%nat.
  destruct (self.(order) + 1 <? 0); [reflexivity|].
  destruct (draw_rows' 3 (Z.to_nat (order self + 1)) g) as [c g']. reflexivity.
Qed.

Lemma apply_run (self : polycolor) (g : RNG) (field : grid) :
  0 <= self.(order) + 1 ->
  apply' (Nd2 field) (self, g)
  = (paint' (with_color self (Some (fst (draw_rows' 3 (Z.to_nat (self.(order) + 1)) g))))
            field,
     (with_color self (Some (fst (draw_rows' 3 (Z.to_nat (self.(order) + 1)) g))),
      snd (draw_rows' 3 (Z.to_nat (self.(order) + 1)) g))).
Proof.
  intros Ho. unfold apply. unfold bindM at 1. rewrite init_colors_run.
  assert (E : (self.(order) + 1 <? 0) = false) by (apply Z.ltb_ge; lia).
  rewrite E. reflexivity.
Qed.

Lemma draw_length (n : nat) (g : RNG) :
  length (fst (draw RNG random_sample n g)) = n.
Proof.
  revert g. induction n as [|n IH]; intros g; simpl; [reflexivity|].
  destruct (random_sample g) as [x g1]. specialize (IH g1).
  destruct (draw RNG random_sample n g1) as [xs g2]. simpl in *. now rewrite IH.
Qed.

Lemma draw_rows_shape (rows cols : nat) (g : RNG) :
  shape rows cols (fst (draw_rows' rows cols g)).
Proof.
  revert g. induction rows as [|rows IH]; intros g; simpl.
  - split; [reflexivity | constructor].
  - pose proof (draw_length cols g) as Hrow.
    destruct (draw RNG random_sample cols g) as [row g1]. specialize (IH g1).
    destruct (draw_rows' rows cols g1) as [rest g2]. simpl in *.
    destruct IH as [Hlen Hall]. split; [simpl; now rewrite Hlen|].
    constructor; assumption.
Qed.

Lemma getitem_In {A : Type} (a : list A) (i : Z) (v : A) :
  getitem a i = Ok v -> In v a.
Proof.
  unfold getitem. destruct (_ && _); [|discriminate].
  destruct (nth_error a _) as [x|] eqn:E; [|discriminate].
  intros [= <-]. eapply nth_error_In. exact E.
Qed.

(** Every coefficient the loop of [_color_map_channel] reads is there. *)
Lemma coefficient_ok (self : polycolor) (c : grid) (n : nat) (channel i : Z) :
  self.(color) = Some c -> shape 3 n c ->
  0 <= channel < 3 -> 0 <= i < Z.of_nat n ->
  exists x, coefficient self channel i = Ok x.
Proof.
  intros Hc Hs Hch Hi. unfold coefficient. rewrite Hc.
  destruct (getitem_in_range c channel) as [row Hrow].
  { unfold len. destruct Hs as [-> _]. lia. }
  rewrite Hrow. simpl. apply getitem_in_range.
  apply getitem_In in Hrow. destruct Hs as [_ Hall].
  rewrite List.Forall_forall in Hall. unfold len. rewrite (Hall row Hrow). lia.
Qed.

(** On a constant field the accumulated channel stays constant. *)
Lemma color_terms_const (self : polycolor) (c : grid) (n : nat) (channel : Z)
    (rows cols : nat) (v : float) (its : list Z) :
  self.(color) = Some c -> shape 3 n c -> 0 <= channel < 3 ->
  Forall (fun i => 0 <= i < Z.of_nat n) its ->
  forall b, exists b',
    foldM (color_term np_sin np_power self (const_grid rows cols v) channel) its
          (const_grid rows cols b)
    = Ok (const_grid rows cols b').
Proof.
  intros Hc Hs Hch Hits. induction Hits as [|i its Hi _ IH]; intros b.
  - exists b. reflexivity.
  - destruct (coefficient_ok self c n channel i Hc Hs Hch Hi) as [x Hx].
    simpl. unfold color_term at 1. rewrite Hx. simpl.
    rewrite !zip_with_const_grid. apply IH.
Qed.

Lemma range_bounds (n : Z) : Forall (fun i => 0 <= i < n) (range n).
Proof.
  rewrite List.Forall_forall. intros i Hi. unfold range in Hi.
  apply in_map_iff in Hi. destruct Hi as [k [<- Hk]]. apply in_seq in Hk. lia.
Qed.

Lemma color_map_channel_const (self : polycolor) (c : grid) (channel : Z)
    (rows cols : nat) (v : float) :
  0 <= self.(order) + 1 ->
  self.(color) = Some c -> shape 3 (Z.to_nat (self.(order) + 1)) c ->
  0 <= channel < 3 -> (0 < rows)%nat -> (0 < cols)%nat ->
  _color_map_channel np_sin np_power self (const_grid rows cols v) channel
  = Ok (const_grid rows cols PrimFloat.nan).
Proof.
  intros Ho Hc Hs Hch Hr Hcl. unfold _color_map_channel.
  rewrite map_const_grid.
  destruct (color_terms_const self c (Z.to_nat (self.(order) + 1)) channel rows cols v
              (range (self.(order) + 1)) Hc Hs Hch) with (b := 0%float) as [b' Hb'].
  { pose proof (range_bounds (self.(order) + 1)) as H.
    eapply Forall_impl; [exact H|]. simpl. intros; lia. }
  rewrite Hb'. simpl. apply normalize_const; assumption.
Qed.

Lemma zip_with_map_repeat {A B D E : Type} (f : B -> D -> E) (g : A -> B) (x : D)
    (l : list A) (n : nat) :
  length l = n ->
  zip_with f (map g l) (repeat x n) = map (fun a => f (g a) x) l.
Proof.
  intros <-. induction l as [|a l IH]; simpl; [reflexivity | now rewrite IH].
Qed.

Lemma map_const_repeat {A B : Type} (b : B) (l : list A) (n : nat) :
  length l = n -> map (fun _ => b) l = repeat b n.
Proof.
  intros <-. induction l as [|a l IH]; simpl; [reflexivity | now rewrite IH].
Qed.

(** Writing one constant channel into a buffer given pixel by pixel. *)
Lemma set_channel_const (P : nat -> nat -> list float) (rows cols : nat)
    (channel : Z) (x : float) :
  set_channel (map (fun r => map (fun c => P r c) (seq 0 cols)) (seq 0 rows))
              channel (const_grid rows cols x)
  = map (fun r => map (fun c => <[Z.to_nat channel := x]> (P r c)) (seq 0 cols))
        (seq 0 rows).
Proof.
  unfold set_channel, const_grid.
  rewrite zip_with_map_repeat by apply length_seq.
  apply map_ext. intros r.
  now rewrite zip_with_map_repeat by apply length_seq.
Qed.

(** On a constant field every byte of the image is the conversion of NaN. *)
Lemma paint_const (self : polycolor) (c : grid) (rows cols : nat) (v : float) :
  0 <= self.(order) + 1 ->
  self.(color) = Some c -> shape 3 (Z.to_nat (self.(order) + 1)) c ->
  (0 < rows)%nat -> (0 < cols)%nat ->
  paint' self (const_grid rows cols v)
  = Ok (const_grid rows cols (repeat (astype_uint8 PrimFloat.nan) 3)).
Proof.
  intros Ho Hc Hs Hr Hcl. unfold paint.
  assert (Hrows : length (const_grid rows cols v) = rows)
    by (unfold const_grid; apply repeat_length).
  assert (Hcols : match const_grid rows cols v with
                  | [] => O | row :: _ => length row end = cols).
  { unfold const_grid. destruct rows; [lia|]. simpl. apply repeat_length. }
  rewrite Hrows, Hcols.
  change (range 3) with [0; 1; 2]. unfold foldM.
  rewrite !(color_map_channel_const self c _ rows cols v Ho Hc Hs) by (assumption || lia).
  unfold bind, empty3.
  change (seq 0 3) with [0%nat; 1%nat; 2%nat].
  rewrite !set_channel_const. unfold _cvtcolor.
  rewrite map_map. unfold const_grid.
  rewrite <- (map_const_repeat _ (seq 0 rows) rows) by apply length_seq.
  apply f_equal, map_ext. intros r. rewrite map_map.
  rewrite <- (map_const_repeat _ (seq 0 cols) cols) by apply length_seq.
  apply map_ext. intros k. reflexivity.
Qed.

(** [apply] on a constant field with at least one cell. *)
Lemma apply_const (self : polycolor) (g : RNG) (rows cols : nat) (v : float) :
  0 <= self.(order) + 1 -> (0 < rows)%nat -> (0 < cols)%nat ->
  fst (apply' (Nd2 (const_grid rows cols v)) (self, g))
  = Ok (const_grid rows cols (repeat (astype_uint8 PrimFloat.nan) 3)).
Proof.
  intros Ho Hr Hc. rewrite (apply_run self g _ Ho). cbn [fst].
  eapply paint_const; try assumption.
  - reflexivity.
  - cbn [with_color order]. apply draw_rows_shape.
Qed.

(** C4, as the code has it.  On a field of at least one cell whose values
    are all identical, [apply] raises nothing, and nothing handles the
    degenerate normalization: [_normalize] maps every constant channel to
    NaN in every cell (zero divided by zero), so does
    [_color_map_channel] for each of the three channels, and every byte of
    the image returned is the conversion of NaN to [uint8]. *)
Theorem constant_field_is_not_handled (self : polycolor) (g : RNG)
    (rows cols : nat) (v b : float) :
  (0 < rows)%nat -> (0 < cols)%nat -> 0 <= self.(order) + 1 ->
  _normalize (const_grid rows cols b) = Ok (const_grid rows cols PrimFloat.nan) /\
  (forall channel, 0 <= channel < 3 ->
     _color_map_channel np_sin np_power
       (with_color self (Some (fst (draw_rows' 3 (Z.to_nat (self.(order) + 1)) g))))
       (const_grid rows cols v) channel
     = Ok (const_grid rows cols PrimFloat.nan)) /\
  fst (apply' (Nd2 (const_grid rows cols v)) (self, g))
  = Ok (const_grid rows cols (repeat (astype_uint8 PrimFloat.nan) 3)).
Proof.
  intros Hr Hc Ho. split; [|split].
  - apply normalize_const; assumption.
  - intros channel Hch.
    eapply color_map_channel_const; try assumption.
    + reflexivity.
    + cbn [with_color order]. apply draw_rows_shape.
  - apply apply_const; assumption.
Qed.

(** C10.  [apply] draws all the coefficients anew before it does anything
    else: run from the same state of the generator, it returns the same
    result (and, when the draw succeeds, leaves the same state) whatever
    coefficients the object held before; on a 2-D field the image is the
    one painted with the 3 rows of [order + 1] coefficients drawn during
    the call, which are those the object holds afterwards.  [_init_colors] returns None whenever it returns, so the
    attribute [init_colors] of an object built by [__init__] is None. *)
Theorem apply_resamples_coefficients (self : polycolor) (stale : option grid)
    (g : RNG) (data : ndarray) (field : grid) (order0 : Z) :
  fst (apply' data (with_color self stale, g)) = fst (apply' data (self, g)) /\
  (0 <= self.(order) + 1 ->
   apply' data (with_color self stale, g) = apply' data (self, g) /\
   fst (apply' (Nd2 field) (self, g))
   = paint' (with_color self (Some (fst (draw_rows' 3 (Z.to_nat (self.(order) + 1)) g))))
            field /\
   (fst (snd (apply' (Nd2 field) (self, g)))).(color)
   = Some (fst (draw_rows' 3 (Z.to_nat (self.(order) + 1)) g)) /\
   shape 3 (Z.to_nat (self.(order) + 1))
         (fst (draw_rows' 3 (Z.to_nat (self.(order) + 1)) g))) /\
  (fst (init_colors' (self, g)) = Ok None \/
   exists e, fst (init_colors' (self, g)) = Raise e) /\
  match fst (__init__ RNG random_sample order0 g) with
  | Ok obj => obj.(init_colors) = None /\ obj.(order) = order0
  | Raise _ => order0 + 1 < 0
  end.
Proof.
  split; [|split; [|split]].
  - unfold apply. unfold bindM at 1 3. rewrite !init_colors_run.
    unfold with_color. cbn [order init_colors color].
    destruct (self.(order) + 1 <? 0); reflexivity.
  - intros Ho.
    assert (E : (self.(order) + 1 <? 0) = false) by (apply Z.ltb_ge; lia).
    split.
    + unfold apply. unfold bindM at 1 3. rewrite !init_colors_run.
      unfold with_color. cbn [order init_colors color]. rewrite E. reflexivity.
    + rewrite (apply_run self g field Ho).
      split; [reflexivity|]. split; [reflexivity | apply draw_rows_shape].
  - rewrite init_colors_run. destruct (self.(order) + 1 <? 0); cbn [fst]; eauto.
  - unfold __init__. rewrite init_colors_run. cbn [order init_colors color].
    destruct (order0 + 1 <? 0) eqn:E; cbn [fst].
    + apply Z.ltb_lt in E. exact E.
    + split; reflexivity.
Qed.

End PolyColorFacts.

Lemma constant_field_is_not_handled_witness :
  (0 < 2)%nat /\ (0 < 2)%nat /\
  0 <= (PolyColor.Build_polycolor 2 None None).(PolyColor.order) + 1 /\
  (PolyColor._normalize (PolyColor.const_grid 2 2 0.5%float)
   = Ok (PolyColor.const_grid 2 2 PrimFloat.nan) /\
   (forall channel, 0 <= channel < 3 ->
      PolyColor._color_map_channel flat_sin flat_power
        (PolyColor.with_color (PolyColor.Build_polycolor 2 None None)
           (Some (fst (PolyColor.draw_rows nat counting_sample 3
                         (Z.to_nat ((PolyColor.Build_polycolor 2 None None).(PolyColor.order) + 1))
                         O))))
        (PolyColor.const_grid 2 2 0.5%float) channel
      = Ok (PolyColor.const_grid 2 2 PrimFloat.nan)) /\
   fst (PolyColor.apply flat_sin flat_power zero_uint8 nat counting_sample zero_mem3
          (PolyColor.Nd2 (PolyColor.const_grid 2 2 0.5%float))
          (PolyColor.Build_polycolor 2 None None, O))
   = Ok (PolyColor.const_grid 2 2 (repeat (zero_uint8 PrimFloat.nan) 3))).
Proof.
  split; [lia|]. split; [lia|]. split; [simpl; lia|].
  apply (constant_field_is_not_handled flat_sin flat_power zero_uint8 nat
           counting_sample zero_mem3 (PolyColor.Build_polycolor 2 None None) O
           2 2 0.5%float 0.5%float); [lia | lia | simpl; lia].
Defined.

(** C4 as stated fails: no case of [_normalize] handles a constant
    channel.  On the 2 by 2 field of 0.5 the normalization divides zero by
    zero in every cell, and whatever the sine, the power, the random draws
    and the conversion to bytes are, every byte of the image [apply]
    returns is the conversion of NaN. *)
Lemma constant_field_divides_zero_by_zero :
  PolyColor._normalize [[0.5; 0.5]; [0.5; 0.5]]%float
  = Ok [[PrimFloat.nan; PrimFloat.nan]; [PrimFloat.nan; PrimFloat.nan]] /\
  (forall (np_sin : float -> float) (np_power : float -> float -> float)
          (astype_uint8 : float -> Z) (RNG : Type)
          (random_sample : RNG -> float * RNG) (mem3 : nat -> nat -> nat -> float)
          (self : PolyColor.polycolor) (g : RNG),
     0 <= self.(PolyColor.order) + 1 ->
     fst (PolyColor.apply np_sin np_power astype_uint8 RNG random_sample mem3
            (PolyColor.Nd2 [[0.5; 0.5]; [0.5; 0.5]]%float) (self, g))
     = Ok [[repeat (astype_uint8 PrimFloat.nan) 3; repeat (astype_uint8 PrimFloat.nan) 3];
           [repeat (astype_uint8 PrimFloat.nan) 3; repeat (astype_uint8 PrimFloat.nan) 3]]).
Proof.
  split; [vm_compute; reflexivity|].
  intros np_sin np_power astype_uint8 RNG random_sample mem3 self g Ho.
  apply (apply_const np_sin np_power astype_uint8 RNG random_sample mem3 self g
           2 2 0.5%float Ho); lia.
Qed.

(** * Further properties of the code *)

(** ** The executor of mandelbrot.py on every input *)

Lemma nth_error_lookup {A : Type} (l : list A) (i : nat) : nth_error l i = l !! i.
Proof.
  revert i. induction l as [|a l IH]; intros [|i]; simpl; auto.
Qed.

Lemma at_index_lookup (a : list float) (i : nat) (v : float) :
  a !! i = Some v -> at_index a (Z.of_nat i) = v.
Proof.
  intros Hv. pose proof (lookup_lt_Some _ _ _ Hv) as Hlt.
  unfold at_index, getitem.
  assert (E0 : (Z.of_nat i <? 0) = false) by (apply Z.ltb_ge; lia). rewrite E0.
  assert (E1 : (0 <=? Z.of_nat i) && (Z.of_nat i <? len a) = true).
  { apply andb_true_intro. unfold len.
    split; [apply Z.leb_le | apply Z.ltb_lt]; lia. }
  rewrite E1, Nat2Z.id, nth_error_lookup, Hv. reflexivity.
Qed.

Lemma tile_buf_full_shape (pix : Z -> Z -> float) (rows cols : nat) :
  shape rows cols (tile_buf pix 0 (Z.of_nat rows) 0 (Z.of_nat cols)).
Proof.
  pose proof (tile_buf_shape pix 0 (Z.of_nat rows) 0 (Z.of_nat cols)) as Hs.
  rewrite !Z.sub_0_r, !Nat2Z.id in Hs. exact Hs.
Qed.

Lemma tile_buf_full_cell (pix : Z -> Z -> float) (rows cols r c : nat) :
  (r < rows)%nat -> (c < cols)%nat ->
  cell (tile_buf pix 0 (Z.of_nat rows) 0 (Z.of_nat cols)) r c
  = Some (pix (Z.of_nat r) (Z.of_nat c)).
Proof. intros Hr Hc. rewrite tile_buf_cell by lia. reflexivity. Qed.

Lemma shape_concat_nil (rows cols : nat) (g : grid) :
  shape rows cols g -> rows = O \/ cols = O -> concat g = [].
Proof.
  intros [Hlen Hall] Hz. revert rows Hlen Hz.
  induction Hall as [|row g Hrow _ IH]; intros rows Hlen Hz; [reflexivity|].
  simpl in Hlen. destruct Hz as [->| ->]; [discriminate|].
  destruct row; [|discriminate]. simpl. eapply (IH (length g)); auto.
Qed.

(** What the executor of mandelbrot.py does before its two [print] calls:
    the merged image is the one computed pixel by pixel, also when an axis
    is empty. *)
Lemma compute_image_merged (f : float -> float -> Z -> pynum)
    (sched : list Future -> list Future) (mem : nat -> nat -> float)
    (xx yy : list float) (depth n_workers tile_size : Z) :
  completion_order sched -> 1 <= n_workers -> 1 <= tile_size ->
  Mandelbrot.compute_image_with (returning f) sched mem xx yy depth n_workers tile_size
  = let out := tile_buf (pixel f xx yy depth) 0 (len yy) 0 (len xx) in
    bind (amin out) (fun _ => bind (amax out) (fun _ => Ok out)).
Proof.
  intros Hs Hw Ht. unfold Mandelbrot.compute_image_with.
  destruct (batch_ranges_chain (len yy) tile_size ltac:(unfold len; lia) Ht)
    as [rbs [-> [Hrc [Hro _]]]].
  destruct (batch_ranges_chain (len xx) tile_size ltac:(unfold len; lia) Ht)
    as [cbs [-> [Hcc [Hco _]]]].
  simpl. unfold ProcessPoolExecutor.
  assert (E : (n_workers <=? 0) = false) by (apply Z.leb_gt; lia).
  rewrite E. simpl.
  destruct (executor_core f xx yy depth sched rbs cbs Hs Hrc Hro Hcc Hco)
    as [tiles [-> Hmerge]]. simpl.
  destruct (empty_shape mem (length yy) (length xx)) as [g0 [Hempty Hg0]].
  unfold len at 1 2. rewrite Hempty. simpl.
  fold (merge_tiles tiles g0). rewrite (Hmerge g0 Hg0). reflexivity.
Qed.





(** ** Tile sizes that are not positive *)

Lemma batch_ranges_negative (N w : Z) :
  1 <= N -> w < 0 -> Mandelbrot.batch_ranges_with_size N w = Ok [].
Proof.
  intros HN Hw. unfold Mandelbrot.batch_ranges_with_size.
  assert (E1 : (N <=? w) = false) by (apply Z.leb_gt; lia).
  assert (E0 : (w =? 0) = false) by (apply Z.eqb_neq; lia).
  rewrite E1, E0.
  pose proof (Z.div_mod N w ltac:(lia)) as Hdm.
  pose proof (Z.mod_neg_bound N w Hw) as Hmb.
  assert (Hq : N / w < 0).
  { destruct (Z_lt_ge_dec (N / w) 0) as [H|H]; [exact H|]. nia. }
  assert (E2 : (w * (N / w) <? N) = false) by (apply Z.ltb_ge; lia).
  rewrite E2. unfold range.
  replace (Z.to_nat (N / w)) with O by lia. reflexivity.
Qed.

Lemma batch_ranges_zero (N : Z) :
  1 <= N ->
  Mandelbrot.batch_ranges_with_size N 0
  = Raise (PyExc "ZeroDivisionError" "integer division or modulo by zero").
Proof.
  intros HN. unfold Mandelbrot.batch_ranges_with_size.
  assert (E1 : (N <=? 0) = false) by (apply Z.leb_gt; lia).
  now rewrite E1.
Qed.

(** X3.  For a length of at least 1, [batch_ranges_with_size] raises
    ZeroDivisionError when the batch size is 0 and returns no range at all
    when the batch size is negative. *)
Theorem batch_ranges_nonpositive_size (N batch_size : Z) :
  1 <= N ->
  (batch_size = 0 ->
   exists msg,
     Mandelbrot.batch_ranges_with_size N batch_size
     = Raise (PyExc "ZeroDivisionError" msg)) /\
  (batch_size < 0 -> Mandelbrot.batch_ranges_with_size N batch_size = Ok []).
Proof.
  intros HN. split.
  - intros ->. eexists. apply batch_ranges_zero, HN.
  - intros Hneg. apply batch_ranges_negative; assumption.
Qed.

Lemma batch_ranges_nonpositive_size_witness :
  1 <= 5 /\
  ((-2 = 0 ->
    exists msg,
      Mandelbrot.batch_ranges_with_size 5 (-2)
      = Raise (PyExc "ZeroDivisionError" msg)) /\
   (-2 < 0 -> Mandelbrot.batch_ranges_with_size 5 (-2) = Ok [])).
Proof.
  split; [lia|]. apply (batch_ranges_nonpositive_size 5 (-2)). lia.
Defined.

Lemma completion_order_nil (sched : list Future -> list Future) :
  completion_order sched ->
  sched (@nil (result TileResult)) = @nil (result TileResult).
Proof. intros Hs. apply Permutation_nil. symmetry. apply Hs. Qed.



(** ** The number of tiles *)

Lemma batch_ranges_length (N w : Z) :
  1 <= N -> 1 <= w ->
  exists l, Mandelbrot.batch_ranges_with_size N w = Ok l /\
            Z.of_nat (length l) = (N + w - 1) / w.
Proof.
  intros HN Hw.
  destruct (batch_ranges_shape N w HN Hw) as [S1 [S2 S3]].
  pose proof (Z.div_mod N w ltac:(lia)) as Hdm.
  pose proof (Z.mod_pos_bound N w ltac:(lia)) as Hmb.
  assert (Hq : 0 <= N / w) by (apply Z.div_pos; lia).
  destruct (Z_le_gt_dec N w) as [Hle|Hgt].
  - exists [(0, N)]. split; [apply S1, Hle|]. simpl.
    apply (Z.div_unique_pos _ _ 1 (N - 1)); lia.
  - destruct (Z.eq_dec (N mod w) 0) as [Hz|Hnz].
    + destruct (S3 ltac:(lia) Hz) as [full [E [_ Hlen]]].
      exists full. split; [exact E|]. rewrite Hlen, Z2Nat.id by lia.
      apply (Z.div_unique_pos _ _ (N / w) (w - 1)); lia.
    + destruct (S2 ltac:(lia) Hnz) as [full [E [_ [Hlen _]]]].
      eexists. split; [exact E|]. rewrite length_app, Hlen. simpl.
      rewrite Nat2Z.inj_add, Z2Nat.id by lia.
      apply (Z.div_unique_pos _ _ (N / w + 1) (N mod w - 1)); lia.
Qed.

(** X5.  For a length and a batch size of at least 1,
    [batch_ranges_with_size] returns ceil(N / batch_size) ranges, and the
    two nested loops of [compute_image] submit one task per pair of a row
    range and a column range: ceil(rows / tile_size) * ceil(cols /
    tile_size) tasks, the total the progress bar is created with. *)
Theorem number_of_tiles (evaluate : float -> float -> Z -> result pynum)
    (xx yy : list float) (depth tile_size : Z) :
  1 <= len yy -> 1 <= len xx -> 1 <= tile_size ->
  exists row_batches col_batches,
    Mandelbrot.batch_ranges_with_size (len yy) tile_size = Ok row_batches /\
    Mandelbrot.batch_ranges_with_size (len xx) tile_size = Ok col_batches /\
    len row_batches = (len yy + tile_size - 1) / tile_size /\
    len col_batches = (len xx + tile_size - 1) / tile_size /\
    len (Mandelbrot.submit_all evaluate xx yy depth row_batches col_batches)
    = len row_batches * len col_batches.
Proof.
  intros Hr Hc Ht.
  destruct (batch_ranges_length (len yy) tile_size Hr Ht) as [rbs [Er Hlr]].
  destruct (batch_ranges_length (len xx) tile_size Hc Ht) as [cbs [Ec Hlc]].
  exists rbs, cbs. repeat split; auto.
  unfold len. rewrite <- Nat2Z.inj_mul. f_equal.
  unfold Mandelbrot.submit_all. clear.
  induction rbs as [|rb rbs IH]; [reflexivity|].
  cbn [flat_map length]. rewrite length_app, length_map.
  unfold Future in *. rewrite IH. lia.
Qed.

Lemma number_of_tiles_witness :
  1 <= len [0; 1; 2]%float /\ 1 <= len [0; 1; 2; 3; 4]%float /\ 1 <= 2 /\
  exists row_batches col_batches,
    Mandelbrot.batch_ranges_with_size (len [0; 1; 2]%float) 2 = Ok row_batches /\
    Mandelbrot.batch_ranges_with_size (len [0; 1; 2; 3; 4]%float) 2 = Ok col_batches /\
    len row_batches = (len [0; 1; 2]%float + 2 - 1) / 2 /\
    len col_batches = (len [0; 1; 2; 3; 4]%float + 2 - 1) / 2 /\
    len (Mandelbrot.submit_all (returning Mandelbrot.fn_test)
           [0; 1; 2; 3; 4]%float [0; 1; 2]%float 9 row_batches col_batches)
    = len row_batches * len col_batches.
Proof.
  split; [vm_compute; discriminate|]. split; [vm_compute; discriminate|].
  split; [lia|].
  apply (number_of_tiles (returning Mandelbrot.fn_test)
           [0; 1; 2; 3; 4]%float [0; 1; 2]%float 9 2);
    [vm_compute; discriminate | vm_compute; discriminate | lia].
Defined.

(** ** The evaluators and their iteration budget *)

Section Budget.

Local Open Scope float_scope.

Lemma range_In (n i : Z) : In i (range n) -> (0 <= i < n)%Z.
Proof.
  intros Hi. pose proof (range_bounds n) as H.
  rewrite List.Forall_forall in H. apply H, Hi.
Qed.

Lemma range_split (m m' : Z) :
  (m <= m')%Z ->
  exists rest, range m' = range m ++ rest.
Proof.
  intros Hle. unfold range.
  exists (map Z.of_nat (seq (Z.to_nat m) (Z.to_nat m' - Z.to_nat m))).
  rewrite <- map_app, <- seq_app. do 2 f_equal. lia.
Qed.

Lemma escape_loop_app_Some (t cx cy : float) (l1 l2 : list Z) :
  forall x y i,
    escape_loop t cx cy x y l1 = Some i ->
    escape_loop t cx cy x y (l1 ++ l2) = Some i.
Proof.
  induction l1 as [|k l1 IH]; intros x y i H; [discriminate|].
  change ((k :: l1) ++ l2) with (k :: (l1 ++ l2)).
  rewrite escape_loop_step in *. destruct (t <? _); [exact H|].
  apply IH, H.
Qed.

Lemma escape_index_budget (t cx cy : float) (m m' i : Z) :
  (m <= m')%Z -> escape_index t cx cy m = Some i -> escape_index t cx cy m' = Some i.
Proof.
  intros Hle H. unfold escape_index in *.
  destruct (range_split m m' Hle) as [rest ->].
  apply escape_loop_app_Some, H.
Qed.

Lemma escape_index_bounds (t cx cy : float) (m i : Z) :
  escape_index t cx cy m = Some i -> (0 <= i < m)%Z.
Proof. intros H. apply escape_loop_In in H. apply range_In, H. Qed.

(** 16 < v entails 4 < v in binary64, for every v. *)
Lemma ltb_4_of_16 (v : float) : (16 <? v) = true -> (4 <? v) = true.
Proof.
  rewrite !ltb_spec.
  change (Prim2SF 16) with (S754_finite false 4503599627370496 (-48)).
  change (Prim2SF 4) with (S754_finite false 4503599627370496 (-50)).
  destruct (Prim2SF v) as [s|[]| |[] m e]; try (cbn; congruence).
  unfold SFltb, SFcompare.
  destruct (Z.compare_spec (-48) e) as [He|Hlt|Hgt];
    destruct (Z.compare_spec (-50) e) as [He'|Hlt'|Hgt'];
    try lia; try congruence; try reflexivity.
Qed.

(** The loop with threshold 4 fires no later than the loop with threshold
    16: as long as neither has fired they hold the same iterate. *)
Lemma escape_loop_thresholds (cx cy : float) (n : nat) :
  forall (a : nat) x y i,
    escape_loop 16 cx cy x y (map Z.of_nat (seq a n)) = Some i ->
    exists j, escape_loop 4 cx cy x y (map Z.of_nat (seq a n)) = Some j /\
              (Z.of_nat a <= j <= i)%Z.
Proof.
  induction n as [|n IH]; intros a x y i H; [discriminate|].
  pose proof (escape_loop_In _ _ _ _ _ _ _ H) as Hin.
  apply in_map_iff in Hin. destruct Hin as [k [Hk Hin]]. apply in_seq in Hin.
  cbn [seq map] in *. rewrite escape_loop_step in *.
  destruct (4 <? _) eqn:E4.
  - exists (Z.of_nat a). split; [reflexivity | lia].
  - destruct (16 <? _) eqn:E16.
    + apply ltb_4_of_16 in E16. congruence.
    + destruct (IH (S a) _ _ i H) as [j [Hj Hb]].
      exists j. split; [exact Hj | lia].
Qed.

End Budget.

(** X6.  Whether and when a point escapes does not depend on the budget:
    an escape found at index [i] within a budget [m] is found at the same
    index within every larger budget.  Hence the raw count of
    mandelbrot_float.py, once below its budget, stays the same for every
    larger budget, while mandelbrot.py returns the same index over the new
    depth. *)
Theorem escape_is_independent_of_budget (threshold cx cy : float) (m m' : Z) :
  m <= m' ->
  (forall i, escape_index threshold cx cy m = Some i ->
             escape_index threshold cx cy m' = Some i) /\
  (MandelbrotFloat.fn_test cx cy m < m ->
   MandelbrotFloat.fn_test cx cy m' = MandelbrotFloat.fn_test cx cy m) /\
  (forall i, escape_index 4 cx cy m = Some i ->
             Mandelbrot.fn_test cx cy m = PyFloat (int_truediv i m) /\
             Mandelbrot.fn_test cx cy m' = PyFloat (int_truediv i m')).
Proof.
  intros Hle. split; [|split].
  - intros i. apply escape_index_budget, Hle.
  - unfold MandelbrotFloat.fn_test.
    destruct (escape_index 16 cx cy m) as [i|] eqn:E; [|lia].
    intros _. now rewrite (escape_index_budget 16 cx cy m m' i Hle E).
  - intros i E. unfold Mandelbrot.fn_test.
    now rewrite E, (escape_index_budget 4 cx cy m m' i Hle E).
Qed.

Lemma escape_is_independent_of_budget_witness :
  50 <= 100 /\
  ((forall i, escape_index 16 3 0 50 = Some i -> escape_index 16 3 0 100 = Some i) /\
   (MandelbrotFloat.fn_test 3 0 50 < 50 ->
    MandelbrotFloat.fn_test 3 0 100 = MandelbrotFloat.fn_test 3 0 50) /\
   (forall i, escape_index 4 3 0 50 = Some i ->
              Mandelbrot.fn_test 3 0 50 = PyFloat (int_truediv i 50) /\
              Mandelbrot.fn_test 3 0 100 = PyFloat (int_truediv i 100))).
Proof.
  split; [lia|]. apply (escape_is_independent_of_budget 16 3 0 50 100). lia.
Defined.

(** X7.  The raw count of mandelbrot_float.py lies between 0 and the budget
    for every budget that is not negative, and is below the budget exactly
    when the point escaped; [fn_test] of mandelbrot.py returns either the
    int 0 or the quotient [i / depth] of an index [0 <= i < depth].  With a
    budget of 0 or less no iteration runs: the count is the budget itself
    and mandelbrot.py returns 0. *)
Theorem evaluator_results (cx cy : float) (budget : Z) :
  (0 <= budget ->
   0 <= MandelbrotFloat.fn_test cx cy budget <= budget /\
   (MandelbrotFloat.fn_test cx cy budget < budget
    <-> exists i, escape_index 16 cx cy budget = Some i)) /\
  (Mandelbrot.fn_test cx cy budget = PyInt 0 \/
   exists i, 0 <= i < budget /\
             Mandelbrot.fn_test cx cy budget = PyFloat (int_truediv i budget)) /\
  (budget <= 0 ->
   MandelbrotFloat.fn_test cx cy budget = budget /\
   Mandelbrot.fn_test cx cy budget = PyInt 0).
Proof.
  split; [|split].
  - intros Hb. unfold MandelbrotFloat.fn_test.
    destruct (escape_index 16 cx cy budget) as [i|] eqn:E.
    + apply escape_index_bounds in E. split; [lia|]. split; [eauto | lia].
    + split; [lia|]. split; [lia | intros [i Hi]; discriminate].
  - unfold Mandelbrot.fn_test.
    destruct (escape_index 4 cx cy budget) as [i|] eqn:E; [right | now left].
    exists i. split; [eapply escape_index_bounds; eauto | reflexivity].
  - intros Hb. unfold MandelbrotFloat.fn_test, Mandelbrot.fn_test, escape_index, range.
    replace (Z.to_nat budget) with O by lia. split; reflexivity.
Qed.

(** X8.  The two real-valued evaluators run the same iteration and differ
    only in the threshold of the test: whenever mandelbrot_float.py
    (threshold 16) finds an escape at index [i], mandelbrot.py (threshold 4)
    finds one at an index [j <= i], and returns [j / depth]. *)
Theorem smaller_threshold_escapes_first (cx cy : float) (depth i : Z) :
  escape_index 16 cx cy depth = Some i ->
  exists j, 0 <= j <= i /\
            escape_index 4 cx cy depth = Some j /\
            Mandelbrot.fn_test cx cy depth = PyFloat (int_truediv j depth).
Proof.
  intros H. unfold escape_index, range in H.
  destruct (escape_loop_thresholds cx cy _ 0%nat _ _ i H) as [j [Hj Hb]].
  exists j. split; [lia|]. split; [exact Hj|].
  unfold Mandelbrot.fn_test, escape_index, range. now rewrite Hj.
Qed.

Lemma smaller_threshold_escapes_first_witness :
  escape_index 16 (-2.5) 0 50 = Some 2 /\
  exists j, 0 <= j <= 2 /\
            escape_index 4 (-2.5) 0 50 = Some j /\
            Mandelbrot.fn_test (-2.5) 0 50 = PyFloat (int_truediv j 50).
Proof.
  assert (H : escape_index 16 (-2.5) 0 50 = Some 2) by (vm_compute; reflexivity).
  split; [exact H|].
  apply (smaller_threshold_escapes_first (-2.5) 0 50 2 H).
Defined.

(** ** The sequential executor of mandelbrot_float.py *)

Lemma cell_map (f : float -> float) (g : grid) (r c : nat) :
  cell (map (map f) g) r c = option_map f (cell g r c).
Proof.
  unfold cell. change (map (map f) g) with (map f <$> g).
  rewrite list_lookup_fmap. destruct (g !! r) as [row|]; [|reflexivity].
  simpl. change (map f row) with (f <$> row). rewrite list_lookup_fmap.
  destruct (row !! c); reflexivity.
Qed.

Lemma shape_map (f : float -> float) (rows cols : nat) (g : grid) :
  shape rows cols g -> shape rows cols (map (map f) g).
Proof.
  intros [Hlen Hall]. split; [now rewrite length_map|].
  rewrite List.Forall_forall in *. intros row Hrow.
  apply in_map_iff in Hrow. destruct Hrow as [row0 [<- Hin]].
  rewrite length_map. apply Hall, Hin.
Qed.

(** X9.  For every budget that a double can hold, [compute_image] of
    mandelbrot_float.py returns on every pair of axes, empty ones included,
    an image with one row per sample of [yy] and one column per sample of
    [xx]; its cell in row [r] and column [c] is the raw count
    [fn_test(xx[c], yy[r], max_it)] divided by [max_it]. *)
Theorem float_compute_image_pixelwise (xx yy : list float) (max_it : Z) :
  double_range max_it ->
  exists g,
    MandelbrotFloat.compute_image xx yy max_it = Ok g /\
    shape (length yy) (length xx) g /\
    forall r c x y, yy !! r = Some y -> xx !! c = Some x ->
      cell g r c
      = Some (Z2float (MandelbrotFloat.fn_test x y max_it) / Z2float max_it)%float.
Proof.
  intros _.
  eexists. split; [apply float_compute_image_returns|]. split.
  - apply shape_map, tile_buf_full_shape.
  - intros r c x y Hy Hx. unfold MandelbrotFloat.normalize, len.
    rewrite cell_map, tile_buf_full_cell by (eapply lookup_lt_Some; eauto).
    unfold pixel, raw_count. simpl.
    now rewrite (at_index_lookup _ _ _ Hx), (at_index_lookup _ _ _ Hy).
Qed.

Lemma float_compute_image_pixelwise_witness :
  double_range 10 /\
  exists g,
    MandelbrotFloat.compute_image [0; 1; 3]%float [0; 1]%float 10 = Ok g /\
    shape (length [0; 1]%float) (length [0; 1; 3]%float) g /\
    forall r c x y, [0; 1]%float !! r = Some y -> [0; 1; 3]%float !! c = Some x ->
      cell g r c
      = Some (Z2float (MandelbrotFloat.fn_test x y 10) / Z2float 10)%float.
Proof.
  split; [vm_compute; reflexivity|].
  apply (float_compute_image_pixelwise [0; 1; 3]%float [0; 1]%float 10).
  vm_compute; reflexivity.
Defined.

(** ** Tiles outside the image *)

Lemma mapM_first_raise {A B : Type} (f : A -> result B) (a : A) (l : list A)
    (e : pyexc) :
  f a = Raise e -> mapM f (a :: l) = Raise e.
Proof. intros H. simpl. now rewrite H. Qed.

(** X10.  [compute_tile] of mandelbrot.py raises ValueError when a bound
    pair is inverted (the shape of the buffer would be negative), and
    IndexError when a non-empty tile inside the rows reaches past the last
    column of [xx]. *)
Theorem compute_tile_out_of_bounds (xx yy : list float)
    (rmin rmax cmin cmax depth : Z) :
  (rmax < rmin \/ cmax < cmin ->
   Mandelbrot.compute_tile xx yy rmin rmax cmin cmax depth
   = Raise (PyExc "ValueError" "negative dimensions are not allowed")) /\
  (0 <= rmin < rmax -> rmax <= len yy -> 0 <= cmin <= len xx -> len xx < cmax ->
   exists msg,
     Mandelbrot.compute_tile xx yy rmin rmax cmin cmax depth
     = Raise (PyExc "IndexError" msg)).
Proof.
  split.
  - intros Hinv. unfold Mandelbrot.compute_tile, Mandelbrot.compute_tile_with.
    assert (E : (rmax - rmin <? 0) || (cmax - cmin <? 0) = true).
    { apply orb_true_iff. destruct Hinv; [left | right]; apply Z.ltb_lt; lia. }
    now rewrite E.
  - intros Hr Hr' Hc Hc'. exists "index out of bounds"%string.
    unfold Mandelbrot.compute_tile, Mandelbrot.compute_tile_with.
    assert (E : (rmax - rmin <? 0) || (cmax - cmin <? 0) = false).
    { apply orb_false_intro; apply Z.ltb_ge; lia. }
    rewrite E.
    set (inner := fun (r c : Z) =>
           bind (getitem xx c) (fun x =>
           bind (getitem yy r) (fun y =>
           bind (Ok (Mandelbrot.fn_test x y depth)) (fun v => Ok (to_float64 v))))).
    assert (Hrow : mapM (inner rmin) (range2 cmin cmax)
                   = Raise (PyExc "IndexError" "index out of bounds")).
    { assert (Hex : exists c, In c (range2 cmin cmax) /\ is_ok (inner rmin c) = false).
      { exists (len xx). split.
        - unfold range2. apply in_map_iff.
          exists (Z.to_nat (len xx - cmin)). split; [lia|]. apply in_seq. lia.
        - unfold inner, getitem.
          assert (E0 : (len xx <? 0) = false) by (apply Z.ltb_ge; unfold len; lia).
          rewrite E0, Z.ltb_irrefl, andb_false_r. reflexivity. }
      destruct (mapM_raise (inner rmin) _ Hex) as [l1 [c [l2 [e [_ [_ [Hc0 ->]]]]]]].
      f_equal. unfold inner in Hc0.
      destruct (getitem xx c) as [x|ex] eqn:Ex.
      - simpl in Hc0. rewrite (getitem_at_index yy rmin) in Hc0 by lia.
        discriminate Hc0.
      - simpl in Hc0. injection Hc0 as <-. unfold getitem in Ex.
        destruct (_ && _); [destruct (nth_error _ _)|]; congruence. }
    assert (Hrange : exists rest, range2 rmin rmax = rmin :: rest).
    { unfold range2. replace (Z.to_nat (rmax - rmin))
        with (S (Z.to_nat (rmax - rmin) - 1)) by lia.
      simpl. rewrite Z.add_0_r. eauto. }
    destruct Hrange as [rest Hrange].
    change (bind (mapM (fun r => mapM (inner r) (range2 cmin cmax)) (range2 rmin rmax))
                 (fun buf => Ok {| zz := buf; rmin := rmin; rmax := rmax;
                                   cmin := cmin; cmax := cmax |})
            = Raise (PyExc "IndexError" "index out of bounds")).
    rewrite Hrange. cbn [mapM]. rewrite Hrow. reflexivity.
Qed.

(** ** The axes *)

Lemma linspace_samples (start stop : float) (num : Z) :
  0 <= num ->
  exists l, linspace start stop num = Ok l /\ len l = num /\
            (2 <= num -> l !! Z.to_nat (num - 1) = Some stop).
Proof.
  intros Hn. unfold linspace.
  assert (E : (num <? 0) = false) by (apply Z.ltb_ge; lia). rewrite E.
  set (y0 := map Z2float (range num)).
  set (y1 := if 0 <? num - 1 then _ else _).
  set (y2 := map (fun v => (v + start)%float) y1).
  assert (Hlen1 : length y1 = Z.to_nat num).
  { unfold y1. destruct (0 <? num - 1); [destruct (_ =? _)%float|];
      rewrite length_map; unfold y0; now rewrite length_map, range_length. }
  assert (Hlen2 : length y2 = Z.to_nat num) by (unfold y2; now rewrite length_map).
  eexists. split; [reflexivity|]. split.
  - unfold len. destruct (1 <? num); rewrite ?length_insert, Hlen2; lia.
  - intros H2. assert (E1 : (1 <? num) = true) by (apply Z.ltb_lt; lia).
    rewrite E1, Hlen2.
    replace (Nat.pred (Z.to_nat num)) with (Z.to_nat (num - 1)) by lia.
    apply list_lookup_insert_eq. lia.
Qed.

(** X11.  For an image size of at least 2 the two axes built by
    [mandelbrot] (in mandelbrot.py and in mandelbrot_float.py) have exactly
    [image_size] samples each; the last sample of the real axis is exactly
    [xmax] and the last sample of the imaginary axis exactly [ymin]. *)
Theorem axes_samples (xmin xmax ymin ymax : float) (image_size : Z) :
  2 <= image_size ->
  exists xx yy,
    Mandelbrot.axes xmin xmax ymin ymax image_size = Ok (xx, yy) /\
    MandelbrotFloat.axes xmin xmax ymin ymax image_size = Ok (xx, yy) /\
    len xx = image_size /\ len yy = image_size /\
    xx !! Z.to_nat (image_size - 1) = Some xmax /\
    yy !! Z.to_nat (image_size - 1) = Some ymin.
Proof.
  intros Hn.
  destruct (linspace_samples xmin xmax image_size ltac:(lia)) as [xx [Ex [Hlx Hx]]].
  destruct (linspace_samples ymax ymin image_size ltac:(lia)) as [yy [Ey [Hly Hy]]].
  exists xx, yy. unfold Mandelbrot.axes, MandelbrotFloat.axes. rewrite Ex, Ey.
  repeat split; auto.
Qed.

Lemma axes_samples_witness :
  2 <= 101 /\
  exists xx yy,
    Mandelbrot.axes (-2) 1 (-1.5) 1.5 101 = Ok (xx, yy) /\
    MandelbrotFloat.axes (-2) 1 (-1.5) 1.5 101 = Ok (xx, yy) /\
    len xx = 101 /\ len yy = 101 /\
    xx !! Z.to_nat (101 - 1) = Some 1%float /\
    yy !! Z.to_nat (101 - 1) = Some (-1.5)%float.
Proof.
  split; [lia|]. apply (axes_samples (-2) 1 (-1.5) 1.5 101). lia.
Defined.

(** ** PolyColor on every field *)

Section PolyColorShapes.

Import PolyColor.

Variable np_sin : float -> float.
Variable np_power : float -> float -> float.
Variable astype_uint8 : float -> Z.
Variable RNG : Type.
Variable random_sample : RNG -> float * RNG.
Variable mem3 : nat -> nat -> nat -> float.

Local Abbreviation apply' := (apply np_sin np_power astype_uint8 RNG random_sample mem3).
Local Abbreviation paint' := (paint np_sin np_power astype_uint8 mem3).
Local Abbreviation draw' := (draw RNG random_sample).
Local Abbreviation draw_rows' := (draw_rows RNG random_sample).
Local Abbreviation drawn self g :=
  (fst (draw_rows RNG random_sample 3 (Z.to_nat (order self + 1)) g)).

Lemma zip_with_shape {A B : Type} (f : A -> B -> float) (rows cols : nat)
    (a : list (list A)) (b : list (list B)) :
  length a = rows -> Forall (fun row => length row = cols) a ->
  length b = rows -> Forall (fun row => length row = cols) b ->
  shape rows cols (zip_with (zip_with f) a b).
Proof.
  intros Hla Ha Hlb Hb. split.
  - rewrite length_zip_with. lia.
  - rewrite List.Forall_forall in *. intros row Hrow.
    apply list_elem_of_In, list_elem_of_lookup in Hrow. destruct Hrow as [i Hi].
    apply lookup_zip_with_Some in Hi. destruct Hi as [ra [rb [-> [Hra Hrb]]]].
    rewrite length_zip_with.
    rewrite (Ha ra), (Hb rb); [lia | |];
      apply list_elem_of_In; eapply list_elem_of_lookup_2; eauto.
Qed.

(** The accumulated channel keeps the shape of the field. *)
Lemma color_terms_shape (self : polycolor) (c : grid) (n : nat) (channel : Z)
    (rows cols : nat) (data : grid) (its : list Z) :
  self.(color) = Some c -> shape 3 n c -> 0 <= channel < 3 ->
  Forall (fun i => 0 <= i < Z.of_nat n) its ->
  shape rows cols data ->
  forall buffer, shape rows cols buffer ->
    exists buffer',
      foldM (color_term np_sin np_power self data channel) its buffer = Ok buffer' /\
      shape rows cols buffer'.
Proof.
  intros Hc Hs Hch Hits Hdata. induction Hits as [|i its Hi _ IH]; intros buffer Hb.
  - exists buffer. split; [reflexivity | exact Hb].
  - destruct (coefficient_ok self c n channel i Hc Hs Hch Hi) as [x Hx].
    simpl. unfold color_term at 1. rewrite Hx. simpl.
    apply IH. destruct Hdata as [Hld Hd]. destruct Hb as [Hlb Hbb].
    match goal with
    | |- shape _ _ (zip_with (zip_with ?f2) (zip_with (zip_with ?f1) _ _) _) =>
        pose proof (zip_with_shape f1 rows cols buffer data Hlb Hbb Hld Hd) as [H1 H2];
        exact (zip_with_shape f2 rows cols _ data H1 H2 Hld Hd)
    end.
Qed.

Lemma color_map_channel_accum (self : polycolor) (c : grid) (channel : Z)
    (rows cols : nat) (data : grid) :
  0 <= self.(order) + 1 ->
  self.(color) = Some c -> shape 3 (Z.to_nat (self.(order) + 1)) c ->
  0 <= channel < 3 -> shape rows cols data ->
  exists buffer,
    shape rows cols buffer /\
    _color_map_channel np_sin np_power self data channel = _normalize buffer.
Proof.
  intros Ho Hc Hs Hch Hdata. unfold _color_map_channel.
  destruct (color_terms_shape self c (Z.to_nat (self.(order) + 1)) channel rows cols
              data (range (self.(order) + 1)) Hc Hs Hch) with
    (buffer := map (map (fun _ : float => 0%float)) data) as [b' [Hb' Hshape]].
  - pose proof (range_bounds (self.(order) + 1)) as H.
    eapply Forall_impl; [exact H|]. simpl. intros; lia.
  - exact Hdata.
  - apply shape_map, Hdata.
  - exists b'. split; [exact Hshape|]. rewrite Hb'. reflexivity.
Qed.

Lemma normalize_shape (rows cols : nat) (buffer : grid) :
  shape rows cols buffer -> (0 < rows)%nat -> (0 < cols)%nat ->
  exists v, _normalize buffer = Ok v /\ shape rows cols v.
Proof.
  intros Hs Hr Hc. unfold _normalize.
  destruct (amin_ok _ _ _ Hs Hr Hc) as [m ->].
  destruct (amax_ok _ _ _ Hs Hr Hc) as [m' ->]. simpl.
  eexists. split; [reflexivity|]. apply shape_map, Hs.
Qed.

Lemma normalize_empty (rows cols : nat) (buffer : grid) :
  shape rows cols buffer -> rows = O \/ cols = O ->
  _normalize buffer
  = Raise (PyExc "ValueError"
             "zero-size array to reduction operation minimum which has no identity").
Proof.
  intros Hs Hz. unfold _normalize, amin.
  now rewrite (shape_concat_nil rows cols buffer Hs Hz).
Qed.

Lemma empty3_shape (rows cols : nat) : shape3 rows cols (empty3 mem3 rows cols).
Proof.
  unfold shape3, empty3. split; [now rewrite length_map, length_seq|].
  rewrite List.Forall_forall. intros row Hrow. apply in_map_iff in Hrow.
  destruct Hrow as [r [<- _]]. split; [now rewrite length_map, length_seq|].
  rewrite List.Forall_forall. intros px Hpx. apply in_map_iff in Hpx.
  destruct Hpx as [k [<- _]]. reflexivity.
Qed.

Lemma set_channel_shape (rows cols : nat) (buffer : list (list (list float)))
    (channel : Z) (v : grid) :
  shape3 rows cols buffer -> shape rows cols v ->
  shape3 rows cols (set_channel buffer channel v).
Proof.
  intros [Hlb Hb] [Hlv Hv]. unfold set_channel. split.
  - rewrite length_zip_with. lia.
  - rewrite List.Forall_forall in *. intros row Hrow.
    apply list_elem_of_In, list_elem_of_lookup in Hrow. destruct Hrow as [i Hi].
    apply lookup_zip_with_Some in Hi. destruct Hi as [rb [rv [-> [Hrb Hrv]]]].
    assert (Hinb : In rb buffer)
      by (apply list_elem_of_In; eapply list_elem_of_lookup_2; eauto).
    assert (Hinv : In rv v)
      by (apply list_elem_of_In; eapply list_elem_of_lookup_2; eauto).
    destruct (Hb rb Hinb) as [Hlrb Hpx]. specialize (Hv rv Hinv).
    split; [rewrite length_zip_with; lia|].
    rewrite List.Forall_forall in *. intros px Hin.
    apply list_elem_of_In, list_elem_of_lookup in Hin. destruct Hin as [j Hj].
    apply lookup_zip_with_Some in Hj. destruct Hj as [p [x [-> [Hp Hx]]]].
    rewrite length_insert. apply Hpx.
    apply list_elem_of_In. eapply list_elem_of_lookup_2; eauto.
Qed.

Lemma cvtcolor_shape (rows cols : nat) (buffer : list (list (list float))) :
  shape3 rows cols buffer -> shape3 rows cols (_cvtcolor astype_uint8 buffer).
Proof.
  intros [Hl Hb]. unfold _cvtcolor. split; [now rewrite length_map|].
  rewrite List.Forall_forall in *. intros row Hrow. apply in_map_iff in Hrow.
  destruct Hrow as [row0 [<- Hin]]. destruct (Hb row0 Hin) as [Hlr Hpx].
  split; [now rewrite length_map|].
  rewrite List.Forall_forall in *. intros px Hin'. apply in_map_iff in Hin'.
  destruct Hin' as [px0 [<- Hin0]]. rewrite length_map. apply Hpx, Hin0.
Qed.

Lemma shape_dims (rows cols : nat) (data : grid) :
  shape rows cols data -> (0 < rows)%nat ->
  length data = rows /\
  match data with [] => O | row :: _ => length row end = cols.
Proof.
  intros [Hl Hall] Hr. split; [exact Hl|].
  destruct data as [|row data]; [simpl in Hl; lia|].
  apply Forall_cons_1 in Hall. apply Hall.
Qed.

Lemma paint_shape (self : polycolor) (c : grid) (rows cols : nat) (data : grid) :
  0 <= self.(order) + 1 ->
  self.(color) = Some c -> shape 3 (Z.to_nat (self.(order) + 1)) c ->
  shape rows cols data -> (0 < rows)%nat -> (0 < cols)%nat ->
  exists img, paint' self data = Ok img /\ shape3 rows cols img.
Proof.
  intros Ho Hc Hs Hdata Hr Hcl. unfold paint.
  destruct (shape_dims rows cols data Hdata Hr) as [-> ->].
  change (range 3) with [0; 1; 2].
  assert (Hstep : forall buffer channel, 0 <= channel < 3 ->
            shape3 rows cols buffer ->
            exists buffer',
              bind (_color_map_channel np_sin np_power self data channel)
                   (fun v => Ok (set_channel buffer channel v)) = Ok buffer' /\
              shape3 rows cols buffer').
  { intros buffer channel Hch Hb.
    destruct (color_map_channel_accum self c channel rows cols data Ho Hc Hs Hch Hdata)
      as [acc [Hacc ->]].
    destruct (normalize_shape rows cols acc Hacc Hr Hcl) as [v [-> Hv]].
    simpl. eexists. split; [reflexivity|]. apply set_channel_shape; assumption. }
  cbn [foldM].
  destruct (Hstep (empty3 mem3 rows cols) 0 ltac:(lia) (empty3_shape rows cols))
    as [b0 [-> Hb0]]. cbn [bind].
  destruct (Hstep b0 1 ltac:(lia) Hb0) as [b1 [-> Hb1]]. cbn [bind].
  destruct (Hstep b1 2 ltac:(lia) Hb1) as [b2 [-> Hb2]]. cbn [bind].
  eexists. split; [reflexivity|]. apply cvtcolor_shape, Hb2.
Qed.

Lemma paint_empty (self : polycolor) (c : grid) (rows cols : nat) (data : grid) :
  0 <= self.(order) + 1 ->
  self.(color) = Some c -> shape 3 (Z.to_nat (self.(order) + 1)) c ->
  shape rows cols data -> rows = O \/ cols = O ->
  paint' self data
  = Raise (PyExc "ValueError"
             "zero-size array to reduction operation minimum which has no identity").
Proof.
  intros Ho Hc Hs Hdata Hz. unfold paint.
  change (range 3) with [0; 1; 2]. cbn [foldM].
  destruct (color_map_channel_accum self c 0 rows cols data Ho Hc Hs ltac:(lia) Hdata)
    as [acc [Hacc ->]].
  rewrite (normalize_empty rows cols acc Hacc Hz). reflexivity.
Qed.

Lemma apply_run' (self : polycolor) (g : RNG) (field : grid) :
  0 <= self.(order) + 1 ->
  apply' (Nd2 field) (self, g)
  = (paint' (with_color self (Some (drawn self g))) field,
     (with_color self (Some (drawn self g)),
      snd (draw_rows' 3 (Z.to_nat (self.(order) + 1)) g))).
Proof.
  intros Ho. unfold apply. unfold bindM at 1. rewrite init_colors_run.
  assert (E : (self.(order) + 1 <? 0) = false) by (apply Z.ltb_ge; lia).
  rewrite E. reflexivity.
Qed.

(** X12.  [apply] draws the coefficients before it looks at its argument:
    on an array that is not 2-D it raises ValueError, and the object
    nevertheless holds new coefficients and the generator has moved on. *)
Theorem apply_rejects_other_dimensions (self : polycolor) (g : RNG) (data : ndarray) :
  ndim data <> 2 -> 0 <= self.(order) + 1 ->
  exists msg,
    apply' data (self, g)
    = (Raise (PyExc "ValueError" msg),
       (with_color self (Some (drawn self g)),
        snd (draw_rows' 3 (Z.to_nat (self.(order) + 1)) g))).
Proof.
  intros Hd Ho. unfold apply. unfold bindM at 1. rewrite init_colors_run.
  assert (E : (self.(order) + 1 <? 0) = false) by (apply Z.ltb_ge; lia).
  rewrite E. eexists.
  destruct data; [reflexivity | simpl in Hd; congruence | reflexivity].
Qed.

(** X13.  On every field of [rows] by [cols] cells with at least one cell,
    [apply] returns: the image has [rows] rows of [cols] pixels of three
    bytes each. *)
Theorem apply_image_shape (self : polycolor) (g : RNG) (rows cols : nat)
    (field : grid) :
  shape rows cols field -> (0 < rows)%nat -> (0 < cols)%nat ->
  0 <= self.(order) + 1 ->
  exists img,
    fst (apply' (Nd2 field) (self, g)) = Ok img /\ shape3 rows cols img.
Proof.
  intros Hf Hr Hc Ho. rewrite (apply_run' self g field Ho). cbn [fst].
  eapply paint_shape; try eassumption.
  - reflexivity.
  - cbn [with_color order]. apply draw_rows_shape.
Qed.

(** X14.  On a 2-D field without cells (no row, or rows without columns)
    [apply] raises the ValueError of [np.min]. *)
Theorem apply_empty_field (self : polycolor) (g : RNG) (rows cols : nat)
    (field : grid) :
  shape rows cols field -> rows = O \/ cols = O -> 0 <= self.(order) + 1 ->
  fst (apply' (Nd2 field) (self, g))
  = Raise (PyExc "ValueError"
             "zero-size array to reduction operation minimum which has no identity").
Proof.
  intros Hf Hz Ho. rewrite (apply_run' self g field Ho). cbn [fst].
  eapply paint_empty; try eassumption.
  - reflexivity.
  - cbn [with_color order]. apply draw_rows_shape.
Qed.

End PolyColorShapes.

Lemma apply_rejects_other_dimensions_witness :
  PolyColor.ndim (PolyColor.Nd1 [0.5]%float) <> 2 /\
  0 <= (PolyColor.Build_polycolor 2 None None).(PolyColor.order) + 1 /\
  exists msg,
    PolyColor.apply flat_sin flat_power zero_uint8 nat counting_sample zero_mem3
      (PolyColor.Nd1 [0.5]%float) (PolyColor.Build_polycolor 2 None None, O)
    = (Raise (PyExc "ValueError" msg),
       (PolyColor.with_color (PolyColor.Build_polycolor 2 None None)
          (Some (fst (PolyColor.draw_rows nat counting_sample 3
                        (Z.to_nat ((PolyColor.Build_polycolor 2 None None).(PolyColor.order) + 1))
                        O))),
        snd (PolyColor.draw_rows nat counting_sample 3
               (Z.to_nat ((PolyColor.Build_polycolor 2 None None).(PolyColor.order) + 1)) O))).
Proof.
  split; [simpl; lia|]. split; [simpl; lia|].
  apply (apply_rejects_other_dimensions flat_sin flat_power zero_uint8 nat
           counting_sample zero_mem3 (PolyColor.Build_polycolor 2 None None) O
           (PolyColor.Nd1 [0.5]%float)); simpl; lia.
Defined.

Lemma apply_image_shape_witness :
  shape 2 2 [[0; 1]; [1; 0]]%float /\ (0 < 2)%nat /\ (0 < 2)%nat /\
  0 <= (PolyColor.Build_polycolor 2 None None).(PolyColor.order) + 1 /\
  exists img,
    fst (PolyColor.apply flat_sin flat_power zero_uint8 nat counting_sample zero_mem3
           (PolyColor.Nd2 [[0; 1]; [1; 0]]%float)
           (PolyColor.Build_polycolor 2 None None, O)) = Ok img /\
    shape3 2 2 img.
Proof.
  assert (Hs : shape 2 2 [[0; 1]; [1; 0]]%float)
    by (split; [reflexivity | repeat constructor]).
  split; [exact Hs|]. split; [lia|]. split; [lia|]. split; [simpl; lia|].
  apply (apply_image_shape flat_sin flat_power zero_uint8 nat counting_sample
           zero_mem3 (PolyColor.Build_polycolor 2 None None) O 2 2
           [[0; 1]; [1; 0]]%float Hs); [lia | lia | simpl; lia].
Defined.

Lemma apply_empty_field_witness :
  shape 3 0 [[]; []; []] /\ (3%nat = O \/ 0%nat = O) /\
  0 <= (PolyColor.Build_polycolor 2 None None).(PolyColor.order) + 1 /\
  fst (PolyColor.apply flat_sin flat_power zero_uint8 nat counting_sample zero_mem3
         (PolyColor.Nd2 [[]; []; []]) (PolyColor.Build_polycolor 2 None None, O))
  = Raise (PyExc "ValueError"
             "zero-size array to reduction operation minimum which has no identity").
Proof.
  assert (Hs : shape 3 0 [[]; []; []])
    by (split; [reflexivity | repeat constructor]).
  split; [exact Hs|]. split; [now right|]. split; [simpl; lia|].
  apply (apply_empty_field flat_sin flat_power zero_uint8 nat counting_sample
           zero_mem3 (PolyColor.Build_polycolor 2 None None) O 3 0
           [[]; []; []] Hs); [now right | simpl; lia].
Defined.

(** ** The random draws of PolyColor *)

Section PolyColorDraws.

Import PolyColor.

Variable np_sin : float -> float.
Variable np_power : float -> float -> float.
Variable astype_uint8 : float -> Z.
Variable RNG : Type.
Variable random_sample : RNG -> float * RNG.
Variable mem3 : nat -> nat -> nat -> float.

Local Abbreviation apply' := (apply np_sin np_power astype_uint8 RNG random_sample mem3).
Local Abbreviation draw' := (draw RNG random_sample).
Local Abbreviation draw_rows' := (draw_rows RNG random_sample).

Lemma draw_app (n1 n2 : nat) (g : RNG) :
  draw' (n1 + n2) g
  = (fst (draw' n1 g) ++ fst (draw' n2 (snd (draw' n1 g))),
     snd (draw' n2 (snd (draw' n1 g)))).
Proof.
  revert g. induction n1 as [|n1 IH]; intros g; simpl.
  - destruct (draw' n2 g); reflexivity.
  - destruct (random_sample g) as [x g1]. rewrite IH.
    destruct (draw' n1 g1) as [xs g2]. reflexivity.
Qed.

(** Drawing an array row by row is drawing its cells one after the
    other. *)
Lemma draw_rows_flat (rows cols : nat) (g : RNG) :
  concat (fst (draw_rows' rows cols g)) = fst (draw' (rows * cols) g) /\
  snd (draw_rows' rows cols g) = snd (draw' (rows * cols) g).
Proof.
  revert g. induction rows as [|rows IH]; intros g; simpl; [split; reflexivity|].
  rewrite draw_app. destruct (draw' cols g) as [row g1]. simpl.
  destruct (IH g1) as [IH1 IH2].
  destruct (draw_rows' rows cols g1) as [rest g2]. simpl in *.
  rewrite IH1, IH2. split; reflexivity.
Qed.

Lemma apply_state (self : polycolor) (g : RNG) (data : ndarray) :
  0 <= self.(order) + 1 ->
  snd (apply' data (self, g))
  = (with_color self (Some (fst (draw_rows' 3 (Z.to_nat (self.(order) + 1)) g))),
     snd (draw_rows' 3 (Z.to_nat (self.(order) + 1)) g)).
Proof.
  intros Ho. unfold apply. unfold bindM at 1. rewrite init_colors_run.
  assert (E : (self.(order) + 1 <? 0) = false) by (apply Z.ltb_ge; lia).
  rewrite E. destruct data as [v|field|c]; reflexivity.
Qed.

(** X15.  A call of [apply] consumes exactly [3 * (order + 1)] draws of the
    generator, whatever its argument, and the coefficients the object holds
    afterwards are these draws, row by row; so does [__init__].  The
    coefficients drawn by [__init__] are therefore never used by [apply]:
    the first call after the construction uses the draws number
    [3 * (order + 1) + 1] to [6 * (order + 1)]. *)
Theorem apply_consumes_draws (order0 : Z) (self : polycolor) (g : RNG) (data : ndarray) :
  0 <= order0 + 1 -> self.(order) = order0 ->
  let n := Z.to_nat (3 * (order0 + 1)) in
  (exists c,
     (fst (snd (apply' data (self, g)))).(color) = Some c /\
     concat c = fst (draw' n g) /\
     snd (snd (apply' data (self, g))) = snd (draw' n g)) /\
  (exists obj c0,
     __init__ RNG random_sample order0 g = (Ok obj, snd (draw' n g)) /\
     obj.(color) = Some c0 /\ concat c0 = fst (draw' n g) /\
     exists c1,
       (fst (snd (apply' data (obj, snd (draw' n g))))).(color) = Some c1 /\
       concat c1 = fst (draw' n (snd (draw' n g)))).
Proof.
  intros Ho Hself n.
  assert (Hn : n = (3 * Z.to_nat (order0 + 1))%nat) by (unfold n; lia).
  assert (Hstate : forall s h, s.(order) = order0 ->
    exists c, (fst (snd (apply' data (s, h)))).(color) = Some c /\
              concat c = fst (draw' n h) /\
              snd (snd (apply' data (s, h))) = snd (draw' n h)).
  { intros s h Hs. rewrite apply_state by (rewrite Hs; exact Ho). rewrite Hs.
    destruct (draw_rows_flat 3 (Z.to_nat (order0 + 1)) h) as [H1 H2].
    eexists. split; [reflexivity|]. rewrite Hn. split; [exact H1 | exact H2]. }
  split; [apply Hstate, Hself|].
  destruct (draw_rows_flat 3 (Z.to_nat (order0 + 1)) g) as [H1 H2].
  assert (Hinit : __init__ RNG random_sample order0 g
    = (Ok {| order := order0; init_colors := None;
             color := Some (fst (draw_rows' 3 (Z.to_nat (order0 + 1)) g)) |},
       snd (draw' n g))).
  { unfold __init__. rewrite init_colors_run. cbn [order init_colors color].
    assert (E : (order0 + 1 <? 0) = false) by (apply Z.ltb_ge; lia).
    rewrite E. cbn [with_color order init_colors color]. now rewrite H2, Hn. }
  eexists. eexists. split; [exact Hinit|]. cbn [color].
  split; [reflexivity|]. split; [now rewrite Hn|].
  destruct (Hstate {| order := order0; init_colors := None;
                      color := Some (fst (draw_rows' 3 (Z.to_nat (order0 + 1)) g)) |}
                   (snd (draw' n g)) eq_refl) as [c1 [Hc1 [Hcat _]]].
  exists c1. split; assumption.
Qed.

End PolyColorDraws.

Lemma apply_consumes_draws_witness :
  0 <= 2 + 1 /\ (PolyColor.Build_polycolor 2 None None).(PolyColor.order) = 2 /\
  let n := Z.to_nat (3 * (2 + 1)) in
  (exists c,
     (fst (snd (PolyColor.apply flat_sin flat_power zero_uint8 nat counting_sample
                  zero_mem3 (PolyColor.Nd2 [[0.5]]%float)
                  (PolyColor.Build_polycolor 2 None None, O)))).(PolyColor.color)
     = Some c /\
     concat c = fst (PolyColor.draw nat counting_sample n O) /\
     snd (snd (PolyColor.apply flat_sin flat_power zero_uint8 nat counting_sample
                 zero_mem3 (PolyColor.Nd2 [[0.5]]%float)
                 (PolyColor.Build_polycolor 2 None None, O)))
     = snd (PolyColor.draw nat counting_sample n O)) /\
  (exists obj c0,
     PolyColor.__init__ nat counting_sample 2 O
     = (Ok obj, snd (PolyColor.draw nat counting_sample n O)) /\
     obj.(PolyColor.color) = Some c0 /\
     concat c0 = fst (PolyColor.draw nat counting_sample n O) /\
     exists c1,
       (fst (snd (PolyColor.apply flat_sin flat_power zero_uint8 nat counting_sample
                    zero_mem3 (PolyColor.Nd2 [[0.5]]%float)
                    (obj, snd (PolyColor.draw nat counting_sample n O))))).(PolyColor.color)
       = Some c1 /\
       concat c1 = fst (PolyColor.draw nat counting_sample n
                          (snd (PolyColor.draw nat counting_sample n O)))).
Proof.
  split; [lia|]. split; [reflexivity|].
  apply (apply_consumes_draws flat_sin flat_power zero_uint8 nat counting_sample
           zero_mem3 2 (PolyColor.Build_polycolor 2 None None) O
           (PolyColor.Nd2 [[0.5]]%float)); [lia | reflexivity].
Defined.

(** ** mandelbrot_complex.py: the loops over the grid *)

Lemma getitem_lookup {A : Type} (a : list A) (i : nat) (v : A) :
  a !! i = Some v -> getitem a (Z.of_nat i) = Ok v.
Proof.
  intros Hv. pose proof (lookup_lt_Some _ _ _ Hv) as Hlt. unfold getitem.
  assert (E0 : (Z.of_nat i <? 0) = false) by (apply Z.ltb_ge; lia). rewrite E0.
  assert (E1 : (0 <=? Z.of_nat i) && (Z.of_nat i <? len a) = true).
  { apply andb_true_intro. unfold len.
    split; [apply Z.leb_le | apply Z.ltb_lt]; lia. }
  rewrite E1, Nat2Z.id, nth_error_lookup, Hv. reflexivity.
Qed.

Section ComplexLoops.

Import MandelbrotComplex MandelbrotComplexLoops.

Context {C : Type} {arith : ComplexArith C}.

Variable xx : list (list C).
Variables nrows ncols : nat.
Variable max_it : Z.
Hypothesis Hrect : rect nrows ncols xx.

Lemma getitem2_in_range (r c : Z) :
  0 <= r < Z.of_nat nrows -> 0 <= c < Z.of_nat ncols ->
  exists z, getitem2 xx r c = Ok z.
Proof.
  intros Hr Hc. destruct Hrect as [Hlen Hall]. unfold getitem2.
  destruct (getitem_in_range xx r ltac:(unfold len; lia)) as [row Hrow].
  rewrite Hrow. simpl. apply getitem_In in Hrow.
  rewrite List.Forall_forall in Hall. specialize (Hall row Hrow).
  apply getitem_in_range. unfold len. lia.
Qed.

Lemma complex_inner_loop_ok (rmin rmax cmin cmax : Z) :
  0 <= rmin <= rmax -> rmax <= Z.of_nat nrows ->
  0 <= cmin <= cmax -> cmax <= Z.of_nat ncols ->
  _mandelbrot_inner_loop xx rmin rmax cmin cmax max_it
  = Ok (mk_tile (complex_pixel xx max_it) (rmin, rmax) (cmin, cmax)).
Proof.
  intros Hr Hr' Hc Hc'. unfold _mandelbrot_inner_loop.
  assert (E : (rmax - rmin <? 0) || (cmax - cmin <? 0) = false).
  { apply orb_false_intro; apply Z.ltb_ge; lia. }
  rewrite E.
  rewrite (mapM_ok _ (fun r => map (fun c => complex_pixel xx max_it r c)
                                   (range2 cmin cmax))).
  - reflexivity.
  - intros r Hrin. apply range2_In in Hrin.
    apply mapM_ok. intros c Hcin. apply range2_In in Hcin.
    unfold complex_pixel.
    destruct (getitem2_in_range r c ltac:(lia) ltac:(lia)) as [z ->].
    reflexivity.
Qed.

Lemma complex_submit_ok (rbs cbs : list (Z * Z)) :
  Forall (fun r => 0 <= fst r /\ snd r <= Z.of_nat nrows) rbs ->
  Forall ordered_range rbs ->
  Forall (fun r => 0 <= fst r /\ snd r <= Z.of_nat ncols) cbs ->
  Forall ordered_range cbs ->
  flat_map (fun row_batch =>
    map (fun col_batch =>
      _mandelbrot_inner_loop xx (fst row_batch) (snd row_batch)
                             (fst col_batch) (snd col_batch) max_it)
      cbs) rbs
  = map Ok (flat_map (fun rb => map (fun cb => mk_tile (complex_pixel xx max_it) rb cb) cbs)
                     rbs).
Proof.
  intros Hrb Hro Hcb Hco.
  induction rbs as [|rb rbs IH]; simpl; [reflexivity|].
  apply Forall_cons_1 in Hrb. destruct Hrb as [Hrb Hrbs].
  apply Forall_cons_1 in Hro. destruct Hro as [Hro Hros].
  rewrite map_app, map_map, (IH Hrbs Hros). f_equal.
  apply map_ext_in. intros cb Hcbin.
  rewrite List.Forall_forall in Hcb, Hco.
  specialize (Hcb cb Hcbin). specialize (Hco cb Hcbin).
  unfold ordered_range in *.
  rewrite complex_inner_loop_ok by lia. destruct rb, cb; reflexivity.
Qed.

(** The tiled loop returns the buffer computed cell by cell, whatever the
    completion order and the initial contents of the buffer. *)
Lemma complex_inner_loop_mp_returns (sched : list Future -> list Future)
    (mem : nat -> nat -> float) (n_workers tile_size : Z) :
  completion_order sched -> 1 <= n_workers -> 1 <= tile_size ->
  _mandelbrot_inner_loop_mp sched mem xx 0 (Z.of_nat nrows) 0 (Z.of_nat ncols)
                            max_it n_workers tile_size
  = Ok {| out := tile_buf (complex_pixel xx max_it) 0 (Z.of_nat nrows)
                          0 (Z.of_nat ncols);
          rows := (0, Z.of_nat nrows); cols := (0, Z.of_nat ncols) |}.
Proof.
  intros Hs Hw Ht. unfold _mandelbrot_inner_loop_mp.
  change (negb (0 =? 0)) with false. cbv iota.
  rewrite !hup_batch_ranges_eq by lia.
  destruct (batch_ranges_chain (Z.of_nat nrows) tile_size ltac:(lia) Ht)
    as [rbs [-> [Hrc [Hro _]]]].
  destruct (batch_ranges_chain (Z.of_nat ncols) tile_size ltac:(lia) Ht)
    as [cbs [-> [Hcc [Hco _]]]].
  simpl. unfold ProcessPoolExecutor.
  assert (E : (n_workers <=? 0) = false) by (apply Z.leb_gt; lia).
  rewrite E. simpl.
  destruct (contiguous_bounds _ _ _ Hrc Hro) as [_ Hrb].
  destruct (contiguous_bounds _ _ _ Hcc Hco) as [_ Hcb].
  rewrite (complex_submit_ok rbs cbs Hrb Hro Hcb Hco).
  destruct (collect_results sched
              (flat_map (fun rb => map (fun cb => mk_tile (complex_pixel xx max_it) rb cb)
                                       cbs) rbs) Hs) as [tiles [-> Hperm]].
  simpl. rewrite !Z.sub_0_r.
  destruct (empty_shape mem nrows ncols) as [g0 [-> Hg0]]. simpl.
  change (foldM paste tiles g0) with (merge_tiles tiles g0).
  rewrite (merge_tiles_full (complex_pixel xx max_it) nrows ncols tiles g0 Hg0).
  - reflexivity.
  - eapply Permutation_Forall; [symmetry; exact Hperm|].
    apply product_tiles_good; assumption.
  - intros r c Hr Hc.
    destruct (product_tiles_cover (complex_pixel xx max_it) nrows ncols
                rbs cbs r c Hrc Hcc Hr Hc) as [t [Hin Hcov]].
    exists t. split; [|exact Hcov].
    eapply Permutation_in; [symmetry; exact Hperm | exact Hin].
Qed.

Lemma complex_pixel_lookup (r c : nat) (row : list C) (z : C) :
  xx !! r = Some row -> row !! c = Some z ->
  complex_pixel xx max_it (Z.of_nat r) (Z.of_nat c)
  = Z2float32 (fn_test z max_it).
Proof.
  intros Hrow Hz. unfold complex_pixel, getitem2.
  rewrite (getitem_lookup _ _ _ Hrow). simpl.
  rewrite (getitem_lookup _ _ _ Hz). reflexivity.
Qed.

End ComplexLoops.



(** ** mandelbrot_complex.py: the entry point *)

Section ComplexEntry.

Import MandelbrotComplex MandelbrotComplexLoops.

Context {C : Type} {arith : ComplexArith C}.

Variable complex_of : float -> float -> C.

(** The grid [get_grid] builds from its two axes. *)
Lemma get_grid_returns (xmin xmax ymin ymax : float) (steps : Z) :
  1 <= steps ->
  exists cs rs,
    linspace xmin xmax steps = Ok cs /\ linspace ymax ymin steps = Ok rs /\
    len cs = steps /\ len rs = steps /\
    get_grid complex_of xmin xmax ymin ymax steps
    = Ok (map (fun y => map (fun x => complex_of x y) cs) rs).
Proof.
  intros Hsteps.
  destruct (linspace_samples xmin xmax steps ltac:(lia)) as [cs [Ec [Hlc _]]].
  destruct (linspace_samples ymax ymin steps ltac:(lia)) as [rs [Er [Hlr _]]].
  exists cs, rs. repeat (split; [assumption|]).
  unfold get_grid. rewrite Ec, Er. simpl.
  rewrite (mapM_ok _ (fun i => map (fun cj => complex_of cj (at_index rs i)) cs)).
  - assert (E : map (fun i => map (fun cj => complex_of cj (at_index rs i)) cs)
                    (range steps)
                = map (fun y => map (fun x => complex_of x y) cs) rs).
    { apply (list_eq_same_length _ _ (length rs)).
      - now rewrite length_map.
      - rewrite length_map, range_length. unfold len in Hlr. lia.
      - intros i a b Hi Ha Hb.
        change (map ?f rs) with (f <$> rs) in Hb.
        change (map ?f (range steps)) with (f <$> range steps) in Ha.
        rewrite list_lookup_fmap in Ha. rewrite list_lookup_fmap in Hb.
        destruct (rs !! i) as [y|] eqn:Ey; [|discriminate].
        assert (Hri : range steps !! i = Some (Z.of_nat i)).
        { unfold range. change (map Z.of_nat ?l) with (Z.of_nat <$> l).
          rewrite list_lookup_fmap, lookup_seq_lt
            by (apply lookup_lt_Some in Ey; unfold len in Hlr; lia).
          reflexivity. }
        rewrite Hri in Ha. simpl in Ha, Hb.
        rewrite (at_index_lookup _ _ _ Ey) in Ha. congruence. }
    rewrite E. simpl. destruct rs as [|y rs]; [unfold len in Hlr; simpl in Hlr; lia|].
    reflexivity.
  - intros i Hi. apply range_In in Hi.
    rewrite (getitem_at_index rs i) by lia. reflexivity.
Qed.

Lemma grid_rect (cs rs : list float) :
  rect (length rs) (length cs)
       (map (fun y => map (fun x => complex_of x y) cs) rs).
Proof.
  split; [now rewrite length_map|].
  rewrite List.Forall_forall. intros row Hrow. apply in_map_iff in Hrow.
  destruct Hrow as [y [<- _]]. now rewrite length_map.
Qed.

Lemma mandelbrot_returns (sched : list Future -> list Future)
    (mem : nat -> nat -> float) (cs rs : list float)
    (xmin xmax ymin ymax : float) (steps max_it n_workers tile_size : Z) :
  completion_order sched -> 1 <= tile_size ->
  rs <> [] ->
  get_grid complex_of xmin xmax ymin ymax steps
  = Ok (map (fun y => map (fun x => complex_of x y) cs) rs) ->
  mandelbrot complex_of sched mem xmin xmax ymin ymax steps max_it n_workers tile_size
  = Ok (map (map (fun v => div32 v max_it))
            (tile_buf (complex_pixel
                         (map (fun y => map (fun x => complex_of x y) cs) rs) max_it)
                      0 (Z.of_nat (length rs)) 0 (Z.of_nat (length cs)))).
Proof.
  intros Hs Ht Hne Hgrid. unfold mandelbrot. rewrite Hgrid. simpl.
  set (xx := map (fun y => map (fun x => complex_of x y) cs) rs).
  assert (Hrows : len xx = Z.of_nat (length rs))
    by (unfold len, xx; now rewrite length_map).
  assert (Hcols : match xx with [] => 0 | row :: _ => len row end
                  = Z.of_nat (length cs)).
  { unfold xx. destruct rs as [|y rs']; [congruence|].
    simpl. unfold len. now rewrite length_map. }
  rewrite Hrows, Hcols.
  pose proof (grid_rect cs rs) as Hrect. fold xx in Hrect.
  destruct (n_workers <=? 1) eqn:En.
  - rewrite (complex_inner_loop_ok xx _ _ max_it Hrect) by lia. reflexivity.
  - apply Z.leb_gt in En.
    rewrite (complex_inner_loop_mp_returns xx _ _ max_it Hrect sched mem)
      by (assumption || lia).
    reflexivity.
Qed.

End ComplexEntry.



(** X18.  [mandelbrot] of mandelbrot_complex.py returns no array for a
    grid without steps: with [steps = 0] the empty list of rows makes
    [np.vstack] raise ValueError, with a negative [steps] [np.linspace]
    raises ValueError; no loop runs, whatever the worker count and the
    tile size. *)
Theorem complex_mandelbrot_without_steps
    {C : Type} {arith : MandelbrotComplex.ComplexArith C}
    (complex_of : float -> float -> C)
    (sched : list Future -> list Future) (mem : nat -> nat -> float)
    (xmin xmax ymin ymax : float) (steps max_it n_workers tile_size : Z) :
  steps <= 0 ->
  exists msg,
    MandelbrotComplexLoops.mandelbrot complex_of sched mem xmin xmax ymin ymax
                                      steps max_it n_workers tile_size
    = Raise (PyExc "ValueError" msg).
Proof.
  intros Hsteps. destruct (Z.eq_dec steps 0) as [->|Hne].
  - eexists. reflexivity.
  - unfold MandelbrotComplexLoops.mandelbrot, MandelbrotComplexLoops.get_grid,
      linspace.
    assert (E : (steps <? 0) = true) by (apply Z.ltb_lt; lia).
    rewrite E. eexists. reflexivity.
Qed.

Lemma complex_mandelbrot_without_steps_witness :
  0 <= 0 /\
  exists msg,
    MandelbrotComplexLoops.mandelbrot (arith := MandelbrotComplex.complex_double)
      double_of last_first sevens (-2) 1 (-1.5) 1.5 0 100 4 100
    = Raise (PyExc "ValueError" msg).
Proof.
  split; [lia|].
  apply (complex_mandelbrot_without_steps (arith := MandelbrotComplex.complex_double)
           double_of last_first sevens (-2) 1 (-1.5) 1.5 0 100 4 100).
  lia.
Defined.

(** ** mandelbrot_complex.py: the count *)

Section ComplexCount.

Import MandelbrotComplex.

Context {C : Type} {arith : ComplexArith C}.

Lemma fn_test_loop_app_Some (c : C) (l1 l2 : list Z) :
  forall z i,
    fn_test_loop c z l1 = Some i -> fn_test_loop c z (l1 ++ l2) = Some i.
Proof.
  induction l1 as [|k l1 IH]; intros z i Hi; [discriminate|].
  simpl in *. destruct (c_abs_gt2 _); [exact Hi|]. apply IH, Hi.
Qed.

End ComplexCount.

(** X19.  The count [fn_test] of mandelbrot_complex.py lies between 0 and
    the budget [max_it] when the budget is not negative, and is the budget
    itself when the budget is zero or negative; a count below the budget
    stays the same for every larger budget. *)
Theorem complex_count_bounds {C : Type} {arith : MandelbrotComplex.ComplexArith C}
    (c : C) (max_it : Z) :
  (0 <= max_it -> 0 <= MandelbrotComplex.fn_test c max_it <= max_it) /\
  (max_it <= 0 -> MandelbrotComplex.fn_test c max_it = max_it) /\
  (forall larger,
     MandelbrotComplex.fn_test c max_it < max_it -> max_it <= larger ->
     MandelbrotComplex.fn_test c larger = MandelbrotComplex.fn_test c max_it).
Proof.
  unfold MandelbrotComplex.fn_test. split; [|split].
  - intros Hm.
    destruct (MandelbrotComplex.fn_test_loop _ _ _) as [i|] eqn:E; [|lia].
    apply fn_test_loop_In, range_In in E. lia.
  - intros Hm. unfold range. replace (Z.to_nat max_it) with O by lia. reflexivity.
  - intros larger Hlt Hle.
    destruct (MandelbrotComplex.fn_test_loop c _ (range max_it)) as [i|] eqn:E; [|lia].
    destruct (range_split max_it larger Hle) as [rest ->].
    now rewrite (fn_test_loop_app_Some c _ rest _ _ E).
Qed.

(** ** mandelbrot_float.py: the entry point without workers *)

(** X20.  With at most one worker and a budget that a double can hold,
    zero and negative budgets included, [mandelbrot] of mandelbrot_float.py
    returns for every number of steps that is not negative an image of
    [steps] rows of [steps] cells, which for [steps = 0] is the array
    without cells.  The tile size plays no part. *)
Theorem float_mandelbrot_sequential (sched : list Future -> list Future)
    (mem : nat -> nat -> float)
    (xmin xmax ymin ymax : float) (steps max_it n_workers tile_size : Z) :
  n_workers <= 1 -> 0 <= steps -> double_range max_it ->
  exists g,
    MandelbrotFloat.mandelbrot sched mem xmin xmax ymin ymax steps max_it
                               n_workers tile_size
    = Ok g /\
    shape (Z.to_nat steps) (Z.to_nat steps) g /\
    (steps = 0 -> g = []).
Proof.
  intros Hw Hsteps _.
  destruct (linspace_samples xmin xmax steps Hsteps) as [xx [Ex [Hlx _]]].
  destruct (linspace_samples ymax ymin steps Hsteps) as [yy [Ey [Hly _]]].
  unfold MandelbrotFloat.mandelbrot, MandelbrotFloat.axes. rewrite Ex, Ey. simpl.
  assert (E : (n_workers <=? 1) = true) by (apply Z.leb_le; lia).
  rewrite E, float_compute_image_returns.
  eexists. split; [reflexivity|]. unfold len in *. split.
  - apply shape_map.
    replace (Z.to_nat steps) with (length yy) at 1 by lia.
    replace (Z.to_nat steps) with (length xx) by lia.
    apply tile_buf_full_shape.
  - intros ->. destruct yy; [reflexivity | simpl in Hly; lia].
Qed.

Lemma float_mandelbrot_sequential_witness :
  1 <= 1 /\ 0 <= 3 /\ double_range 100 /\
  exists g,
    MandelbrotFloat.mandelbrot last_first sevens (-2) 1 (-1.5) 1.5 3 100 1 100
    = Ok g /\
    shape (Z.to_nat 3) (Z.to_nat 3) g /\
    (3 = 0 -> g = []).
Proof.
  split; [lia|]. split; [lia|]. split; [vm_compute; reflexivity|].
  apply (float_mandelbrot_sequential last_first sevens (-2) 1 (-1.5) 1.5 3 100 1 100);
    [lia | lia | vm_compute; reflexivity].
Defined.
